(** * Instrumented memory allocator of InnoDB (storage/innobase/include/ut0new.h)

    A shallow embedding of the key lookup by file name, of [ut_allocator]
    and of the [ut::new_*] / [ut::delete_*] / [ut::aligned_*] families,
    together with the properties checked against them. *)

From Stdlib Require Import ZArith Lia Bool.
From Stdlib Require Import Strings.String Strings.Ascii.
From stdpp Require Import base option list gmap.

Open Scope Z_scope.

(** ** Key lookup by the file name of the caller ([UNIV_PFS_MEMORY]) *)

Module KeyRegistry.

(** [auto_event_names]: the file names that allocate memory and are
    instrumented, in the order of the source. *)
Definition auto_event_names : list string := Eval cbv in
  (
  ["api0api"; "api0misc"; "btr0btr"; "btr0cur"; "btr0load"; "btr0pcur";
   "btr0sea"; "btr0types"; "buf"; "buf0buddy"; "buf0buf"; "buf0checksum";
   "buf0dblwr"; "buf0dump"; "buf0flu"; "buf0lru"; "buf0rea"; "buf0stats";
   "buf0types"; "checksum"; "crc32"; "create"; "data0data"; "data0type";
   "data0types"; "db0err"; "ddl0buffer"; "ddl0builder"; "ddl0ctx"; "ddl0ddl";
   "ddl0file-reader"; "ddl0loader"; "ddl0merge"; "ddl0rtree"; "ddl0par-scan";
   "dict"; "dict0boot"; "dict0crea"; "dict0dd"; "dict0dict"; "dict0load";
   "dict0mem"; "dict0priv"; "dict0sdi"; "dict0stats"; "dict0stats_bg";
   "dict0types"; "dyn0buf"; "dyn0types"; "eval0eval"; "eval0proc"; "fil0fil";
   "fil0types"; "file"; "fsp0file"; "fsp0fsp"; "fsp0space"; "fsp0sysspace";
   "fsp0types"; "fts0ast"; "fts0blex"; "fts0config"; "fts0fts"; "fts0opt";
   "fts0pars"; "fts0plugin"; "fts0priv"; "fts0que"; "fts0sql"; "fts0tlex";
   "fts0tokenize"; "fts0types"; "fts0vlc"; "fut0fut"; "fut0lst"; "gis0geo";
   "gis0rtree"; "gis0sea"; "gis0type"; "ha0ha"; "ha0storage"; "ha_innodb";
   "ha_innopart"; "ha_prototypes"; "handler0alter"; "hash0hash"; "i_s";
   "ib0mutex"; "ibuf0ibuf"; "ibuf0types"; "lexyy"; "lob0lob"; "lock0iter";
   "lock0lock"; "lock0prdt"; "lock0priv"; "lock0types"; "lock0wait";
   "log0log"; "log0recv"; "log0write"; "mach0data"; "mem"; "mem0mem";
   "memory"; "mtr0log"; "mtr0mtr"; "mtr0types"; "os0atomic"; "os0event";
   "os0file"; "os0numa"; "os0once"; "os0proc"; "os0thread"; "page";
   "page0cur"; "page0page"; "page0size"; "page0types"; "page0zip";
   "pars0grm"; "pars0lex"; "pars0opt"; "pars0pars"; "pars0sym"; "pars0types";
   "que0que"; "que0types"; "read0read"; "read0types"; "rec"; "rem0cmp";
   "rem0rec"; "rem0types"; "row0ext"; "row0ft"; "row0import"; "row0ins";
   "row0log"; "row0mysql"; "row0purge"; "row0quiesce"; "row0row"; "row0sel";
   "row0types"; "row0uins"; "row0umod"; "row0undo"; "row0upd"; "row0vers";
   "sess0sess"; "srv0conc"; "srv0mon"; "srv0srv"; "srv0start"; "srv0tmp";
   "sync0arr"; "sync0debug"; "sync0policy"; "sync0sharded_rw"; "sync0rw";
   "sync0sync"; "sync0types"; "trx0i_s"; "trx0purge"; "trx0rec"; "trx0roll";
   "trx0rseg"; "trx0sys"; "trx0trx"; "trx0types"; "trx0undo"; "trx0xa";
   "usr0sess"; "usr0types"; "ut"; "ut0byte"; "ut0counter"; "ut0crc32";
   "ut0dbg"; "ut0link_buf"; "ut0list"; "ut0lock_free_hash"; "ut0lst";
   "ut0mem"; "ut0mutex"; "ut0new"; "ut0pool"; "ut0rbt"; "ut0rnd"; "ut0sort";
   "ut0stage"; "ut0ut"; "ut0vec"; "ut0wqueue"; "zipdecompress"])%string.

(** [n_auto = UT_ARR_SIZE(auto_event_names)]. *)
Definition n_auto : nat := Eval cbv in List.length auto_event_names.

(** The character [s[i]] of a zero-terminated string: the string's own
    characters, then the terminating NUL.  An index behind the
    terminator is outside the array in C; here it reads as NUL again.
    [ut_len_without_extension] stops at the terminator, and
    [ut_string_begins_with] stays in front of it as long as the first
    [b_len] characters of [b] come before the terminator of [b], which
    holds in every call the lookup makes; [CheckedReads] below has the
    loops with a read that is undefined behind the terminator. *)
Definition c_char (s : string) (i : nat) : ascii :=
  match String.get i s with
  | Some c => c
  | None => Ascii.zero
  end.

(** The body of the [for (i = 0; i < b_len; ++i)] loop of
    [ut_string_begins_with], with [n = b_len - i] iterations left. *)
Fixpoint begins_with_loop (a b : string) (n i : nat) : bool :=
  match n with
  | O => true
  | S n' =>
      if negb (Ascii.eqb (c_char a i) (c_char b i)) then false
      else begins_with_loop a b n' (S i)
  end.

(** [ut_string_begins_with(a, b, b_len)]: whether the first [b_len]
    characters of [b] are a prefix of [a]. *)
Definition ut_string_begins_with (a b : string) (b_len : nat) : bool :=
  begins_with_loop a b b_len 0.

(** [ut_len_without_extension(file)]: index of the first NUL or dot. *)
Fixpoint ut_len_without_extension (file : string) : nat :=
  match file with
  | EmptyString => O
  | String c rest =>
      if Ascii.eqb c Ascii.zero || Ascii.eqb c "."%char then O
      else S (ut_len_without_extension rest)
  end.

(** The body of the [for (i = 0; i < n_auto; ++i)] loop of
    [ut_new_get_key_by_base_file], with [n = n_auto - i] entries left. *)
Fixpoint key_loop (file : string) (len : nat) (n i : nat) : Z :=
  match n with
  | O => -1
  | S n' =>
      if ut_string_begins_with (nth i auto_event_names EmptyString) file len
      then Z.of_nat i
      else key_loop file len n' (S i)
  end.

(** [ut_new_get_key_by_base_file(file, len)]: index of the memory key, or
    [-1] if not found. *)
Definition ut_new_get_key_by_base_file (file : string) (len : nat) : Z :=
  key_loop file len n_auto 0.

(** [ut_new_get_key_by_file(file)]. *)
Definition ut_new_get_key_by_file (file : string) : Z :=
  ut_new_get_key_by_base_file file (ut_len_without_extension file).

(** [UT_NEW_THIS_FILE_PSI_KEY] for a file whose [MY_BASENAME] is [file].
    [PSI_NOT_INSTRUMENTED] comes from psi_bits.h and [auto_event_keys] is
    filled in by the performance schema at start-up, so both are taken as
    parameters. *)
Definition UT_NEW_THIS_FILE_PSI_KEY
    (PSI_NOT_INSTRUMENTED : Z) (auto_event_keys : nat -> Z)
    (file : string) : Z :=
  let index := ut_new_get_key_by_file file in
  if index =? -1 then PSI_NOT_INSTRUMENTED
  else auto_event_keys (Z.to_nat index).

(** The identifier the lookup works on: the base name with the extension
    stripped. *)
Definition identifier_of (file : string) : string :=
  String.substring 0 (ut_len_without_extension file) file.

(** Index of the first element of [l] that satisfies [p], counted from
    [i]. *)
Fixpoint find_index {A : Type} (p : A -> bool) (l : list A) (i : nat)
  : option nat :=
  match l with
  | [] => None
  | x :: l' => if p x then Some i else find_index p l' (S i)
  end.

(** The lookup as the specification words it: the first table entry whose
    name is a prefix of the identifier. *)
Definition resolve_by_callsite_spec (identifier : string) : option nat :=
  find_index (fun name => String.prefix name identifier) auto_event_names 0.

(** The lookup the other way round: the first table entry whose name
    begins with the identifier. *)
Definition first_entry_beginning_with (identifier : string) : option nat :=
  find_index (fun name => String.prefix identifier name) auto_event_names 0.

(** The [int] the lookup returns for a search result. *)
Definition index_or_minus_one (r : option nat) : Z :=
  match r with
  | Some i => Z.of_nat i
  | None => -1
  end.

End KeyRegistry.

(** ** The allocator: data, environment and effects *)

(** [size_t] is 64 bits wide; arithmetic on it wraps around. *)
Definition SIZE_MAX : Z := 2 ^ 64 - 1.
Definition size_t (z : Z) : Z := z mod 2 ^ 64.

(** What a call can throw: [std::bad_alloc], [std::bad_array_new_length],
    or whatever a constructor of [T] throws. *)
Inductive exn : Type :=
| bad_alloc
| bad_array_new_length
| ctor_exception (code : Z).

(** [struct ut_new_pfx_t] with [UNIV_PFS_MEMORY]. *)
Record ut_new_pfx_t : Type := mk_pfx {
  m_key : Z;
  m_owner : Z;
  m_size : Z
}.

(** [class ut_allocator<T>]: its only data member is the key. *)
Record ut_allocator : Type := mk_allocator {
  alloc_m_key : Z
}.

(** The calls that leave the allocator, in the order they are made. *)
Inductive event : Type :=
| EvMalloc (bytes res : Z)
| EvCalloc (nmemb bytes res : Z)
| EvRealloc (old bytes res : Z)
| EvFree (p : Z)
| EvSleep (seconds : Z)
| EvMemoryAlloc (key size : Z)
| EvMemoryFree (key size owner : Z)
| EvCtor (addr : Z)
| EvDtor (addr : Z).

(** Everything the header leaves open: the sizes of [T] and of the
    prefix, the constants defined elsewhere, and the behaviour of the
    collaborators (the OS allocator, the performance schema, the
    constructors of [T]). *)
Record env : Type := mk_env {
  sizeof_T : Z;
  sizeof_pfx : Z;
  alloc_max_retries : Z;
  PSI_NOT_INSTRUMENTED : Z;
  UNIV_DEBUG : bool;
  (** the answer of the OS allocator to its i-th request; [None] is a
      null result *)
  os_answer : nat -> option positive;
  (** [PSI_MEMORY_CALL(memory_alloc)(key, size, &owner)]: the key it
      returns and the owner it stores *)
  psi_memory_alloc : Z -> Z -> Z * Z;
  (** whether the i-th constructor call of the run, made with the given
      arguments, throws *)
  T_ctor : nat -> list Z -> option exn
}.

(** What the aligned allocations keep about a block, see
    [Aligned_alloc] below. *)
Record aligned_meta : Type := mk_aligned {
  a_base : Z;
  a_key : Z;
  a_owner : Z;
  a_total : Z;
  a_size : Z
}.

Record state : Type := mk_state {
  os_calls : nat;
  ctor_calls : nat;
  pfx_mem : gmap Z ut_new_pfx_t;
  aligned_mem : gmap Z aligned_meta;
  trace : list event
}.

Definition initial_state : state := mk_state 0 0 ∅ ∅ [].

Definition set_pfx_mem (f : gmap Z ut_new_pfx_t -> gmap Z ut_new_pfx_t)
    (s : state) : state :=
  mk_state (os_calls s) (ctor_calls s) (f (pfx_mem s)) (aligned_mem s)
    (trace s).

Definition set_aligned_mem
    (f : gmap Z aligned_meta -> gmap Z aligned_meta) (s : state) : state :=
  mk_state (os_calls s) (ctor_calls s) (pfx_mem s) (f (aligned_mem s))
    (trace s).

Definition log (e : event) (s : state) : state :=
  mk_state (os_calls s) (ctor_calls s) (pfx_mem s) (aligned_mem s)
    (trace s ++ [e]).

(** How a call ends: it returns, it throws, it runs into undefined
    behaviour (or a failed debug assertion), or the model ran out of
    fuel inside a loop. *)
Inductive outcome (A : Type) : Type :=
| Ret (a : A)
| Throw (e : exn)
| Fault
| Timeout.
Arguments Ret {A} a.
Arguments Throw {A} e.
Arguments Fault {A}.
Arguments Timeout {A}.

(** Computations read the loop fuel and thread the state. *)
Definition M (A : Type) : Type := nat -> state -> outcome A * state.

Definition ret {A : Type} (a : A) : M A := fun _ s => (Ret a, s).

Definition bind {A B : Type} (m : M A) (f : A -> M B) : M B :=
  fun fuel s =>
    match m fuel s with
    | (Ret a, s') => f a fuel s'
    | (Throw e, s') => (Throw e, s')
    | (Fault, s') => (Fault, s')
    | (Timeout, s') => (Timeout, s')
    end.

Definition throw {A : Type} (e : exn) : M A := fun _ s => (Throw e, s).
Definition fault {A : Type} : M A := fun _ s => (Fault, s).

Declare Scope alloc_scope.
Delimit Scope alloc_scope with alloc.
Notation "x <- m ;; k" := (bind m (fun x => k))
  (at level 100, m at level 99, k at level 200, right associativity)
  : alloc_scope.
Notation "m ;; k" := (bind m (fun _ => k))
  (at level 100, k at level 200, right associativity) : alloc_scope.
Open Scope alloc_scope.

(** [try { body } catch (...) { handler; throw; }] *)
Definition try_catch_rethrow {A : Type} (body : M A) (handler : M unit)
  : M A :=
  fun fuel s =>
    match body fuel s with
    | (Throw e, s') => (handler ;; throw e) fuel s'
    | r => r
    end.

Definition emit (e : event) : M unit := fun _ s => (Ret tt, log e s).

(** [ut_ad(cond)]: checked in debug builds only. *)
Definition ut_ad (E : env) (cond : bool) : M unit :=
  if UNIV_DEBUG E && negb cond then fault else ret tt.

(** A request to the OS allocator: it consumes the next answer, logs the
    call and, when it succeeds, [move] updates the stored prefixes. *)
Definition os_result (E : env) (i : nat) : Z :=
  match os_answer E i with
  | Some p => Z.pos p
  | None => 0
  end.

Definition os_request (E : env) (ev : Z -> event)
    (move : Z -> gmap Z ut_new_pfx_t -> gmap Z ut_new_pfx_t) : M Z :=
  fun _ s =>
    let res := os_result E (os_calls s) in
    (Ret res,
     mk_state (S (os_calls s)) (ctor_calls s)
       (if res =? 0 then pfx_mem s else move res (pfx_mem s))
       (aligned_mem s) (trace s ++ [ev res])).

(** [::malloc(bytes)] *)
Definition os_malloc (E : env) (bytes : Z) : M Z :=
  os_request E (EvMalloc bytes) (fun _ m => m).

(** [::calloc(nmemb, bytes)] *)
Definition os_calloc (E : env) (nmemb bytes : Z) : M Z :=
  os_request E (EvCalloc nmemb bytes) (fun _ m => m).

(** [::realloc(old, bytes)]: on success the content, and so the prefix
    stored at [old], is found at the new address and [old] is gone. *)
Definition os_realloc (E : env) (old bytes : Z) : M Z :=
  os_request E (EvRealloc old bytes)
    (fun res m =>
       match m !! old with
       | Some h => <[res := h]> (delete old m)
       | None => delete old m
       end).

(** [::free(p)] *)
Definition os_free (p : Z) : M unit :=
  fun _ s => (Ret tt, log (EvFree p) (set_pfx_mem (delete p) s)).

(** [std::this_thread::sleep_for(std::chrono::seconds(n))] *)
Definition sleep_for_seconds (n : Z) : M unit := emit (EvSleep n).

(** [new (addr) T(args...)]: the next constructor call of the run. *)
Definition construct_at (E : env) (addr : Z) (args : list Z) : M unit :=
  fun _ s =>
    match T_ctor E (ctor_calls s) args with
    | None =>
        (Ret tt,
         mk_state (os_calls s) (S (ctor_calls s)) (pfx_mem s)
           (aligned_mem s) (trace s ++ [EvCtor addr]))
    | Some e =>
        (Throw e,
         mk_state (os_calls s) (S (ctor_calls s)) (pfx_mem s)
           (aligned_mem s) (trace s))
    end.

(** [p->~T()] *)
Definition destroy_at (addr : Z) : M unit := emit (EvDtor addr).

(** The retry loop of [allocate] and [reallocate]:
    [for (size_t retries = 1;; retries++) { ptr = attempt;
       if (ptr != nullptr || retries >= alloc_max_retries) break;
       sleep_for(seconds(1)); }] *)
Fixpoint retry_loop (E : env) (attempt : M Z) (retries : Z) (fuel : nat)
  : state -> outcome Z * state :=
  match fuel with
  | O => fun s => (Timeout, s)
  | S fuel' =>
      (ptr <- attempt ;;
       if negb (ptr =? 0) || (alloc_max_retries E <=? retries) then ret ptr
       else (sleep_for_seconds 1 ;;
             fun _ => retry_loop E attempt (size_t (retries + 1)) fuel'))
      fuel'
  end.

(** ** [ut_allocator<T>] *)

(** [max_size()] *)
Definition max_size (E : env) : Z := (SIZE_MAX - sizeof_pfx E) / sizeof_T E.

(** The accounting call of [allocate_trace] and the three stores into
    [*pfx] that follow it. *)
Definition write_prefix (E : env) (size key pfx : Z) : M unit :=
  fun _ s =>
    let '(k, owner) := psi_memory_alloc E key size in
    (Ret tt,
     log (EvMemoryAlloc key size)
       (set_pfx_mem (<[pfx := mk_pfx k owner size]>) s)).

(** [allocate_trace(size, key, pfx)] *)
Definition allocate_trace (E : env) (a : ut_allocator) (size key pfx : Z)
  : M unit :=
  let key :=
    if negb (alloc_m_key a =? PSI_NOT_INSTRUMENTED E) then alloc_m_key a
    else key in
  write_prefix E size key pfx.

(** [deallocate_trace(pfx)]: reading a prefix that was never written is
    undefined. *)
Definition deallocate_trace (pfx : Z) : M unit :=
  fun fuel s =>
    match pfx_mem s !! pfx with
    | Some h => emit (EvMemoryFree (m_key h) (m_size h) (m_owner h)) fuel s
    | None => (Fault, s)
    end.

(** [allocate(n_elements, hint, key, set_to_zero)] *)
Definition allocate (E : env) (a : ut_allocator)
    (n_elements hint key : Z) (set_to_zero : bool) : M Z :=
  if max_size E <? n_elements then throw bad_array_new_length
  else
    let total_bytes := size_t (n_elements * sizeof_T E) in
    let total_bytes := size_t (total_bytes + sizeof_pfx E) in
    ptr <- retry_loop E
             (if set_to_zero then os_calloc E 1 total_bytes
              else os_malloc E total_bytes) 1 ;;
    if ptr =? 0 then throw bad_alloc
    else
      let pfx := ptr in
      allocate_trace E a total_bytes key pfx ;;
      ret (pfx + sizeof_pfx E).

(** [deallocate(ptr, n_elements)] *)
Definition deallocate (E : env) (ptr : Z) : M unit :=
  if ptr =? 0 then ret tt
  else
    let pfx := ptr - sizeof_pfx E in
    deallocate_trace pfx ;;
    os_free pfx.

(** [reallocate(ptr, n_elements, key)] *)
Definition reallocate (E : env) (a : ut_allocator)
    (ptr n_elements key : Z) : M Z :=
  if n_elements =? 0 then
    deallocate E ptr ;;
    ret 0
  else if ptr =? 0 then allocate E a n_elements 0 key false
  else if max_size E <? n_elements then ret 0
  else
    let pfx_old := ptr - sizeof_pfx E in
    let total_bytes :=
      size_t (size_t (n_elements * sizeof_T E) + sizeof_pfx E) in
    pfx_new <- retry_loop E (os_realloc E pfx_old total_bytes) 1 ;;
    if pfx_new =? 0 then ret 0
    else
      deallocate_trace pfx_new ;;
      allocate_trace E a total_bytes key pfx_new ;;
      ret (pfx_new + sizeof_pfx E).

(** A loop inside a [try] block leaves its local variables behind for
    the handler: such a loop returns them next to the way it ended. *)
Definition run_then {X : Type} (r : outcome unit * state) (x : X)
    (k : state -> outcome unit * X * state) : outcome unit * X * state :=
  match r with
  | (Ret _, s') => k s'
  | (Throw e, s') => (Throw e, x, s')
  | (Fault, s') => (Fault, x, s')
  | (Timeout, s') => (Timeout, x, s')
  end.

(** [for (i = 0; i < n_elements; i++) { new (p) T; ++p; }] of
    [new_array]; the locals are [(i, p)]. *)
Fixpoint new_array_construct (E : env) (n_elements i p : Z) (fuel : nat)
    (s : state) : outcome unit * (Z * Z) * state :=
  match fuel with
  | O => (Timeout, (i, p), s)
  | S fuel' =>
      if i <? n_elements then
        run_then (construct_at E p [] fuel' s) (i, p)
          (new_array_construct E n_elements (size_t (i + 1))
             (p + sizeof_T E) fuel')
      else (Ret tt, (i, p), s)
  end.

(** [for (size_type j = 0; j < i; j++) { --p; p->~T(); }] *)
Fixpoint new_array_rollback (E : env) (i j p : Z) (fuel : nat)
  : state -> outcome unit * state :=
  match fuel with
  | O => fun s => (Timeout, s)
  | S fuel' =>
      if j <? i then
        let p := p - sizeof_T E in
        (destroy_at p ;;
         fun _ => new_array_rollback E i (size_t (j + 1)) p fuel') fuel'
      else ret tt fuel'
  end.

(** [new_array(n_elements, key)] *)
Definition new_array (E : env) (a : ut_allocator) (n_elements key : Z)
  : M Z :=
  p <- allocate E a n_elements 0 key false ;;
  let first := p in
  fun fuel s =>
    match new_array_construct E n_elements 0 p fuel s with
    | (Throw e, (i, p), s') =>
        ((fun fuel => new_array_rollback E i 0 p fuel) ;;
         deallocate E first ;;
         throw e) fuel s'
    | (Ret _, _, s') => (Ret first, s')
    | (Fault, _, s') => (Fault, s')
    | (Timeout, _, s') => (Timeout, s')
    end.

(** [n_elements_allocated(ptr)] *)
Definition n_elements_allocated (E : env) (ptr : Z) : M Z :=
  fun fuel s =>
    match pfx_mem s !! (ptr - sizeof_pfx E) with
    | Some pfx =>
        let user_bytes := size_t (m_size pfx - sizeof_pfx E) in
        (ut_ad E (user_bytes mod sizeof_T E =? 0) ;;
         ret (user_bytes / sizeof_T E)) fuel s
    | None => (Fault, s)
    end.

(** [for (size_type i = 0; i < n_elements; i++) { p->~T(); --p; }] *)
Fixpoint delete_array_destroy (E : env) (n_elements i p : Z) (fuel : nat)
  : state -> outcome unit * state :=
  match fuel with
  | O => fun s => (Timeout, s)
  | S fuel' =>
      if i <? n_elements then
        (destroy_at p ;;
         fun _ =>
           delete_array_destroy E n_elements (size_t (i + 1))
             (p - sizeof_T E) fuel') fuel'
      else ret tt fuel'
  end.

(** [delete_array(ptr)] *)
Definition delete_array (E : env) (ptr : Z) : M unit :=
  if ptr =? 0 then ret tt
  else
    n_elements <- n_elements_allocated E ptr ;;
    let p := ptr + (n_elements - 1) * sizeof_T E in
    (fun fuel => delete_array_destroy E n_elements 0 p fuel) ;;
    deallocate E ptr.

(** [operator==] and [operator!=] on two allocators of the same type. *)
Definition allocator_eq (lhs rhs : ut_allocator) : bool := true.
Definition allocator_ne (lhs rhs : ut_allocator) : bool :=
  negb (allocator_eq lhs rhs).

(** ** The [ut::] functions *)

Module ut.

(** Modelled from the spec: [detail::Alloc_<impl>::alloc<Zero>(size, key)]
    of detail/ut0new.h, the raw allocation core (section 4.2): [size]
    bytes of user-visible storage preceded by a prefix header that
    records the total size, the key and the owner; the OS allocation is
    retried within the retry budget, and null is returned when it is
    exhausted. *)
Definition Alloc_alloc (E : env) (zero_initialized : bool) (size key : Z)
  : M Z :=
  let total_bytes := size_t (size + sizeof_pfx E) in
  ptr <- retry_loop E
           (if zero_initialized then os_calloc E 1 total_bytes
            else os_malloc E total_bytes) 1 ;;
  if ptr =? 0 then ret 0
  else
    write_prefix E total_bytes key ptr ;;
    ret (ptr + sizeof_pfx E).

(** Modelled from the spec: [detail::Alloc_<impl>::free(ptr)]: a no-op on
    null; otherwise it retires the accounting entry of the allocation
    record and releases the block. *)
Definition Alloc_free (E : env) (ptr : Z) : M unit :=
  if ptr =? 0 then ret tt
  else
    let pfx := ptr - sizeof_pfx E in
    deallocate_trace pfx ;;
    os_free pfx.

(** Modelled from the spec: [detail::Alloc_<impl>::datalen(ptr)]: the
    user-visible size of the block, from the recorded total size. *)
Definition Alloc_datalen (E : env) (ptr : Z) : M Z :=
  fun _ s =>
    match pfx_mem s !! (ptr - sizeof_pfx E) with
    | Some pfx => (Ret (size_t (m_size pfx - sizeof_pfx E)), s)
    | None => (Fault, s)
    end.

(** Modelled from the spec: [detail::construct<T>(mem, offset, tuple)]:
    the element at [mem + offset] is constructed in place from its
    argument tuple. *)
Definition construct (E : env) (mem offset : Z) (args : list Z) : M unit :=
  construct_at E (mem + offset) args.

Definition align_up (x alignment : Z) : Z :=
  (x + alignment - 1) / alignment * alignment.

(** Modelled from the spec: [detail::Aligned_alloc_<impl>::alloc<Zero>
    (size, alignment, key)] (section 4.5): the retry and accounting
    contract of the raw core; the returned pointer is a multiple of
    [alignment], behind variable padding; what is needed to free the
    block and to recover [size] is kept where the pointer alone leads
    to it. *)
Definition Aligned_alloc (E : env) (zero_initialized : bool)
    (size alignment key : Z) : M Z :=
  let total_bytes := size_t (size + alignment + sizeof_pfx E) in
  base <- retry_loop E
            (if zero_initialized then os_calloc E 1 total_bytes
             else os_malloc E total_bytes) 1 ;;
  if base =? 0 then ret 0
  else
    let ptr := align_up (base + sizeof_pfx E) alignment in
    fun _ s =>
      let '(k, owner) := psi_memory_alloc E key total_bytes in
      (Ret ptr,
       log (EvMemoryAlloc key total_bytes)
         (set_aligned_mem
            (<[ptr := mk_aligned base k owner total_bytes size]>) s)).

(** Modelled from the spec: [detail::Aligned_alloc_<impl>::free(ptr)]: a
    no-op on null, as the raw [free]; otherwise the accounting entry is
    retired and the block released. *)
Definition Aligned_free (ptr : Z) : M unit :=
  if ptr =? 0 then ret tt
  else
    fun fuel s =>
      match aligned_mem s !! ptr with
      | Some b =>
          (emit (EvMemoryFree (a_key b) (a_total b) (a_owner b)) ;;
           emit (EvFree (a_base b)))
            fuel (set_aligned_mem (delete ptr) s)
      | None => (Fault, s)
      end.

(** Modelled from the spec: [detail::Aligned_alloc_<impl>::datalen(ptr)]:
    the size stored for the block. *)
Definition Aligned_datalen (ptr : Z) : M Z :=
  fun _ s =>
    match aligned_mem s !! ptr with
    | Some b => (Ret (a_size b), s)
    | None => (Fault, s)
    end.

(** [ut::malloc_withkey(key, size)] *)
Definition malloc_withkey (E : env) (key size : Z) : M Z :=
  Alloc_alloc E false size key.

(** [ut::free(ptr)] *)
Definition free (E : env) (ptr : Z) : M unit := Alloc_free E ptr.

(** [ut::new_withkey<T>(key, args...)] *)
Definition new_withkey (E : env) (key : Z) (args : list Z) : M Z :=
  mem <- malloc_withkey E key (sizeof_T E) ;;
  if mem =? 0 then throw bad_alloc
  else
    try_catch_rethrow (construct_at E mem args) (free E mem) ;;
    ret mem.

(** [ut::delete_(ptr)] *)
Definition delete_ (E : env) (ptr : Z) : M unit :=
  if ptr =? 0 then ret tt
  else
    destroy_at ptr ;;
    free E ptr.

(** The pack expansion
    [arr_t{0, (detail::construct<T>(mem, sizeof(T) * idx++, args), 0)...}]:
    one call per argument tuple, left to right; the local is [idx]. *)
Fixpoint construct_pack (E : env) (mem idx : Z) (args : list (list Z))
    (fuel : nat) (s : state) : outcome unit * Z * state :=
  match args with
  | [] => (Ret tt, idx, s)
  | a :: rest =>
      let offset := size_t (sizeof_T E * idx) in
      let idx := size_t (idx + 1) in
      run_then (construct E mem offset a fuel s) idx
        (construct_pack E mem idx rest fuel)
  end.

(** [for (; offset != 0; offset -= sizeof(T))
      reinterpret_cast<T *>(mem + offset - sizeof(T))->~T();] *)
Fixpoint destroy_downwards (E : env) (mem offset : Z) (fuel : nat)
  : state -> outcome unit * state :=
  match fuel with
  | O => fun s => (Timeout, s)
  | S fuel' =>
      if negb (offset =? 0) then
        (destroy_at (mem + offset - sizeof_T E) ;;
         fun _ =>
           destroy_downwards E mem (size_t (offset - sizeof_T E)) fuel')
          fuel'
      else ret tt fuel'
  end.

(** [ut::new_arr_withkey<T>(key, args...)], one tuple per element. *)
Definition new_arr_withkey (E : env) (key : Z) (args : list (list Z))
  : M Z :=
  mem <- Alloc_alloc E false
           (size_t (sizeof_T E * Z.of_nat (length args))) key ;;
  if mem =? 0 then throw bad_alloc
  else
    fun fuel s =>
      match construct_pack E mem 0 args fuel s with
      | (Throw e, idx, s') =>
          ((fun fuel =>
              destroy_downwards E mem (size_t ((idx - 1) * sizeof_T E))
                fuel) ;;
           Alloc_free E mem ;;
           throw e) fuel s'
      | (Ret _, _, s') => (Ret mem, s')
      | (Fault, _, s') => (Fault, s')
      | (Timeout, _, s') => (Timeout, s')
      end.

(** [for (; offset < bound; offset += sizeof(T)) new (mem + offset) T{};]
    the local is [offset]. *)
Fixpoint construct_upwards (E : env) (mem bound offset : Z) (fuel : nat)
    (s : state) : outcome unit * Z * state :=
  match fuel with
  | O => (Timeout, offset, s)
  | S fuel' =>
      if offset <? bound then
        run_then (construct_at E (mem + offset) [] fuel' s) offset
          (construct_upwards E mem bound (size_t (offset + sizeof_T E))
             fuel')
      else (Ret tt, offset, s)
  end.

(** [ut::new_arr_withkey<T>(key, ut::Count{count})] *)
Definition new_arr_withkey_count (E : env) (key count : Z) : M Z :=
  mem <- Alloc_alloc E false (size_t (sizeof_T E * count)) key ;;
  if mem =? 0 then throw bad_alloc
  else
    fun fuel s =>
      match
        construct_upwards E mem (size_t (sizeof_T E * count)) 0 fuel s
      with
      | (Throw e, offset, s') =>
          ((fun fuel => destroy_downwards E mem offset fuel) ;;
           Alloc_free E mem ;;
           throw e) fuel s'
      | (Ret _, _, s') => (Ret mem, s')
      | (Fault, _, s') => (Fault, s')
      | (Timeout, _, s') => (Timeout, s')
      end.

(** [for (size_t offset = 0; offset < data_len; offset += sizeof(T))
      reinterpret_cast<T *>(ptr + offset)->~T();] *)
Fixpoint destroy_upwards (E : env) (ptr data_len offset : Z) (fuel : nat)
  : state -> outcome unit * state :=
  match fuel with
  | O => fun s => (Timeout, s)
  | S fuel' =>
      if offset <? data_len then
        (destroy_at (ptr + offset) ;;
         fun _ =>
           destroy_upwards E ptr data_len (size_t (offset + sizeof_T E))
             fuel') fuel'
      else ret tt fuel'
  end.

(** [ut::delete_arr(ptr)] *)
Definition delete_arr (E : env) (ptr : Z) : M unit :=
  if ptr =? 0 then ret tt
  else
    data_len <- Alloc_datalen E ptr ;;
    (fun fuel => destroy_upwards E ptr data_len 0 fuel) ;;
    Alloc_free E ptr.

(** [ut::aligned_alloc_withkey(key, size, alignment)] *)
Definition aligned_alloc_withkey (E : env) (key size alignment : Z) : M Z :=
  Aligned_alloc E false size alignment key.

(** [ut::aligned_free(ptr)] *)
Definition aligned_free (ptr : Z) : M unit := Aligned_free ptr.

(** [ut::aligned_new_withkey<T>(key, alignment, args...)] *)
Definition aligned_new_withkey (E : env) (key alignment : Z)
    (args : list Z) : M Z :=
  mem <- aligned_alloc_withkey E key (sizeof_T E) alignment ;;
  if mem =? 0 then throw bad_alloc
  else
    construct_at E mem args ;;
    ret mem.

(** [ut::aligned_delete(ptr)] *)
Definition aligned_delete (ptr : Z) : M unit :=
  destroy_at ptr ;;
  aligned_free ptr.

(** [ut::aligned_new_arr_withkey<T>(key, alignment, count)] *)
Definition aligned_new_arr_withkey (E : env) (key alignment count : Z)
  : M Z :=
  mem <- aligned_alloc_withkey E key (size_t (sizeof_T E * count))
           alignment ;;
  if mem =? 0 then throw bad_alloc
  else
    fun fuel s =>
      match
        construct_upwards E mem (size_t (sizeof_T E * count)) 0 fuel s
      with
      | (Ret _, _, s') => (Ret mem, s')
      | (Throw e, _, s') => (Throw e, s')
      | (Fault, _, s') => (Fault, s')
      | (Timeout, _, s') => (Timeout, s')
      end.

(** [ut::aligned_delete_arr(ptr)] *)
Definition aligned_delete_arr (E : env) (ptr : Z) : M unit :=
  data_len <- Aligned_datalen ptr ;;
  (fun fuel => destroy_upwards E ptr data_len 0 fuel) ;;
  aligned_free ptr.

End ut.

(** ** Reading a trace *)

(** The addresses the destructor was called on, in call order. *)
Fixpoint dtor_calls (t : list event) : list Z :=
  match t with
  | [] => []
  | EvDtor a :: t' => a :: dtor_calls t'
  | _ :: t' => dtor_calls t'
  end.

(** The blocks handed back to the OS, in call order. *)
Fixpoint freed_blocks (t : list event) : list Z :=
  match t with
  | [] => []
  | EvFree p :: t' => p :: freed_blocks t'
  | _ :: t' => freed_blocks t'
  end.



Definition is_memory_alloc (e : event) : bool :=
  match e with
  | EvMemoryAlloc _ _ => true
  | _ => false
  end.

Definition is_memory_free (e : event) : bool :=
  match e with
  | EvMemoryFree _ _ _ => true
  | _ => false
  end.

(** The key [allocate_trace] accounts under. *)
Definition traced_key (E : env) (a : ut_allocator) (key : Z) : Z :=
  if negb (alloc_m_key a =? PSI_NOT_INSTRUMENTED E) then alloc_m_key a
  else key.

(** The OS call [allocate] makes. *)
Definition allocate_request (set_to_zero : bool) (bytes : Z) : Z -> event :=
  if set_to_zero then EvCalloc 1 bytes else EvMalloc bytes.

(** The prefix [allocate_trace] writes for [size] bytes under [key]. *)
Definition traced_prefix (E : env) (key size : Z) : ut_new_pfx_t :=
  mk_pfx (fst (psi_memory_alloc E key size))
    (snd (psi_memory_alloc E key size)) size.

(** The address of element [i] of the array at [first]. *)
Definition element (E : env) (first : Z) (i : nat) : Z :=
  first + Z.of_nat i * sizeof_T E.

(** [count] constructor (destructor) calls, on [start], [start + step],
    and so on. *)
Fixpoint ctor_run (start step : Z) (count : nat) : list event :=
  match count with
  | O => []
  | S c => EvCtor start :: ctor_run (start + step) step c
  end.

Fixpoint dtor_run (start step : Z) (count : nat) : list event :=
  match count with
  | O => []
  | S c => EvDtor start :: dtor_run (start + step) step c
  end.

(** From state [s] on, the next [k] constructor calls succeed and the
    one after them throws [e]; [args i] are the arguments of call [i]. *)
Definition ctor_throws_at (E : env) (s : state) (k : nat) (e : exn)
    (args : nat -> list Z) : Prop :=
  (forall i, (i < k)%nat -> T_ctor E (ctor_calls s + i) (args i) = None)
  /\ T_ctor E (ctor_calls s + k) (args k) = Some e.

(** The state after [k] more constructor calls, of which the last [t]
    events tell. *)
Definition after_ctor_calls (s : state) (k : nat) (t : list event) : state :=
  mk_state (os_calls s) (ctor_calls s + k) (pfx_mem s) (aligned_mem s)
    (trace s ++ t).

(** What an array construction at [first] leaves in the trace when the
    constructor of element [k] throws: the [k] constructions, the
    destructions of elements [k-1] down to [0], and the release of the
    block whose prefix is [h]. *)
Definition rollback_events (E : env) (first : Z) (k : nat)
    (h : ut_new_pfx_t) : list event :=
  map (fun i => EvCtor (element E first i)) (seq 0 k)
  ++ map (fun i => EvDtor (element E first i)) (rev (seq 0 k))
  ++ [EvMemoryFree (m_key h) (m_size h) (m_owner h);
      EvFree (first - sizeof_pfx E)].


(** [k] failed attempts, each followed by the one-second sleep. *)
Fixpoint failed_attempts (ev : Z -> event) (k : nat) : list event :=
  match k with
  | O => []
  | S k' => ev 0 :: EvSleep 1 :: failed_attempts ev k'
  end.

(** The sizes are positive and fit [size_t], as does the retry budget. *)
Definition env_ok (E : env) : Prop :=
  0 < sizeof_T E <= SIZE_MAX
  /\ 0 < sizeof_pfx E <= SIZE_MAX
  /\ 0 <= alloc_max_retries E <= SIZE_MAX.

(** ** Sample environments *)

(** A 64-bit build: [T] of 8 bytes, a prefix of 32 bytes, a budget of 60
    attempts, an OS allocator whose i-th answer is the block at
    [4096 * (i + 1)], and constructors that never throw. *)
Definition sample_env : env :=
  mk_env 8 32 60 0 false
    (fun i => Some (Pos.of_nat (4096 * S i)))
    (fun key size => (key, 7))
    (fun _ _ => None).

(** As [sample_env], with the constructor call number [k] throwing. *)
Definition throwing_env (k : nat) : env :=
  mk_env 8 32 60 0 false
    (fun i => Some (Pos.of_nat (4096 * S i)))
    (fun key size => (key, 7))
    (fun i _ => if Nat.eqb i k then Some (ctor_exception 42) else None).

(** As [sample_env], with an OS allocator that always fails and a budget
    of 3 attempts. *)
Definition exhausted_env : env :=
  mk_env 8 32 3 0 false
    (fun _ => None)
    (fun key size => (key, 7))
    (fun _ _ => None).

(** As [exhausted_env], with an OS allocator that succeeds once, with
    the block at 4096, and fails ever after. *)
Definition flaky_env : env :=
  mk_env 8 32 3 0 false
    (fun i => if Nat.eqb i 0 then Some 4096%positive else None)
    (fun key size => (key, 7))
    (fun _ _ => None).

(** The sample allocator, with key 5. *)
Definition sample_allocator : ut_allocator := mk_allocator 5.

(** The state after [allocate(3)] under [sample_env]: one live block at
    4096 whose user pointer is 4128. *)
Definition sample_block_state : state :=
  snd (allocate sample_env sample_allocator 3 0 9 false 61%nat
         initial_state).

(** The state after the allocation for an array of four elements under
    [throwing_env 2]. *)
Definition sample_array_state : state :=
  snd (allocate (throwing_env 2) sample_allocator 4 0 9 false 100%nat
         initial_state).

(** The state after [allocate(3)] under [flaky_env]: the one block the
    OS will ever give is taken. *)
Definition flaky_block_state : state :=
  snd (allocate flaky_env sample_allocator 3 0 9 false 4%nat initial_state).

(** The state after the raw allocation for an array of four elements
    under [throwing_env 2]. *)
Definition sample_raw_array_state : state :=
  snd (ut.Alloc_alloc (throwing_env 2) false 32 9 100%nat initial_state).

(** ** The rest of the header *)

(** The compile-time variants of the key lookup, chosen for gcc 5: the
    same three functions written as recursions over an index.  The
    recursion depth is bounded by the fuel. *)
Module Gcc5.
Import KeyRegistry.

(** [ut_string_begins_with(a, b, b_len, index)] *)
Fixpoint ut_string_begins_with (a b : string) (b_len index : nat)
    (fuel : nat) : option bool :=
  match fuel with
  | O => None
  | S fuel' =>
      if Nat.eqb index b_len then Some true
      else if Ascii.eqb (c_char a index) (c_char b index)
           then ut_string_begins_with a b b_len (S index) fuel'
           else Some false
  end.

(** [ut_len_without_extension(file, index)] *)
Fixpoint ut_len_without_extension (file : string) (index : nat)
    (fuel : nat) : option nat :=
  match fuel with
  | O => None
  | S fuel' =>
      if Ascii.eqb (c_char file index) Ascii.zero
         || Ascii.eqb (c_char file index) "."%char
      then Some index
      else ut_len_without_extension file (S index) fuel'
  end.

(** [ut_new_get_key_by_base_file(file, len, index)]: here the key
    itself is returned. *)
Fixpoint ut_new_get_key_by_base_file
    (PSI_NOT_INSTRUMENTED : Z) (auto_event_keys : nat -> Z)
    (file : string) (len index : nat) (fuel : nat) : option Z :=
  match fuel with
  | O => None
  | S fuel' =>
      if Nat.eqb index n_auto then Some PSI_NOT_INSTRUMENTED
      else
        match
          ut_string_begins_with (nth index auto_event_names EmptyString)
            file len 0 fuel'
        with
        | None => None
        | Some true => Some (auto_event_keys index)
        | Some false =>
            ut_new_get_key_by_base_file PSI_NOT_INSTRUMENTED
              auto_event_keys file len (S index) fuel'
        end
  end.

(** [ut_new_get_key_by_file(file)], which is [UT_NEW_THIS_FILE_PSI_KEY]
    for a file whose [MY_BASENAME] is [file]. *)
Definition ut_new_get_key_by_file
    (PSI_NOT_INSTRUMENTED : Z) (auto_event_keys : nat -> Z)
    (file : string) (fuel : nat) : option Z :=
  match ut_len_without_extension file 0 fuel with
  | None => None
  | Some len =>
      ut_new_get_key_by_base_file PSI_NOT_INSTRUMENTED auto_event_keys
        file len 0 fuel
  end.

End Gcc5.

(** No character of [s] is a NUL or a dot. *)
Fixpoint no_stop (s : string) : bool :=
  match s with
  | EmptyString => true
  | String c rest =>
      negb (Ascii.eqb c Ascii.zero || Ascii.eqb c "."%char) && no_stop rest
  end.

(** The first [len] characters of [s] come before its terminator: what
    [ut_string_begins_with] needs of [b] and [b_len]. *)
Fixpoint before_terminator (s : string) (len : nat) : bool :=
  match len with
  | O => true
  | S len' =>
      match s with
      | EmptyString => false
      | String c rest =>
          negb (Ascii.eqb c Ascii.zero) && before_terminator rest len'
      end
  end.

(** The loop variant of the key lookup once more, over a read that knows
    where a string ends: [None] stands for a read outside the array,
    which is undefined in C (and rejected in a constant expression). *)
Module CheckedReads.

(** [s[i]]: the characters of [s] up to its first NUL, the terminator,
    and nothing behind it. *)
Fixpoint c_read (s : string) (i : nat) : option ascii :=
  match s, i with
  | EmptyString, O => Some Ascii.zero
  | EmptyString, S _ => None
  | String c _, O => Some c
  | String c rest, S j =>
      if Ascii.eqb c Ascii.zero then None else c_read rest j
  end.

(** The body of the loop of [ut_string_begins_with], with [n = b_len - i]
    iterations left. *)
Fixpoint begins_with_loop (a b : string) (n i : nat) : option bool :=
  match n with
  | O => Some true
  | S n' =>
      match c_read a i, c_read b i with
      | Some x, Some y =>
          if negb (Ascii.eqb x y) then Some false
          else begins_with_loop a b n' (S i)
      | _, _ => None
      end
  end.

(** [ut_string_begins_with(a, b, b_len)] *)
Definition ut_string_begins_with (a b : string) (b_len : nat)
  : option bool :=
  begins_with_loop a b b_len 0.

(** The body of the loop of [ut_new_get_key_by_base_file], with
    [n = n_auto - i] entries left. *)
Fixpoint key_loop (file : string) (len : nat) (n i : nat) : option Z :=
  match n with
  | O => Some (-1)
  | S n' =>
      match
        ut_string_begins_with
          (nth i KeyRegistry.auto_event_names EmptyString) file len
      with
      | Some true => Some (Z.of_nat i)
      | Some false => key_loop file len n' (S i)
      | None => None
      end
  end.

(** [ut_new_get_key_by_base_file(file, len)] *)
Definition ut_new_get_key_by_base_file (file : string) (len : nat)
  : option Z :=
  key_loop file len KeyRegistry.n_auto 0.

(** [ut_new_get_key_by_file(file)] *)
Definition ut_new_get_key_by_file (file : string) : option Z :=
  ut_new_get_key_by_base_file file
    (KeyRegistry.ut_len_without_extension file).

End CheckedReads.

(** From state [s] on, the next [n] constructor calls succeed. *)
Definition ctors_succeed (E : env) (s : state) (n : nat)
    (args : nat -> list Z) : Prop :=
  forall i, (i < n)%nat -> T_ctor E (ctor_calls s + i) (args i) = None.

(** The bytes the performance schema holds accounted after a trace:
    those of the [memory_alloc] calls less those of the [memory_free]
    calls. *)
Fixpoint accounted_bytes (t : list event) : Z :=
  match t with
  | [] => 0
  | EvMemoryAlloc _ size :: t' => size + accounted_bytes t'
  | EvMemoryFree _ size _ :: t' => accounted_bytes t' - size
  | _ :: t' => accounted_bytes t'
  end.

(** The constructor calls of a trace, in call order. *)
Fixpoint ctor_addrs (t : list event) : list Z :=
  match t with
  | [] => []
  | EvCtor a :: t' => a :: ctor_addrs t'
  | _ :: t' => ctor_addrs t'
  end.

(** The number of attempts the retry loop can make: the budget, and one
    attempt even when the budget is zero. *)
Definition attempts_allowed (E : env) : nat :=
  Z.to_nat (Z.max 1 (alloc_max_retries E)).

(** *** Large allocations of [ut_allocator] *)

(** [os_mem_alloc_large] and [os_mem_free_large] come from os0proc.h and
    [CPU_PAGE_SIZE] from another header: the page size and the size the
    OS reserves for a request (it writes it back through the pointer it
    is given) are parameters, and the calls are logged on their own. *)
Record large_env : Type := mk_large_env {
  CPU_PAGE_SIZE : Z;
  os_mem_granted : Z -> Z
}.

Inductive large_call : Type :=
| OsMemAllocLarge (requested granted res : Z)
| OsMemFreeLarge (ptr size : Z).

Record large_state : Type := mk_large {
  core : state;
  large_calls : list large_call
}.

Definition LM (A : Type) : Type := large_state -> outcome A * large_state.

Definition lret {A : Type} (a : A) : LM A := fun ls => (Ret a, ls).

Definition lbind {A B : Type} (m : LM A) (f : A -> LM B) : LM B :=
  fun ls =>
    match m ls with
    | (Ret a, ls') => f a ls'
    | (Throw e, ls') => (Throw e, ls')
    | (Fault, ls') => (Fault, ls')
    | (Timeout, ls') => (Timeout, ls')
    end.

(** A computation without loops, run on the core state. *)
Definition on_core {A : Type} (m : M A) : LM A :=
  fun ls =>
    let '(r, s') := m 0%nat (core ls) in
    (r, mk_large s' (large_calls ls)).

(** [os_mem_alloc_large(&n_bytes)]: the next answer of the OS and the
    value left in [n_bytes]. *)
Definition os_mem_alloc_large (E : env) (L : large_env) (n_bytes : Z)
  : LM (Z * Z) :=
  fun ls =>
    let s := core ls in
    let ptr := os_result E (os_calls s) in
    let granted := if ptr =? 0 then n_bytes else os_mem_granted L n_bytes in
    (Ret (ptr, granted),
     mk_large
       (mk_state (S (os_calls s)) (ctor_calls s) (pfx_mem s) (aligned_mem s)
          (trace s))
       (large_calls ls ++ [OsMemAllocLarge n_bytes granted ptr])).

(** [os_mem_free_large(ptr, size)]: the region, and the prefix in it,
    are gone. *)
Definition os_mem_free_large (ptr size : Z) : LM unit :=
  fun ls =>
    (Ret tt,
     mk_large (set_pfx_mem (delete ptr) (core ls))
       (large_calls ls ++ [OsMemFreeLarge ptr size])).

(** [allocate_large(n_elements)] *)
Definition allocate_large (E : env) (L : large_env) (a : ut_allocator)
    (n_elements : Z) : LM Z :=
  if (n_elements =? 0) || (max_size E <? n_elements) then lret 0
  else
    let n_bytes :=
      size_t (size_t (n_elements * sizeof_T E) + CPU_PAGE_SIZE L) in
    lbind (os_mem_alloc_large E L n_bytes) (fun '(ptr, n_bytes) =>
    if ptr =? 0 then lret 0
    else
      let pfx := ptr in
      lbind (on_core
               (allocate_trace E a n_bytes (PSI_NOT_INSTRUMENTED E) pfx))
        (fun _ => lret (ptr + CPU_PAGE_SIZE L))).

(** [deallocate_large(ptr)] *)
Definition deallocate_large (L : large_env) (ptr : Z) : LM unit :=
  if ptr =? 0 then lret tt
  else
    let deduced_alloc_large_ptr := ptr - CPU_PAGE_SIZE L in
    fun ls =>
      match pfx_mem (core ls) !! deduced_alloc_large_ptr with
      | Some pfx =>
          let dealloc_size := m_size pfx in
          lbind (on_core (deallocate_trace deduced_alloc_large_ptr))
            (fun _ => os_mem_free_large deduced_alloc_large_ptr dealloc_size)
            ls
      | None => (Fault, ls)
      end.

(** [large_page_size(ptr)] *)
Definition large_page_size (L : large_env) (ptr : Z) : LM Z :=
  fun ls =>
    match pfx_mem (core ls) !! (ptr - CPU_PAGE_SIZE L) with
    | Some pfx => (Ret (size_t (m_size pfx - CPU_PAGE_SIZE L)), ls)
    | None => (Fault, ls)
    end.

(** Pages of 4096 bytes, and an OS that reserves whole pages. *)
Definition sample_large_env : large_env :=
  mk_large_env 4096 (fun n => (n + 4095) / 4096 * 4096).

(** *** The [ut::] functions without a key, and the owning wrappers *)

Module ut_default.

(** [ut::aligned_new<T>(alignment, args...)] *)
Definition aligned_new (E : env) (alignment : Z) (args : list Z) : M Z :=
  ut.aligned_new_withkey E (PSI_NOT_INSTRUMENTED E) alignment args.

(** [ut::aligned_new_arr<T>(alignment, count)] *)
Definition aligned_new_arr (E : env) (alignment count : Z) : M Z :=
  ut.aligned_new_arr_withkey E (PSI_NOT_INSTRUMENTED E) alignment count.

End ut_default.

(** [class aligned_pointer<T, Alignment>]: its state is the member
    [ptr]; a method returns the value it leaves in [ptr]. *)
Module aligned_pointer.

(** [alloc(args...)] *)
Definition alloc (E : env) (Alignment : Z) (ptr : Z) (args : list Z)
  : M Z :=
  ut_ad E (ptr =? 0) ;;
  ut_default.aligned_new E Alignment args.

(** [dealloc()] *)
Definition dealloc (E : env) (ptr : Z) : M Z :=
  ut_ad E (negb (ptr =? 0)) ;;
  ut.aligned_delete ptr ;;
  ret 0.

(** [~aligned_pointer()] *)
Definition destructor (E : env) (ptr : Z) : M Z :=
  if negb (ptr =? 0) then dealloc E ptr else ret ptr.

End aligned_pointer.

(** [class aligned_array_pointer<T, Alignment>] *)
Module aligned_array_pointer.

(** [alloc(size)] *)
Definition alloc (E : env) (Alignment : Z) (ptr : Z) (size : Z) : M Z :=
  ut_ad E (ptr =? 0) ;;
  ut_default.aligned_new_arr E Alignment size.

(** [dealloc()] *)
Definition dealloc (E : env) (ptr : Z) : M Z :=
  ut.aligned_delete_arr E ptr ;;
  ret 0.

(** [~aligned_array_pointer()] *)
Definition destructor (E : env) (ptr : Z) : M Z :=
  if negb (ptr =? 0) then dealloc E ptr else ret ptr.

End aligned_array_pointer.

(** * Properties *)

(** The branch a null test takes on a pointer known not to be null. *)
Ltac non_null p :=
  assert ((p =? 0) = false) as -> by (apply Z.eqb_neq; lia).

(** ** Key lookup *)

Section KeyLookup.
Import KeyRegistry.

Lemma c_char_tail (c : ascii) (s : string) (i : nat) :
  c_char (String c s) (S i) = c_char s i.
Proof. reflexivity. Qed.

Lemma begins_with_loop_tail (c d : ascii) (a b : string) (n i : nat) :
  begins_with_loop (String c a) (String d b) n (S i)
  = begins_with_loop a b n i.
Proof.
  revert i. induction n as [|n IH]; intros i; [reflexivity|].
  cbn [begins_with_loop]. rewrite !c_char_tail, IH. reflexivity.
Qed.

Lemma prefix_empty (a : string) : String.prefix EmptyString a = true.
Proof. destruct a; reflexivity. Qed.

(** On an identifier cut at the first NUL or dot, the character loop is
    the prefix test, with the identifier as the prefix. *)
Lemma begins_with_is_prefix (file a : string) :
  ut_string_begins_with a file (ut_len_without_extension file)
  = String.prefix (identifier_of file) a.
Proof.
  unfold ut_string_begins_with, identifier_of.
  revert a. induction file as [|c rest IH]; intros a.
  - cbn. rewrite prefix_empty. reflexivity.
  - cbn [ut_len_without_extension].
    destruct (Ascii.eqb c zero || Ascii.eqb c ".")%bool eqn:Hstop.
    + cbn. rewrite prefix_empty. reflexivity.
    + apply orb_false_elim in Hstop as [Hnul _].
      cbn [begins_with_loop substring].
      destruct a as [|d a'].
      * change (c_char EmptyString 0) with zero.
        change (c_char (String c rest) 0) with c.
        rewrite Ascii.eqb_sym, Hnul. reflexivity.
      * change (c_char (String d a') 0) with d.
        change (c_char (String c rest) 0) with c.
        cbn [String.prefix].
        destruct (ascii_dec c d) as [->|Hne].
        -- rewrite Ascii.eqb_refl. cbn [negb].
           rewrite begins_with_loop_tail. apply IH.
        -- assert (Ascii.eqb d c = false) as ->; [|reflexivity].
           apply Ascii.eqb_neq. congruence.
Qed.

Lemma key_loop_find (file : string) (len : nat) (pre l : list string) :
  auto_event_names = pre ++ l ->
  key_loop file len (length l) (length pre)
  = index_or_minus_one
      (find_index (fun name => ut_string_begins_with name file len) l
         (length pre)).
Proof.
  revert pre. induction l as [|x l IH]; intros pre Hsplit; [reflexivity|].
  cbn [length key_loop find_index].
  assert (nth (length pre) auto_event_names EmptyString = x) as ->.
  { rewrite Hsplit, app_nth2, Nat.sub_diag by lia. reflexivity. }
  destruct (ut_string_begins_with x file len); [reflexivity|].
  specialize (IH (pre ++ [x])).
  rewrite length_app in IH. cbn [length] in IH.
  rewrite Nat.add_1_r in IH. apply IH.
  rewrite <- app_assoc. exact Hsplit.
Qed.

Lemma find_index_ext {A : Type} (p q : A -> bool) (l : list A) (i : nat) :
  (forall x, p x = q x) -> find_index p l i = find_index q l i.
Proof.
  intros Hpq. revert i. induction l as [|x l IH]; intros i; [reflexivity|].
  cbn. rewrite Hpq, IH. reflexivity.
Qed.

Lemma get_key_by_file_first_entry (file : string) :
  ut_new_get_key_by_file file
  = index_or_minus_one (first_entry_beginning_with (identifier_of file)).
Proof.
  unfold ut_new_get_key_by_file, ut_new_get_key_by_base_file,
    first_entry_beginning_with.
  change n_auto with (length auto_event_names).
  rewrite (key_loop_find file _ [] auto_event_names eq_refl).
  f_equal. apply find_index_ext. intros name.
  apply begins_with_is_prefix.
Qed.

(** C1, as the code has it: the table is scanned in its order and the
    lookup returns the first entry whose name begins with the identifier
    (the identifier is a prefix of the entry's name, not the reverse);
    the key is that entry's key, and the not-instrumented sentinel when
    no entry begins with the identifier.  So "buf0buf" resolves to the
    entry "buf0buf", while the longer "buf0buf_extra" and the unknown
    "zzz_unregistered" both resolve to the sentinel. *)
Theorem C1_lookup_first_entry_beginning_with_identifier :
  forall (not_instrumented : Z) (keys : nat -> Z) (file : string),
    (ut_new_get_key_by_file file
     = index_or_minus_one
         (first_entry_beginning_with (identifier_of file)))
    /\ (UT_NEW_THIS_FILE_PSI_KEY not_instrumented keys file
        = match first_entry_beginning_with (identifier_of file) with
          | Some i => keys i
          | None => not_instrumented
          end)
    /\ (nth 10 auto_event_names EmptyString = "buf0buf"%string)
    /\ (UT_NEW_THIS_FILE_PSI_KEY not_instrumented keys "buf0buf"
        = keys 10%nat)
    /\ (UT_NEW_THIS_FILE_PSI_KEY not_instrumented keys "buf0buf_extra"
        = not_instrumented)
    /\ (UT_NEW_THIS_FILE_PSI_KEY not_instrumented keys "zzz_unregistered"
        = not_instrumented).
Proof.
  intros ni keys file. split; [apply get_key_by_file_first_entry|].
  split; [|repeat split].
  unfold UT_NEW_THIS_FILE_PSI_KEY. rewrite get_key_by_file_first_entry.
  destruct (first_entry_beginning_with (identifier_of file)) as [i|];
    cbn [index_or_minus_one].
  - assert ((Z.of_nat i =? -1) = false) as -> by (apply Z.eqb_neq; lia).
    rewrite Nat2Z.id. reflexivity.
  - reflexivity.
Qed.

(** C1 as the specification words it fails: the first entry whose name
    is a prefix of "buf0buf_extra" is "buf" (entry 8), and "buf0buf"
    (entry 10) is one too, yet the lookup finds nothing; and "buf0buf"
    itself resolves to entry 10, not to its first prefix entry 8. *)
Lemma C1_counterexample_longer_identifier :
  resolve_by_callsite_spec "buf0buf_extra" = Some 8%nat
  /\ String.prefix "buf0buf" "buf0buf_extra" = true
  /\ ut_new_get_key_by_file "buf0buf_extra" = -1
  /\ ut_new_get_key_by_file "buf0buf_extra"
     <> index_or_minus_one (resolve_by_callsite_spec "buf0buf_extra")
  /\ ut_new_get_key_by_file "buf0buf"
     <> index_or_minus_one (resolve_by_callsite_spec "buf0buf").
Proof. repeat split; vm_compute; congruence. Qed.

End KeyLookup.

(** ** The retry loop *)

Section RetryLoop.
Variable E : env.
Hypothesis HE : env_ok E.

Lemma os_result_nonneg (i : nat) : 0 <= os_result E i.
Proof. unfold os_result. destruct (os_answer E i); lia. Qed.

(** Where the loop stops, for any request to the OS allocator: after [k]
    failed attempts within the budget, each followed by a sleep of one
    second, and a last attempt that succeeded or used the budget up. *)
Lemma retry_loop_run (ev : Z -> event)
    (move : Z -> gmap Z ut_new_pfx_t -> gmap Z ut_new_pfx_t) :
  forall (fuel : nat) (retries : Z) (s : state),
    1 <= retries ->
    (Z.to_nat (alloc_max_retries E - retries) < fuel)%nat ->
    exists k : nat,
      let res := os_result E (os_calls s + k) in
      (forall i, (i < k)%nat -> os_result E (os_calls s + i) = 0)
      /\ Z.of_nat k <= Z.max 0 (alloc_max_retries E - retries)
      /\ (res <> 0 \/ Z.of_nat k = Z.max 0 (alloc_max_retries E - retries))
      /\ retry_loop E (os_request E ev move) retries fuel s
         = (Ret res,
            mk_state (os_calls s + k + 1) (ctor_calls s)
              (if res =? 0 then pfx_mem s else move res (pfx_mem s))
              (aligned_mem s)
              (trace s ++ failed_attempts ev k ++ [ev res])).
Proof.
  destruct HE as (_ & _ & Hmax).
  induction fuel as [|fuel IH]; intros retries s Hret Hfuel; [lia|].
  cbn [retry_loop]. unfold bind at 1. unfold os_request at 1. cbv zeta.
  destruct (Z.eqb_spec (os_result E (os_calls s)) 0) as [Hnull|Hok];
    cbn [negb orb].
  - destruct (Z.leb_spec (alloc_max_retries E) retries) as [Hout|Hin].
    + exists 0%nat. cbv zeta. rewrite !Nat.add_0_r, Hnull.
      cbn [Z.eqb failed_attempts app]. repeat split.
      * intros i Hi. lia.
      * lia.
      * right. lia.
      * unfold ret. do 2 f_equal; lia.
    + unfold bind, sleep_for_seconds, emit, log. cbn [os_calls trace
        ctor_calls pfx_mem aligned_mem].
      assert (size_t (retries + 1) = retries + 1) as ->.
      { unfold size_t, SIZE_MAX in *. apply Z.mod_small. lia. }
      destruct (IH (retries + 1)
                  (mk_state (S (os_calls s)) (ctor_calls s) (pfx_mem s)
                     (aligned_mem s)
                     ((trace s ++ [ev (os_result E (os_calls s))])
                        ++ [EvSleep 1])))
        as (k & Hfail & Hle & Hlast & Hrun); [lia|lia|].
      cbn [os_calls trace ctor_calls pfx_mem aligned_mem] in *.
      exists (S k). cbv zeta.
      replace (os_calls s + S k)%nat with (S (os_calls s) + k)%nat by lia.
      repeat split.
      * intros [|i] Hi; [rewrite Nat.add_0_r; exact Hnull|].
        replace (os_calls s + S i)%nat with (S (os_calls s) + i)%nat
          by lia.
        apply Hfail. lia.
      * lia.
      * destruct Hlast as [Hlast|Hlast]; [left; exact Hlast|right; lia].
      * rewrite Hrun, Hnull. cbn [failed_attempts].
        rewrite <- !app_assoc. reflexivity.
  - exists 0%nat. cbv zeta. rewrite !Nat.add_0_r.
    destruct (Z.eqb_spec (os_result E (os_calls s)) 0); [contradiction|].
    cbn [failed_attempts app]. repeat split.
    + intros i Hi. lia.
    + lia.
    + left. assumption.
    + unfold ret. do 2 f_equal; lia.
Qed.

Lemma retry_loop_nonneg (ev : Z -> event)
    (move : Z -> gmap Z ut_new_pfx_t -> gmap Z ut_new_pfx_t) :
  forall (fuel : nat) (retries : Z) (s s' : state) (ptr : Z),
    retry_loop E (os_request E ev move) retries fuel s = (Ret ptr, s') ->
    0 <= ptr.
Proof.
  induction fuel as [|fuel IH]; intros retries s s' ptr; [discriminate|].
  cbn [retry_loop]. unfold bind at 1. unfold os_request at 1. cbv zeta.
  destruct (negb (os_result E (os_calls s) =? 0)
            || (alloc_max_retries E <=? retries))%bool.
  - unfold ret. intros [= <- _]. apply os_result_nonneg.
  - unfold bind, sleep_for_seconds, emit. apply IH.
Qed.

End RetryLoop.

(** ** [ut_allocator::allocate] *)

Section Allocate.
Variable E : env.
Hypothesis HE : env_ok E.

Lemma total_bytes_fit (n : Z) :
  0 <= n -> (max_size E <? n) = false ->
  size_t (size_t (n * sizeof_T E) + sizeof_pfx E)
  = n * sizeof_T E + sizeof_pfx E
  /\ 0 < n * sizeof_T E + sizeof_pfx E <= SIZE_MAX.
Proof.
  destruct HE as ((HT0 & HT) & (HP0 & HP) & _).
  intros Hn Hmax. apply Z.ltb_ge in Hmax. unfold max_size in Hmax.
  assert (sizeof_T E * ((SIZE_MAX - sizeof_pfx E) / sizeof_T E)
          <= SIZE_MAX - sizeof_pfx E) by (apply Z.mul_div_le; lia).
  assert (n * sizeof_T E <= SIZE_MAX - sizeof_pfx E) by nia.
  assert (0 <= n * sizeof_T E) by nia.
  unfold size_t, SIZE_MAX in *.
  rewrite (Z.mod_small (n * sizeof_T E)) by lia.
  rewrite Z.mod_small by lia. lia.
Qed.

(** What [allocate] does with a count within [max_size()]: some failed
    attempts, then either the last attempt of the budget fails and
    [std::bad_alloc] is thrown, or an attempt succeeds, the prefix is
    written at the block and the address behind it is returned. *)
Lemma allocate_run (a : ut_allocator) (n hint key : Z) (zero : bool)
    (fuel : nat) (s : state) :
  0 <= n -> (max_size E <? n) = false ->
  (Z.to_nat (alloc_max_retries E) < fuel)%nat ->
  exists k : nat,
    let res := os_result E (os_calls s + k) in
    let total := n * sizeof_T E + sizeof_pfx E in
    let ev := allocate_request zero total in
    (forall i, (i < k)%nat -> os_result E (os_calls s + i) = 0)
    /\ Z.of_nat k <= Z.max 0 (alloc_max_retries E - 1)
    /\ (res <> 0 \/ Z.of_nat k = Z.max 0 (alloc_max_retries E - 1))
    /\ allocate E a n hint key zero fuel s
       = if res =? 0 then
           (Throw bad_alloc,
            mk_state (os_calls s + k + 1) (ctor_calls s) (pfx_mem s)
              (aligned_mem s) (trace s ++ failed_attempts ev k ++ [ev 0]))
         else
           (Ret (res + sizeof_pfx E),
            mk_state (os_calls s + k + 1) (ctor_calls s)
              (<[res := traced_prefix E (traced_key E a key) total]>
                 (pfx_mem s))
              (aligned_mem s)
              (trace s ++ failed_attempts ev k
                 ++ [ev res; EvMemoryAlloc (traced_key E a key) total])).
Proof.
  intros Hn Hmax Hfuel.
  destruct (total_bytes_fit n Hn Hmax) as [Htot _].
  unfold allocate. rewrite Hmax. cbv zeta. rewrite Htot.
  set (total := n * sizeof_T E + sizeof_pfx E).
  assert ((if zero then os_calloc E 1 total else os_malloc E total)
          = os_request E (allocate_request zero total) (fun _ m => m))
    as -> by (destruct zero; reflexivity).
  destruct (retry_loop_run E HE (allocate_request zero total)
              (fun _ m => m) fuel 1 s)
    as (k & Hfail & Hle & Hlast & Hrun); [lia|lia|].
  exists k. cbv zeta in *. repeat split; try assumption.
  unfold bind at 1. rewrite Hrun.
  destruct (Z.eqb_spec (os_result E (os_calls s + k)) 0) as [Hnull|Hok].
  - rewrite Hnull. reflexivity.
  - unfold bind, allocate_trace, write_prefix, ret, log, set_pfx_mem,
      traced_prefix.
    fold (traced_key E a key).
    destruct (psi_memory_alloc E (traced_key E a key) total) as [k' owner].
    cbn [fst snd os_calls ctor_calls pfx_mem aligned_mem trace].
    rewrite <- !app_assoc. reflexivity.
Qed.

Lemma max_size_overflow (n : Z) :
  max_size E < n <-> SIZE_MAX < n * sizeof_T E + sizeof_pfx E.
Proof.
  destruct HE as ((HT0 & HT) & (HP0 & HP) & _). unfold max_size.
  pose proof (Z.div_mod (SIZE_MAX - sizeof_pfx E) (sizeof_T E)) as Hdm.
  pose proof (Z.mod_pos_bound (SIZE_MAX - sizeof_pfx E) (sizeof_T E) HT0).
  specialize (Hdm ltac:(lia)).
  set (q := (SIZE_MAX - sizeof_pfx E) / sizeof_T E) in *.
  set (r := (SIZE_MAX - sizeof_pfx E) mod sizeof_T E) in *.
  split; intros Hlt; nia.
Qed.

(** C5: [allocate(n)] returns a non-null pointer or throws, and nothing
    else: a count above [max_size()], which is exactly a count whose
    byte size with the prefix overflows [size_t], throws
    [std::bad_array_new_length] before anything is allocated, and when
    the OS allocation fails to the end [std::bad_alloc] is thrown. *)
Theorem C5_allocate_returns_non_null_or_throws
    (a : ut_allocator) (n hint key : Z) (zero : bool) (fuel : nat)
    (s : state) :
  0 <= n ->
  (Z.to_nat (alloc_max_retries E) < fuel)%nat ->
  match fst (allocate E a n hint key zero fuel s) with
  | Ret p => p <> 0
  | Throw e => e = bad_alloc \/ e = bad_array_new_length
  | Fault => False
  | Timeout => False
  end
  /\ (max_size E < n <-> SIZE_MAX < n * sizeof_T E + sizeof_pfx E)
  /\ (max_size E < n ->
      allocate E a n hint key zero fuel s = (Throw bad_array_new_length, s))
  /\ (n <= max_size E ->
      (forall i, os_result E (os_calls s + i) = 0) ->
      fst (allocate E a n hint key zero fuel s) = Throw bad_alloc).
Proof.
  intros Hn Hfuel.
  assert (0 < sizeof_pfx E) as Hpfx by (destruct HE as (_ & (? & _) & _); lia).
  destruct (Z.ltb_spec (max_size E) n) as [Hbig|Hfit].
  - assert (allocate E a n hint key zero fuel s
            = (Throw bad_array_new_length, s)) as Hthrow.
    { unfold allocate. apply Z.ltb_lt in Hbig. rewrite Hbig. reflexivity. }
    rewrite Hthrow. cbn [fst]. repeat split.
    + right. reflexivity.
    + apply max_size_overflow.
    + apply max_size_overflow.
    + lia.
  - apply Z.ltb_ge in Hfit.
    destruct (allocate_run a n hint key zero fuel s Hn Hfit Hfuel)
      as (k & _ & _ & _ & Hrun).
    cbv zeta in Hrun. rewrite Hrun.
    pose proof (os_result_nonneg E (os_calls s + k)) as Hnonneg.
    repeat split.
    + destruct (Z.eqb_spec (os_result E (os_calls s + k)) 0); cbn [fst].
      * left. reflexivity.
      * lia.
    + apply max_size_overflow.
    + apply max_size_overflow.
    + intros Hbig. apply Z.ltb_ge in Hfit. lia.
    + intros _ Hfail. rewrite Hfail. reflexivity.
Qed.

(** C8: after a successful [allocate(n)] with [n] within [max_size()],
    the prefix one header size below the returned pointer is the one
    that was written: its [m_size] is [n * sizeof(T) +
    sizeof(ut_new_pfx_t)], its key and owner are those the performance
    schema gave, and [n_elements_allocated] gives [n] back. *)
Theorem C8_header_round_trip
    (a : ut_allocator) (n hint key : Z) (zero : bool) (fuel : nat)
    (s s' : state) (p : Z) :
  0 <= n <= max_size E ->
  (Z.to_nat (alloc_max_retries E) < fuel)%nat ->
  allocate E a n hint key zero fuel s = (Ret p, s') ->
  exists pfx : ut_new_pfx_t,
    pfx_mem s' !! (p - sizeof_pfx E) = Some pfx
    /\ m_size pfx = n * sizeof_T E + sizeof_pfx E
    /\ (m_key pfx, m_owner pfx)
       = psi_memory_alloc E (traced_key E a key)
           (n * sizeof_T E + sizeof_pfx E)
    /\ n_elements_allocated E p fuel s' = (Ret n, s').
Proof.
  intros [Hn Hfit] Hfuel Halloc.
  assert ((max_size E <? n) = false) as Hmax by (apply Z.ltb_ge; lia).
  destruct (total_bytes_fit n Hn Hmax) as [_ Hbound].
  destruct (allocate_run a n hint key zero fuel s Hn Hmax Hfuel)
    as (k & _ & _ & _ & Hrun).
  cbv zeta in Hrun. rewrite Halloc in Hrun.
  destruct (Z.eqb_spec (os_result E (os_calls s + k)) 0) as [|Hok];
    [discriminate|].
  injection Hrun as -> ->.
  set (total := n * sizeof_T E + sizeof_pfx E) in *.
  set (res := os_result E (os_calls s + k)) in *.
  exists (traced_prefix E (traced_key E a key) total).
  assert (res + sizeof_pfx E - sizeof_pfx E = res) as Hback by lia.
  assert (0 < sizeof_T E) as HT by (destruct HE as ((? & _) & _); lia).
  repeat split.
  - cbn [pfx_mem]. rewrite Hback. apply lookup_insert_eq.
  - unfold traced_prefix. cbn [m_key m_owner].
    destruct (psi_memory_alloc E (traced_key E a key) total); reflexivity.
  - unfold n_elements_allocated. cbn [pfx_mem].
    rewrite Hback, lookup_insert_eq. cbn [traced_prefix m_size].
    assert (size_t (total - sizeof_pfx E) = n * sizeof_T E) as ->.
    { replace (total - sizeof_pfx E) with (n * sizeof_T E)
        by (unfold total; lia).
      assert (0 < sizeof_pfx E) by (destruct HE as (_ & (? & _) & _); lia).
      assert (0 <= n * sizeof_T E) by nia.
      unfold size_t, total, SIZE_MAX in *. apply Z.mod_small. lia. }
    rewrite Z.mod_mul by lia. rewrite Z.div_mul by lia.
    unfold ut_ad. cbn [Z.eqb negb]. rewrite andb_false_r. reflexivity.
Qed.

End Allocate.

(** ** [ut_allocator::reallocate] and the retry budget *)

Section Reallocate.
Variable E : env.
Hypothesis HE : env_ok E.

Lemma filter_failed_attempts (f : event -> bool) (ev : Z -> event)
    (k : nat) :
  f (ev 0) = false -> f (EvSleep 1) = false ->
  List.filter f (failed_attempts ev k) = [].
Proof.
  intros Hev Hsleep. induction k as [|k IH]; [reflexivity|].
  cbn [failed_attempts List.filter]. rewrite Hev, Hsleep. exact IH.
Qed.

(** What [reallocate] does with a live block and a non-zero count within
    [max_size()]: some failed attempts, then either the budget is used
    up and null is returned with the old block untouched, or the block
    is resized, its old accounting entry retired and the new one
    installed. *)
Lemma reallocate_run (a : ut_allocator) (ptr n key : Z) (fuel : nat)
    (s : state) (h : ut_new_pfx_t) :
  ptr <> 0 -> 0 < n -> (max_size E <? n) = false ->
  (Z.to_nat (alloc_max_retries E) < fuel)%nat ->
  pfx_mem s !! (ptr - sizeof_pfx E) = Some h ->
  exists k : nat,
    let res := os_result E (os_calls s + k) in
    let total := n * sizeof_T E + sizeof_pfx E in
    let ev := EvRealloc (ptr - sizeof_pfx E) total in
    (forall i, (i < k)%nat -> os_result E (os_calls s + i) = 0)
    /\ Z.of_nat k <= Z.max 0 (alloc_max_retries E - 1)
    /\ (res <> 0 \/ Z.of_nat k = Z.max 0 (alloc_max_retries E - 1))
    /\ reallocate E a ptr n key fuel s
       = if res =? 0 then
           (Ret 0,
            mk_state (os_calls s + k + 1) (ctor_calls s) (pfx_mem s)
              (aligned_mem s) (trace s ++ failed_attempts ev k ++ [ev 0]))
         else
           (Ret (res + sizeof_pfx E),
            mk_state (os_calls s + k + 1) (ctor_calls s)
              (<[res := traced_prefix E (traced_key E a key) total]>
                 (delete (ptr - sizeof_pfx E) (pfx_mem s)))
              (aligned_mem s)
              (trace s ++ failed_attempts ev k
                 ++ [ev res;
                     EvMemoryFree (m_key h) (m_size h) (m_owner h);
                     EvMemoryAlloc (traced_key E a key) total])).
Proof.
  intros Hptr Hn Hmax Hfuel Hh.
  destruct (total_bytes_fit E HE n ltac:(lia) Hmax) as [Htot _].
  unfold reallocate.
  assert ((n =? 0) = false) as -> by (apply Z.eqb_neq; lia).
  non_null ptr.
  rewrite Hmax. cbv zeta. rewrite Htot.
  set (total := n * sizeof_T E + sizeof_pfx E).
  set (old := ptr - sizeof_pfx E) in *.
  unfold os_realloc.
  match goal with
  | |- context [os_request E ?ev ?move] =>
      destruct (retry_loop_run E HE ev move fuel 1 s)
        as (k & Hfail & Hle & Hlast & Hrun); [lia|lia|]
  end.
  exists k. cbv zeta in *. repeat split; try assumption.
  unfold bind at 1. rewrite Hrun, Hh.
  destruct (Z.eqb_spec (os_result E (os_calls s + k)) 0) as [Hnull|Hok].
  - rewrite Hnull. reflexivity.
  - set (res := os_result E (os_calls s + k)) in *.
    unfold bind at 1. unfold deallocate_trace. cbn [pfx_mem].
    rewrite lookup_insert_eq.
    unfold emit, log. cbn [os_calls ctor_calls pfx_mem aligned_mem trace].
    unfold bind, allocate_trace, write_prefix, ret, log, set_pfx_mem,
      traced_prefix.
    fold (traced_key E a key).
    destruct (psi_memory_alloc E (traced_key E a key) total) as [k' owner].
    cbn [fst snd os_calls ctor_calls pfx_mem aligned_mem trace].
    rewrite insert_insert_eq, <- !app_assoc. reflexivity.
Qed.

(** C6, as the code has it: with a zero count [reallocate] frees [ptr]
    and returns null, whether [ptr] is null or not; with a null [ptr]
    and a non-zero count it is [allocate]; and a successful resize of a
    live block retires the old accounting entry once and installs the
    new one once, leaving the new prefix below the returned pointer and
    nothing at the old place. *)
Theorem C6_realloc_by_cases
    (a : ut_allocator) (ptr n key : Z) (fuel : nat) (s : state)
    (h : ut_new_pfx_t) :
  0 <= n ->
  (Z.to_nat (alloc_max_retries E) < fuel)%nat ->
  (n <> 0 ->
   reallocate E a 0 n key fuel s = allocate E a n 0 key false fuel s)
  /\ reallocate E a 0 0 key fuel s = (Ret 0, s)
  /\ reallocate E a ptr 0 key fuel s = (deallocate E ptr ;; ret 0) fuel s
  /\ (ptr <> 0 -> pfx_mem s !! (ptr - sizeof_pfx E) = Some h ->
      exists s',
        reallocate E a ptr 0 key fuel s = (Ret 0, s')
        /\ trace s'
           = trace s ++ [EvMemoryFree (m_key h) (m_size h) (m_owner h);
                         EvFree (ptr - sizeof_pfx E)]
        /\ pfx_mem s' !! (ptr - sizeof_pfx E) = None)
  /\ (ptr <> 0 -> n <> 0 -> n <= max_size E ->
      pfx_mem s !! (ptr - sizeof_pfx E) = Some h ->
      forall p s',
        reallocate E a ptr n key fuel s = (Ret p, s') -> p <> 0 ->
        exists new_events,
          trace s' = trace s ++ new_events
          /\ List.filter is_memory_free new_events
             = [EvMemoryFree (m_key h) (m_size h) (m_owner h)]
          /\ List.filter is_memory_alloc new_events
             = [EvMemoryAlloc (traced_key E a key)
                  (n * sizeof_T E + sizeof_pfx E)]
          /\ pfx_mem s' !! (p - sizeof_pfx E)
             = Some (traced_prefix E (traced_key E a key)
                       (n * sizeof_T E + sizeof_pfx E))
          /\ (p <> ptr -> pfx_mem s' !! (ptr - sizeof_pfx E) = None)).
Proof.
  intros Hn Hfuel. repeat split.
  - intros Hnz. unfold reallocate.
    assert ((n =? 0) = false) as -> by (apply Z.eqb_neq; lia).
    reflexivity.
  - intros Hptr Hh. unfold reallocate, deallocate. cbn [Z.eqb].
    non_null ptr.
    unfold bind, deallocate_trace. rewrite Hh.
    unfold emit, os_free, ret. eexists. split; [reflexivity|].
    unfold log, set_pfx_mem.
    cbn [trace pfx_mem os_calls ctor_calls aligned_mem].
    rewrite <- app_assoc. split; [reflexivity|]. apply lookup_delete_eq.
  - intros Hptr Hnz Hfit Hh p s' Hrun Hp.
    destruct (reallocate_run a ptr n key fuel s h Hptr ltac:(lia)
                ltac:(apply Z.ltb_ge; lia) Hfuel Hh)
      as (k & _ & _ & _ & Heq).
    cbv zeta in Heq. rewrite Hrun in Heq.
    destruct (Z.eqb_spec (os_result E (os_calls s + k)) 0) as [|Hok].
    + injection Heq as -> _. contradiction.
    + injection Heq as -> ->.
      set (res := os_result E (os_calls s + k)) in *.
      eexists. cbn [trace pfx_mem]. split; [reflexivity|].
      rewrite !List.filter_app, !filter_failed_attempts by reflexivity.
      repeat split.
      * replace (res + sizeof_pfx E - sizeof_pfx E) with res by lia.
        apply lookup_insert_eq.
      * intros Hmoved. rewrite lookup_insert_ne by lia.
        apply lookup_delete_eq.
Qed.


End Reallocate.

(** ** Construction and destruction loops *)

Lemma size_t_small (z : Z) : 0 <= z <= SIZE_MAX -> size_t z = z.
Proof.
  intros [Hlo Hhi]. unfold SIZE_MAX in Hhi. unfold size_t.
  apply Z.mod_small. lia.
Qed.

Section Loops.
Variable E : env.
Hypothesis HE : env_ok E.

Let sz : Z := sizeof_T E.

Lemma sz_pos : 0 < sz <= SIZE_MAX.
Proof. destruct HE as (HT & _). exact HT. Qed.

Lemma ctor_throws_at_now (s : state) (e : exn) (args : nat -> list Z) :
  ctor_throws_at E s 0 e args -> T_ctor E (ctor_calls s) (args 0%nat) = Some e.
Proof. intros [_ Hthrow]. rewrite Nat.add_0_r in Hthrow. exact Hthrow. Qed.

Lemma ctor_throws_at_next (s s1 : state) (k : nat) (e : exn)
    (args : nat -> list Z) :
  ctor_throws_at E s (S k) e args ->
  ctor_calls s1 = S (ctor_calls s) ->
  T_ctor E (ctor_calls s) (args 0%nat) = None
  /\ ctor_throws_at E s1 k e (fun i => args (S i)).
Proof.
  intros [Hok Hthrow] Hcalls. split.
  - specialize (Hok 0%nat ltac:(lia)). rewrite Nat.add_0_r in Hok. exact Hok.
  - split.
    + intros i Hi. rewrite Hcalls.
      replace (S (ctor_calls s) + i)%nat with (ctor_calls s + S i)%nat
        by lia.
      apply Hok. lia.
    + rewrite Hcalls.
      replace (S (ctor_calls s) + k)%nat with (ctor_calls s + S k)%nat
        by lia.
      exact Hthrow.
Qed.

Lemma after_ctor_calls_step (s : state) (k : nat) (ev : event)
    (t : list event) :
  after_ctor_calls
    (mk_state (os_calls s) (S (ctor_calls s)) (pfx_mem s) (aligned_mem s)
       (trace s ++ [ev])) k t
  = after_ctor_calls s (S k) (ev :: t).
Proof.
  unfold after_ctor_calls.
  cbn [os_calls ctor_calls pfx_mem aligned_mem trace].
  rewrite <- app_assoc. f_equal. lia.
Qed.

Lemma new_array_construct_throw (n : Z) (e : exn) :
  forall (k fuel : nat) (i p : Z) (s : state),
    (k < fuel)%nat -> 0 <= i -> i + Z.of_nat k < n -> n <= SIZE_MAX ->
    ctor_throws_at E s k e (fun _ => []) ->
    new_array_construct E n i p fuel s
    = (Throw e, (i + Z.of_nat k, p + Z.of_nat k * sz),
       after_ctor_calls s (S k) (ctor_run p sz k)).
Proof.
  induction k as [|k IH]; intros fuel i p s Hfuel Hi Hin Hn Hctor;
    (destruct fuel as [|fuel]; [lia|]); cbn [new_array_construct];
    (assert ((i <? n) = true) as -> by (apply Z.ltb_lt; lia)).
  - unfold construct_at. rewrite (ctor_throws_at_now s e _ Hctor).
    cbn [run_then ctor_run]. unfold after_ctor_calls.
    rewrite app_nil_r. do 3 f_equal; lia.
  - destruct (ctor_throws_at_next s
                (mk_state (os_calls s) (S (ctor_calls s)) (pfx_mem s)
                   (aligned_mem s) (trace s ++ [EvCtor p]))
                k e _ Hctor eq_refl) as [Hnow Hnext].
    unfold construct_at. rewrite Hnow. cbn [run_then].
    rewrite (size_t_small (i + 1)) by lia.
    rewrite (IH fuel (i + 1) (p + sizeof_T E) _) by (assumption || lia).
    rewrite after_ctor_calls_step. cbn [ctor_run]. fold sz.
    do 3 f_equal; lia.
Qed.

Lemma new_array_rollback_run (i : Z) :
  forall (m fuel : nat) (j p : Z) (s : state),
    (m < fuel)%nat -> 0 <= j -> j + Z.of_nat m = i -> i <= SIZE_MAX ->
    new_array_rollback E i j p fuel s
    = (Ret tt, after_ctor_calls s 0 (dtor_run (p - sz) (- sz) m)).
Proof.
  induction m as [|m IH]; intros fuel j p s Hfuel Hj Hsum Hi;
    (destruct fuel as [|fuel]; [lia|]); cbn [new_array_rollback].
  - assert ((j <? i) = false) as -> by (apply Z.ltb_ge; lia).
    unfold ret, after_ctor_calls. cbn [dtor_run].
    rewrite app_nil_r, Nat.add_0_r. destruct s; reflexivity.
  - assert ((j <? i) = true) as -> by (apply Z.ltb_lt; lia).
    cbv zeta. unfold bind, destroy_at, emit.
    rewrite (size_t_small (j + 1)) by lia.
    rewrite IH by lia. unfold after_ctor_calls, log.
    cbn [os_calls ctor_calls pfx_mem aligned_mem trace dtor_run]. fold sz.
    rewrite <- app_assoc.
    replace (p - sz + - sz) with (p - sz - sz) by lia. reflexivity.
Qed.

Lemma destroy_downwards_run (mem : Z) :
  forall (m fuel : nat) (offset : Z) (s : state),
    (m < fuel)%nat -> offset = Z.of_nat m * sz -> offset <= SIZE_MAX ->
    ut.destroy_downwards E mem offset fuel s
    = (Ret tt,
       after_ctor_calls s 0 (dtor_run (mem + offset - sz) (- sz) m)).
Proof.
  pose proof sz_pos as Hsz.
  induction m as [|m IH]; intros fuel offset s Hfuel Hoff Hmax;
    (destruct fuel as [|fuel]; [lia|]); cbn [ut.destroy_downwards].
  - assert ((offset =? 0) = true) as -> by (apply Z.eqb_eq; lia).
    unfold ret, after_ctor_calls. cbn [negb dtor_run].
    rewrite app_nil_r, Nat.add_0_r. destruct s; reflexivity.
  - assert ((offset =? 0) = false) as -> by (apply Z.eqb_neq; nia).
    cbn [negb]. unfold bind, destroy_at, emit. fold sz.
    rewrite (size_t_small (offset - sz)) by nia.
    rewrite IH by nia. unfold after_ctor_calls, log.
    cbn [os_calls ctor_calls pfx_mem aligned_mem trace dtor_run].
    rewrite <- app_assoc.
    replace (mem + (offset - sz) - sz) with (mem + offset - sz + - sz)
      by lia.
    reflexivity.
Qed.

Lemma construct_upwards_throw (mem bound : Z) (e : exn) :
  forall (k fuel : nat) (offset : Z) (s : state),
    (k < fuel)%nat -> 0 <= offset ->
    offset + (Z.of_nat k + 1) * sz <= bound -> bound <= SIZE_MAX ->
    ctor_throws_at E s k e (fun _ => []) ->
    ut.construct_upwards E mem bound offset fuel s
    = (Throw e, offset + Z.of_nat k * sz,
       after_ctor_calls s (S k) (ctor_run (mem + offset) sz k)).
Proof.
  pose proof sz_pos as Hsz.
  induction k as [|k IH]; intros fuel offset s Hfuel Hoff Hin Hmax Hctor;
    (destruct fuel as [|fuel]; [lia|]); cbn [ut.construct_upwards];
    (assert ((offset <? bound) = true) as -> by (apply Z.ltb_lt; nia)).
  - unfold construct_at. rewrite (ctor_throws_at_now s e _ Hctor).
    cbn [run_then ctor_run]. unfold after_ctor_calls.
    rewrite app_nil_r. do 3 f_equal; lia.
  - destruct (ctor_throws_at_next s
                (mk_state (os_calls s) (S (ctor_calls s)) (pfx_mem s)
                   (aligned_mem s) (trace s ++ [EvCtor (mem + offset)]))
                k e _ Hctor eq_refl) as [Hnow Hnext].
    unfold construct_at. rewrite Hnow. cbn [run_then]. fold sz.
    rewrite (size_t_small (offset + sz)) by nia.
    rewrite (IH fuel (offset + sz) _) by (assumption || nia).
    rewrite after_ctor_calls_step. cbn [ctor_run].
    replace (mem + (offset + sz)) with (mem + offset + sz) by lia.
    f_equal. f_equal. lia.
Qed.

Lemma construct_pack_throw (mem : Z) (e : exn) (fuel : nat) :
  forall (args : list (list Z)) (k : nat) (idx : Z) (s : state),
    (k < length args)%nat -> 0 <= idx ->
    (idx + Z.of_nat (length args)) * sz <= SIZE_MAX ->
    ctor_throws_at E s k e (fun i => nth i args []) ->
    ut.construct_pack E mem idx args fuel s
    = (Throw e, idx + Z.of_nat k + 1,
       after_ctor_calls s (S k) (ctor_run (mem + idx * sz) sz k)).
Proof.
  pose proof sz_pos as Hsz.
  induction args as [|a rest IH]; intros k idx s Hk Hidx Hfit Hctor;
    cbn [length] in *; [lia|].
  cbn [ut.construct_pack]. cbv zeta. unfold ut.construct. fold sz.
  rewrite (size_t_small (sz * idx)) by nia.
  rewrite (size_t_small (idx + 1)) by nia.
  destruct k as [|k].
  - pose proof (ctor_throws_at_now s e _ Hctor) as Hnow.
    cbn [nth] in Hnow. unfold construct_at. rewrite Hnow.
    cbn [run_then ctor_run]. unfold after_ctor_calls.
    rewrite app_nil_r. do 3 f_equal; lia.
  - destruct (ctor_throws_at_next s
                (mk_state (os_calls s) (S (ctor_calls s)) (pfx_mem s)
                   (aligned_mem s) (trace s ++ [EvCtor (mem + sz * idx)]))
                k e _ Hctor eq_refl) as [Hnow Hnext].
    unfold construct_at. cbn [nth] in Hnow. rewrite Hnow. cbn [run_then].
    rewrite (IH k (idx + 1) _) by (assumption || lia || nia).
    rewrite after_ctor_calls_step. cbn [ctor_run].
    replace (mem + sz * idx) with (mem + idx * sz) by lia.
    replace (mem + (idx + 1) * sz) with (mem + idx * sz + sz) by lia.
    f_equal. f_equal. lia.
Qed.

Lemma delete_array_destroy_run (n : Z) :
  forall (m fuel : nat) (i p : Z) (s : state),
    (m < fuel)%nat -> 0 <= i -> i + Z.of_nat m = n -> n <= SIZE_MAX ->
    delete_array_destroy E n i p fuel s
    = (Ret tt, after_ctor_calls s 0 (dtor_run p (- sz) m)).
Proof.
  induction m as [|m IH]; intros fuel i p s Hfuel Hi Hsum Hn;
    (destruct fuel as [|fuel]; [lia|]); cbn [delete_array_destroy].
  - assert ((i <? n) = false) as -> by (apply Z.ltb_ge; lia).
    unfold ret, after_ctor_calls. cbn [dtor_run].
    rewrite app_nil_r, Nat.add_0_r. destruct s; reflexivity.
  - assert ((i <? n) = true) as -> by (apply Z.ltb_lt; lia).
    unfold bind, destroy_at, emit.
    rewrite (size_t_small (i + 1)) by lia.
    rewrite IH by lia. unfold after_ctor_calls, log.
    cbn [os_calls ctor_calls pfx_mem aligned_mem trace dtor_run]. fold sz.
    rewrite <- app_assoc.
    replace (p + - sz) with (p - sz) by lia. reflexivity.
Qed.

Lemma destroy_upwards_run (ptr data_len : Z) :
  forall (m fuel : nat) (offset : Z) (s : state),
    (m < fuel)%nat -> 0 <= offset ->
    offset + Z.of_nat m * sz = data_len -> data_len <= SIZE_MAX ->
    ut.destroy_upwards E ptr data_len offset fuel s
    = (Ret tt, after_ctor_calls s 0 (dtor_run (ptr + offset) sz m)).
Proof.
  pose proof sz_pos as Hsz.
  induction m as [|m IH]; intros fuel offset s Hfuel Hoff Hsum Hmax;
    (destruct fuel as [|fuel]; [lia|]); cbn [ut.destroy_upwards].
  - assert ((offset <? data_len) = false) as -> by (apply Z.ltb_ge; lia).
    unfold ret, after_ctor_calls. cbn [dtor_run].
    rewrite app_nil_r, Nat.add_0_r. destruct s; reflexivity.
  - assert ((offset <? data_len) = true) as -> by (apply Z.ltb_lt; nia).
    unfold bind, destroy_at, emit. fold sz.
    rewrite (size_t_small (offset + sz)) by nia.
    rewrite IH by nia. unfold after_ctor_calls, log.
    cbn [os_calls ctor_calls pfx_mem aligned_mem trace dtor_run].
    rewrite <- app_assoc.
    replace (ptr + (offset + sz)) with (ptr + offset + sz) by lia.
    reflexivity.
Qed.

(** The runs, element by element. *)
Lemma ctor_run_elements (first : Z) (k : nat) :
  forall j : nat,
    ctor_run (element E first j) sz k
    = map (fun i => EvCtor (element E first i)) (seq j k).
Proof.
  induction k as [|k IH]; intros j; [reflexivity|].
  cbn [ctor_run seq map]. f_equal. rewrite <- IH. f_equal.
  unfold element. fold sz. lia.
Qed.

Lemma dtor_run_ascending (first : Z) (k : nat) :
  forall j : nat,
    dtor_run (element E first j) sz k
    = map (fun i => EvDtor (element E first i)) (seq j k).
Proof.
  induction k as [|k IH]; intros j; [reflexivity|].
  cbn [dtor_run seq map]. f_equal. rewrite <- IH. f_equal.
  unfold element. fold sz. lia.
Qed.

Lemma dtor_run_descending (first : Z) (k : nat) :
  dtor_run (element E first k - sz) (- sz) k
  = map (fun i => EvDtor (element E first i)) (rev (seq 0 k)).
Proof.
  induction k as [|k IH]; [reflexivity|].
  rewrite seq_S, rev_app_distr. cbn [rev app map dtor_run Nat.add].
  f_equal.
  - f_equal. unfold element. fold sz. lia.
  - rewrite <- IH. f_equal. unfold element. fold sz. lia.
Qed.

Lemma dtor_calls_app (t u : list event) :
  dtor_calls (t ++ u) = dtor_calls t ++ dtor_calls u.
Proof.
  induction t as [|ev t IH]; [reflexivity|].
  destruct ev; cbn [app dtor_calls]; rewrite IH; reflexivity.
Qed.

Lemma dtor_calls_ctors (f : nat -> Z) (l : list nat) :
  dtor_calls (map (fun i => EvCtor (f i)) l) = [].
Proof. induction l as [|i l IH]; [reflexivity|exact IH]. Qed.

Lemma dtor_calls_dtors (f : nat -> Z) (l : list nat) :
  dtor_calls (map (fun i => EvDtor (f i)) l) = map f l.
Proof.
  induction l as [|i l IH]; [reflexivity|].
  cbn [map dtor_calls]. rewrite IH. reflexivity.
Qed.

(** A pointer that [allocate] or the raw core returned has its prefix
    one header size below it. *)
Lemma allocate_prefix (a : ut_allocator) (n hint key : Z) (zero : bool)
    (fuel : nat) (s s1 : state) (p : Z) :
  allocate E a n hint key zero fuel s = (Ret p, s1) ->
  (max_size E <? n) = false
  /\ exists h, pfx_mem s1 !! (p - sizeof_pfx E) = Some h.
Proof.
  unfold allocate. destruct (max_size E <? n); [discriminate|].
  cbv zeta. unfold bind at 1.
  destruct (retry_loop _ _ _ _ _) as [[ptr| | |] s0]; try discriminate.
  destruct (ptr =? 0); [discriminate|].
  unfold bind, allocate_trace, write_prefix, ret.
  destruct (psi_memory_alloc _ _ _) as [k owner].
  intros [= <- <-]. split; [reflexivity|].
  eexists. cbn [log set_pfx_mem pfx_mem].
  replace (ptr + sizeof_pfx E - sizeof_pfx E) with ptr by lia.
  apply lookup_insert_eq.
Qed.

Lemma Alloc_alloc_prefix (zero : bool) (size key : Z) (fuel : nat)
    (s s1 : state) (mem : Z) :
  ut.Alloc_alloc E zero size key fuel s = (Ret mem, s1) -> mem <> 0 ->
  pfx_mem s1 !! (mem - sizeof_pfx E)
  = Some (traced_prefix E key (size_t (size + sizeof_pfx E))).
Proof.
  unfold ut.Alloc_alloc. cbv zeta. unfold bind at 1.
  destruct (retry_loop _ _ _ _ _) as [[ptr| | |] s0]; try discriminate.
  destruct (ptr =? 0).
  - unfold ret. intros [= <- <-] Hmem. contradiction.
  - unfold bind, write_prefix, ret, traced_prefix.
    destruct (psi_memory_alloc _ _ _) as [k owner].
    intros [= <- <-] _. cbn [log set_pfx_mem pfx_mem fst snd].
    replace (ptr + sizeof_pfx E - sizeof_pfx E) with ptr by lia.
    apply lookup_insert_eq.
Qed.

(** Freeing a live block: the accounting entry is retired, the block is
    handed back and its prefix is gone. *)
Lemma deallocate_live (ptr : Z) (h : ut_new_pfx_t) (fuel : nat)
    (s : state) :
  ptr <> 0 -> pfx_mem s !! (ptr - sizeof_pfx E) = Some h ->
  deallocate E ptr fuel s
  = (Ret tt,
     mk_state (os_calls s) (ctor_calls s)
       (delete (ptr - sizeof_pfx E) (pfx_mem s)) (aligned_mem s)
       (trace s ++ [EvMemoryFree (m_key h) (m_size h) (m_owner h);
                    EvFree (ptr - sizeof_pfx E)])).
Proof.
  intros Hptr Hh. unfold deallocate.
  non_null ptr.
  unfold bind, deallocate_trace. rewrite Hh.
  unfold emit, os_free, log, set_pfx_mem.
  cbn [os_calls ctor_calls pfx_mem aligned_mem trace].
  rewrite <- app_assoc. reflexivity.
Qed.

Lemma Alloc_free_live (ptr : Z) (h : ut_new_pfx_t) (fuel : nat)
    (s : state) :
  ptr <> 0 -> pfx_mem s !! (ptr - sizeof_pfx E) = Some h ->
  ut.Alloc_free E ptr fuel s
  = (Ret tt,
     mk_state (os_calls s) (ctor_calls s)
       (delete (ptr - sizeof_pfx E) (pfx_mem s)) (aligned_mem s)
       (trace s ++ [EvMemoryFree (m_key h) (m_size h) (m_owner h);
                    EvFree (ptr - sizeof_pfx E)])).
Proof. exact (deallocate_live ptr h fuel s). Qed.

End Loops.

(** ** Array construction *)

Section ArrayConstruction.
Variable E : env.
Hypothesis HE : env_ok E.

Lemma allocate_non_null (a : ut_allocator) (n hint key : Z) (zero : bool)
    (fuel : nat) (s s1 : state) (p : Z) :
  allocate E a n hint key zero fuel s = (Ret p, s1) -> p <> 0.
Proof.
  assert (0 < sizeof_pfx E) as Hpfx by (destruct HE as (_ & (? & _) & _); lia).
  unfold allocate. destruct (max_size E <? n); [discriminate|].
  cbv zeta. unfold bind at 1.
  match goal with
  | |- context [retry_loop E ?att ?r ?f ?st] =>
      destruct (retry_loop E att r f st) as [[ptr| | |] s0] eqn:Hloop;
        try discriminate
  end.
  assert (0 <= ptr) as Hnonneg.
  { destruct zero; eapply retry_loop_nonneg; exact Hloop. }
  destruct (ptr =? 0); [discriminate|].
  unfold bind, allocate_trace, write_prefix, ret.
  destruct (psi_memory_alloc _ _ _) as [k owner].
  intros [= <- _]. lia.
Qed.

Lemma freed_blocks_app (t u : list event) :
  freed_blocks (t ++ u) = freed_blocks t ++ freed_blocks u.
Proof.
  induction t as [|ev t IH]; [reflexivity|].
  destruct ev; cbn [app freed_blocks]; rewrite IH; reflexivity.
Qed.

Lemma freed_blocks_no_free (t : list event) :
  (forall ev, List.In ev t ->
              match ev with EvFree _ => False | _ => True end) ->
  freed_blocks t = [].
Proof.
  induction t as [|ev t IH]; intros Hno; [reflexivity|].
  pose proof (Hno ev (or_introl eq_refl)) as Hev.
  destruct ev; try contradiction; cbn [freed_blocks];
    apply IH; intros ev' Hin; apply Hno; right; exact Hin.
Qed.

Lemma rollback_events_dtor_calls (first : Z) (k : nat) (h : ut_new_pfx_t) :
  dtor_calls (rollback_events E first k h)
  = map (element E first) (rev (seq 0 k)).
Proof.
  unfold rollback_events.
  rewrite !dtor_calls_app, dtor_calls_ctors, dtor_calls_dtors.
  cbn [dtor_calls app]. apply app_nil_r.
Qed.

Lemma rollback_events_freed (first : Z) (k : nat) (h : ut_new_pfx_t) :
  freed_blocks (rollback_events E first k h) = [first - sizeof_pfx E].
Proof.
  unfold rollback_events.
  rewrite !freed_blocks_app.
  rewrite (freed_blocks_no_free (map _ (seq 0 k))),
    (freed_blocks_no_free (map _ (rev (seq 0 k)))); [reflexivity| |].
  - intros ev Hin. apply List.in_map_iff in Hin as (i & <- & _). exact I.
  - intros ev Hin. apply List.in_map_iff in Hin as (i & <- & _). exact I.
Qed.

(** The handler that follows a throw of the constructor of element [k]:
    with the trace of the [k] constructions behind it, it destroys
    elements [k-1] down to [0], releases the block and rethrows. *)
Lemma rollback_then_release (rollback : M unit) (release : M unit)
    (first : Z) (k : nat) (e : exn) (h : ut_new_pfx_t) (fuel : nat)
    (s1 : state) :
  let s2 := after_ctor_calls s1 (S k) (ctor_run first (sizeof_T E) k) in
  let s3 :=
    after_ctor_calls s2 0
      (dtor_run (element E first k - sizeof_T E) (- sizeof_T E) k) in
  rollback fuel s2 = (Ret tt, s3) ->
  release fuel s3
  = (Ret tt,
     mk_state (os_calls s3) (ctor_calls s3)
       (delete (first - sizeof_pfx E) (pfx_mem s3)) (aligned_mem s3)
       (trace s3 ++ [EvMemoryFree (m_key h) (m_size h) (m_owner h);
                     EvFree (first - sizeof_pfx E)])) ->
  exists s',
    ((rollback ;; release ;; throw e) fuel s2 : outcome Z * state)
    = (Throw e, s')
    /\ trace s' = trace s1 ++ rollback_events E first k h
    /\ pfx_mem s' !! (first - sizeof_pfx E) = None.
Proof.
  intros s2 s3 Hrollback Hrelease. eexists. split.
  - unfold bind. rewrite Hrollback, Hrelease. reflexivity.
  - cbn [trace pfx_mem]. split; [|apply lookup_delete_eq].
    subst s3 s2. unfold after_ctor_calls, rollback_events.
    cbn [os_calls ctor_calls pfx_mem aligned_mem trace].
    rewrite <- (ctor_run_elements E first k 0), <- dtor_run_descending.
    replace (element E first 0) with first by (unfold element; lia).
    rewrite <- !app_assoc. reflexivity.
Qed.

(** C3: when the constructor of element [k] of an array throws,
    [ut_allocator::new_array], [ut::new_arr_withkey] with one argument
    tuple per element and [ut::new_arr_withkey] with [ut::Count] each
    call the destructor exactly [k] times, on elements [k-1] down to
    [0], then release the block, and end by throwing the same
    exception. *)
Theorem C3_array_construction_rollback (k : nat) (e : exn) (fuel : nat) :
  (k < fuel)%nat ->
  (forall (a : ut_allocator) (n key : Z) (s s1 : state) (p : Z),
      Z.of_nat k < n ->
      allocate E a n 0 key false fuel s = (Ret p, s1) ->
      ctor_throws_at E s1 k e (fun _ => []) ->
      exists (h : ut_new_pfx_t) (s' : state),
        pfx_mem s1 !! (p - sizeof_pfx E) = Some h
        /\ new_array E a n key fuel s = (Throw e, s')
        /\ trace s' = trace s1 ++ rollback_events E p k h
        /\ pfx_mem s' !! (p - sizeof_pfx E) = None)
  /\ (forall (key : Z) (args : list (list Z)) (s s1 : state) (mem : Z),
         (k < length args)%nat ->
         Z.of_nat (length args) * sizeof_T E <= SIZE_MAX ->
         ut.Alloc_alloc E false
           (size_t (sizeof_T E * Z.of_nat (length args))) key fuel s
         = (Ret mem, s1) ->
         mem <> 0 ->
         ctor_throws_at E s1 k e (fun i => nth i args []) ->
         exists (h : ut_new_pfx_t) (s' : state),
           pfx_mem s1 !! (mem - sizeof_pfx E) = Some h
           /\ ut.new_arr_withkey E key args fuel s = (Throw e, s')
           /\ trace s' = trace s1 ++ rollback_events E mem k h
           /\ pfx_mem s' !! (mem - sizeof_pfx E) = None)
  /\ (forall (key count : Z) (s s1 : state) (mem : Z),
         Z.of_nat k < count ->
         count * sizeof_T E <= SIZE_MAX ->
         ut.Alloc_alloc E false (size_t (sizeof_T E * count)) key fuel s
         = (Ret mem, s1) ->
         mem <> 0 ->
         ctor_throws_at E s1 k e (fun _ => []) ->
         exists (h : ut_new_pfx_t) (s' : state),
           pfx_mem s1 !! (mem - sizeof_pfx E) = Some h
           /\ ut.new_arr_withkey_count E key count fuel s = (Throw e, s')
           /\ trace s' = trace s1 ++ rollback_events E mem k h
           /\ pfx_mem s' !! (mem - sizeof_pfx E) = None)
  /\ (forall (first : Z) (h : ut_new_pfx_t),
         dtor_calls (rollback_events E first k h)
         = map (element E first) (rev (seq 0 k))
         /\ length (dtor_calls (rollback_events E first k h)) = k
         /\ freed_blocks (rollback_events E first k h)
            = [first - sizeof_pfx E]).
Proof.
  intros Hfuel.
  pose proof (sz_pos E HE) as Hsz.
  split; [|split; [|split]].
  - intros a n key s s1 p Hk Halloc Hctor.
    destruct (allocate_prefix E a n 0 key false fuel s s1 p Halloc)
      as [Hmax [h Hh]].
    pose proof (allocate_non_null a n 0 key false fuel s s1 p Halloc) as Hp.
    destruct (total_bytes_fit E HE n ltac:(lia) Hmax) as [_ Hfit].
    assert (n <= SIZE_MAX) as Hn.
    { destruct HE as (_ & (? & _) & _). nia. }
    exists h.
    destruct (rollback_then_release
                (fun fuel =>
                   new_array_rollback E (0 + Z.of_nat k) 0
                     (p + Z.of_nat k * sizeof_T E) fuel)
                (deallocate E p) p k e h fuel s1) as (s' & Hrun & Ht & Hm).
    + cbv zeta. rewrite (new_array_rollback_run E (0 + Z.of_nat k) k)
        by lia.
      reflexivity.
    + cbv zeta. apply deallocate_live; [exact Hp|exact Hh].
    + exists s'. split; [exact Hh|]. split; [|split; assumption].
      unfold new_array, bind at 1. rewrite Halloc.
      rewrite (new_array_construct_throw E n e k) by (assumption || lia).
      exact Hrun.
  - intros key args s s1 mem Hk Hfit Halloc Hmem Hctor.
    pose proof (Alloc_alloc_prefix E false _ key fuel s s1 mem Halloc Hmem)
      as Hh.
    match type of Hh with
    | _ = Some ?pfx => set (h := pfx) in Hh
    end.
    exists h.
    destruct (rollback_then_release
                (fun fuel =>
                   ut.destroy_downwards E mem
                     (size_t ((0 + Z.of_nat k + 1 - 1) * sizeof_T E)) fuel)
                (ut.Alloc_free E mem) mem k e h fuel s1)
      as (s' & Hrun & Ht & Hm).
    + cbv zeta.
      rewrite (size_t_small ((0 + Z.of_nat k + 1 - 1) * sizeof_T E))
        by nia.
      rewrite (destroy_downwards_run E HE mem k) by nia.
      do 3 f_equal; unfold element; lia.
    + cbv zeta. apply Alloc_free_live; [exact Hmem|exact Hh].
    + exists s'. split; [exact Hh|]. split; [|split; assumption].
      unfold ut.new_arr_withkey, bind at 1. rewrite Halloc.
      non_null mem.
      rewrite (construct_pack_throw E HE mem e fuel args k)
        by (assumption || lia).
      replace (mem + 0 * sizeof_T E) with mem by lia.
      exact Hrun.
  - intros key count s s1 mem Hk Hfit Halloc Hmem Hctor.
    pose proof (Alloc_alloc_prefix E false _ key fuel s s1 mem Halloc Hmem)
      as Hh.
    match type of Hh with
    | _ = Some ?pfx => set (h := pfx) in Hh
    end.
    exists h.
    destruct (rollback_then_release
                (fun fuel =>
                   ut.destroy_downwards E mem
                     (0 + Z.of_nat k * sizeof_T E) fuel)
                (ut.Alloc_free E mem) mem k e h fuel s1)
      as (s' & Hrun & Ht & Hm).
    + cbv zeta.
      rewrite (destroy_downwards_run E HE mem k) by nia.
      do 3 f_equal; unfold element; lia.
    + cbv zeta. apply Alloc_free_live; [exact Hmem|exact Hh].
    + exists s'. split; [exact Hh|]. split; [|split; assumption].
      unfold ut.new_arr_withkey_count, bind at 1. rewrite Halloc.
      non_null mem.
      rewrite (size_t_small (sizeof_T E * count)) by nia.
      rewrite (construct_upwards_throw E HE mem (sizeof_T E * count) e k)
        by (assumption || nia).
      replace (mem + 0) with mem by lia.
      exact Hrun.
  - intros first h. rewrite rollback_events_dtor_calls. repeat split.
    + rewrite length_map, length_rev, length_seq. reflexivity.
    + apply rollback_events_freed.
Qed.

End ArrayConstruction.

(** ** Array destruction *)

Section ArrayDestruction.
Variable E : env.
Hypothesis HE : env_ok E.

(** What the release of a live array block adds to the trace, after the
    destructor calls [dtors]. *)
Lemma destroy_then_release (destroy : M unit) (release : M unit)
    (ptr : Z) (h : ut_new_pfx_t) (dtors : list event) (fuel : nat)
    (s : state) :
  destroy fuel s = (Ret tt, after_ctor_calls s 0 dtors) ->
  (forall s0,
      pfx_mem s0 !! (ptr - sizeof_pfx E) = Some h ->
      release fuel s0
      = (Ret tt,
         mk_state (os_calls s0) (ctor_calls s0)
           (delete (ptr - sizeof_pfx E) (pfx_mem s0)) (aligned_mem s0)
           (trace s0 ++ [EvMemoryFree (m_key h) (m_size h) (m_owner h);
                         EvFree (ptr - sizeof_pfx E)]))) ->
  pfx_mem s !! (ptr - sizeof_pfx E) = Some h ->
  (destroy ;; release) fuel s
  = (Ret tt,
     mk_state (os_calls s) (ctor_calls s)
       (delete (ptr - sizeof_pfx E) (pfx_mem s)) (aligned_mem s)
       (trace s ++ dtors
          ++ [EvMemoryFree (m_key h) (m_size h) (m_owner h);
              EvFree (ptr - sizeof_pfx E)])).
Proof.
  intros Hdestroy Hrelease Hh. unfold bind. rewrite Hdestroy.
  rewrite Hrelease by exact Hh. unfold after_ctor_calls.
  cbn [os_calls ctor_calls pfx_mem aligned_mem trace].
  rewrite Nat.add_0_r, <- app_assoc. reflexivity.
Qed.

Lemma user_bytes_of_array (n : nat) (h : ut_new_pfx_t) :
  m_size h = Z.of_nat n * sizeof_T E + sizeof_pfx E ->
  m_size h <= SIZE_MAX ->
  size_t (m_size h - sizeof_pfx E) = Z.of_nat n * sizeof_T E
  /\ Z.of_nat n * sizeof_T E <= SIZE_MAX
  /\ Z.of_nat n <= SIZE_MAX.
Proof.
  intros Hsize Hfit. pose proof (sz_pos E HE) as Hsz.
  assert (0 < sizeof_pfx E) as Hpfx by (destruct HE as (_ & (? & _) & _); lia).
  replace (m_size h - sizeof_pfx E) with (Z.of_nat n * sizeof_T E) by lia.
  split; [apply size_t_small; nia|]. split; nia.
Qed.

(** [ut_allocator::delete_array] on a live array of [n] elements: the
    count is read from the prefix, the elements are destroyed from the
    last to the first, and the block is released. *)
Lemma delete_array_descending (ptr : Z) (n : nat) (h : ut_new_pfx_t)
    (fuel : nat) (s : state) :
  ptr <> 0 -> pfx_mem s !! (ptr - sizeof_pfx E) = Some h ->
  m_size h = Z.of_nat n * sizeof_T E + sizeof_pfx E ->
  m_size h <= SIZE_MAX -> (n < fuel)%nat ->
  n_elements_allocated E ptr fuel s = (Ret (Z.of_nat n), s)
  /\ delete_array E ptr fuel s
     = (Ret tt,
        mk_state (os_calls s) (ctor_calls s)
          (delete (ptr - sizeof_pfx E) (pfx_mem s)) (aligned_mem s)
          (trace s
             ++ map (fun i => EvDtor (element E ptr i)) (rev (seq 0 n))
             ++ [EvMemoryFree (m_key h) (m_size h) (m_owner h);
                 EvFree (ptr - sizeof_pfx E)])).
Proof.
  intros Hptr Hh Hsize Hfit Hfuel. pose proof (sz_pos E HE) as Hsz.
  destruct (user_bytes_of_array n h Hsize Hfit) as (Hbytes & Hmax & Hn).
  assert (n_elements_allocated E ptr fuel s = (Ret (Z.of_nat n), s))
    as Hcount.
  { unfold n_elements_allocated. rewrite Hh. cbv zeta. rewrite Hbytes.
    rewrite Z.mod_mul, Z.div_mul by lia.
    unfold ut_ad. cbn [Z.eqb negb]. rewrite andb_false_r. reflexivity. }
  split; [exact Hcount|].
  unfold delete_array.
  non_null ptr.
  unfold bind at 1. rewrite Hcount.
  rewrite <- dtor_run_descending.
  apply destroy_then_release; [|intros s0; apply deallocate_live|]; auto.
  rewrite (delete_array_destroy_run E (Z.of_nat n) n) by lia.
  do 3 f_equal; unfold element; lia.
Qed.

(** [ut::delete_arr] on a live array of [n] elements: the elements are
    destroyed from the first to the last, and the block is released. *)
Lemma delete_arr_ascending (ptr : Z) (n : nat) (h : ut_new_pfx_t)
    (fuel : nat) (s : state) :
  ptr <> 0 -> pfx_mem s !! (ptr - sizeof_pfx E) = Some h ->
  m_size h = Z.of_nat n * sizeof_T E + sizeof_pfx E ->
  m_size h <= SIZE_MAX -> (n < fuel)%nat ->
  ut.delete_arr E ptr fuel s
  = (Ret tt,
     mk_state (os_calls s) (ctor_calls s)
       (delete (ptr - sizeof_pfx E) (pfx_mem s)) (aligned_mem s)
       (trace s
          ++ map (fun i => EvDtor (element E ptr i)) (seq 0 n)
          ++ [EvMemoryFree (m_key h) (m_size h) (m_owner h);
              EvFree (ptr - sizeof_pfx E)])).
Proof.
  intros Hptr Hh Hsize Hfit Hfuel. pose proof (sz_pos E HE) as Hsz.
  destruct (user_bytes_of_array n h Hsize Hfit) as (Hbytes & Hmax & Hn).
  unfold ut.delete_arr.
  non_null ptr.
  unfold bind at 1. unfold ut.Alloc_datalen. rewrite Hh, Hbytes.
  rewrite <- (dtor_run_ascending E ptr n 0).
  apply destroy_then_release; [|intros s0; apply Alloc_free_live|]; auto.
  rewrite (destroy_upwards_run E HE ptr (Z.of_nat n * sizeof_T E) n)
    by lia.
  do 3 f_equal; unfold element; lia.
Qed.

End ArrayDestruction.

(** C4 at an array of three elements: [ut_allocator::delete_array]
    reads the count 3 from the prefix and destroys elements 2, 1, 0
    before it releases the block, but [ut::delete_arr] destroys elements
    0, 1, 2, the lowest index first. *)
Theorem C4_delete_arr_destroys_lowest_index_first :
  let a := mk_allocator 5 in
  let by_allocator :=
    (p <- new_array sample_env a 3 9 ;;
     n <- n_elements_allocated sample_env p ;;
     delete_array sample_env p ;;
     ret (p, n)) 100%nat initial_state in
  let by_ut :=
    (p <- ut.new_arr_withkey_count sample_env 9 3 ;;
     ut.delete_arr sample_env p ;;
     ret p) 100%nat initial_state in
  fst by_allocator = Ret (4128, 3)
  /\ dtor_calls (trace (snd by_allocator))
     = map (element sample_env 4128) [2; 1; 0]%nat
  /\ freed_blocks (trace (snd by_allocator)) = [4096]
  /\ fst by_ut = Ret 4128
  /\ dtor_calls (trace (snd by_ut))
     = map (element sample_env 4128) [0; 1; 2]%nat
  /\ dtor_calls (trace (snd by_ut))
     <> map (element sample_env 4128) [2; 1; 0]%nat
  /\ freed_blocks (trace (snd by_ut)) = [4096].
Proof. vm_compute. repeat split; congruence. Qed.

(** ** Aligned construction and destruction *)

Section Aligned.
Variable E : env.
Hypothesis HE : env_ok E.

(** When the constructor throws, [ut::aligned_new_withkey] ends right
    there: nothing is added to the trace after the allocation and the
    block stays recorded. *)
Lemma aligned_new_withkey_throw (key alignment : Z) (args : list Z)
    (fuel : nat) (s s1 : state) (mem : Z) (e : exn) :
  ut.aligned_alloc_withkey E key (sizeof_T E) alignment fuel s
  = (Ret mem, s1) ->
  mem <> 0 ->
  T_ctor E (ctor_calls s1) args = Some e ->
  ut.aligned_new_withkey E key alignment args fuel s
  = (Throw e,
     mk_state (os_calls s1) (S (ctor_calls s1)) (pfx_mem s1)
       (aligned_mem s1) (trace s1)).
Proof.
  intros Halloc Hmem Hctor. unfold ut.aligned_new_withkey, bind at 1.
  rewrite Halloc.
  non_null mem.
  unfold bind, construct_at. rewrite Hctor. reflexivity.
Qed.

(** The unaligned [ut::new_withkey] in the same situation releases the
    block before it rethrows. *)
Lemma new_withkey_throw (key : Z) (args : list Z) (fuel : nat)
    (s s1 : state) (mem : Z) (e : exn) :
  ut.malloc_withkey E key (sizeof_T E) fuel s = (Ret mem, s1) ->
  mem <> 0 ->
  T_ctor E (ctor_calls s1) args = Some e ->
  exists h,
    pfx_mem s1 !! (mem - sizeof_pfx E) = Some h
    /\ ut.new_withkey E key args fuel s
       = (Throw e,
          mk_state (os_calls s1) (S (ctor_calls s1))
            (delete (mem - sizeof_pfx E) (pfx_mem s1)) (aligned_mem s1)
            (trace s1 ++ [EvMemoryFree (m_key h) (m_size h) (m_owner h);
                          EvFree (mem - sizeof_pfx E)])).
Proof.
  intros Halloc Hmem Hctor.
  pose proof (Alloc_alloc_prefix E false _ key fuel s s1 mem Halloc Hmem)
    as Hh.
  eexists. split; [exact Hh|].
  unfold ut.new_withkey, bind at 1. rewrite Halloc.
  non_null mem.
  unfold bind at 1. unfold try_catch_rethrow, construct_at. rewrite Hctor.
  unfold bind at 1. unfold ut.free.
  erewrite (Alloc_free_live E mem); [reflexivity|exact Hmem|exact Hh].
Qed.

(** When the constructor of element [k] throws,
    [ut::aligned_new_arr_withkey] ends right there as well: the [k]
    elements built so far are not destroyed and the block is not
    released. *)
Lemma aligned_new_arr_withkey_throw (key alignment count : Z) (k : nat)
    (fuel : nat) (s s1 : state) (mem : Z) (e : exn) :
  ut.aligned_alloc_withkey E key (size_t (sizeof_T E * count)) alignment
    fuel s = (Ret mem, s1) ->
  mem <> 0 ->
  Z.of_nat k < count -> count * sizeof_T E <= SIZE_MAX -> (k < fuel)%nat ->
  ctor_throws_at E s1 k e (fun _ => []) ->
  ut.aligned_new_arr_withkey E key alignment count fuel s
  = (Throw e,
     after_ctor_calls s1 (S k)
       (map (fun i => EvCtor (element E mem i)) (seq 0 k))).
Proof.
  intros Halloc Hmem Hk Hfit Hfuel Hctor. pose proof (sz_pos E HE) as Hsz.
  unfold ut.aligned_new_arr_withkey, bind at 1. rewrite Halloc.
  non_null mem.
  rewrite (size_t_small (sizeof_T E * count)) by nia.
  rewrite (construct_upwards_throw E HE mem (sizeof_T E * count) e k)
    by (assumption || nia).
  rewrite <- (ctor_run_elements E mem k 0).
  replace (element E mem 0) with (mem + 0) by (unfold element; lia).
  reflexivity.
Qed.

(** C10: [ut::delete_] and [ut::delete_arr] do nothing on a null
    pointer, while [ut::aligned_delete] calls the destructor on whatever
    it is given before anything else, on null too. *)
Theorem C10_null_handling_of_the_deleters (fuel : nat) (s : state) :
  ut.delete_ E 0 fuel s = (Ret tt, s)
  /\ ut.delete_arr E 0 fuel s = (Ret tt, s)
  /\ (forall ptr : Z,
         exists rest : list event,
           trace (snd (ut.aligned_delete ptr fuel s))
           = trace s ++ EvDtor ptr :: rest)
  /\ ut.aligned_delete 0 fuel s = (Ret tt, log (EvDtor 0) s)
  /\ ut.aligned_delete 0 fuel s <> (Ret tt, s).
Proof.
  split; [reflexivity|]. split; [reflexivity|]. split; [|split].
  - intros ptr. unfold ut.aligned_delete, bind, destroy_at, emit.
    unfold ut.aligned_free, ut.Aligned_free.
    destruct (ptr =? 0).
    + exists []. reflexivity.
    + cbn [log aligned_mem].
      destruct (aligned_mem s !! ptr) as [b|].
      * eexists. unfold bind, emit, log, set_aligned_mem.
        cbn [snd trace]. rewrite <- !app_assoc. reflexivity.
      * exists []. reflexivity.
  - reflexivity.
  - intros Heq. apply (f_equal (fun r => length (trace (snd r)))) in Heq.
    cbn in Heq. rewrite length_app in Heq. cbn in Heq. lia.
Qed.

End Aligned.

(** C2 at a constructor that throws: [ut::aligned_new_withkey] and
    [ut::aligned_new_arr_withkey] pass the exception on with the block
    still allocated and accounted for, and with the elements built so
    far not destroyed; the unaligned [ut::new_withkey] releases its
    block first. *)
Theorem C2_aligned_construction_keeps_the_block_on_throw :
  let single :=
    ut.aligned_new_withkey (throwing_env 0) 9 64 [] 100%nat initial_state in
  let array :=
    ut.aligned_new_arr_withkey (throwing_env 2) 9 64 4 100%nat
      initial_state in
  let unaligned :=
    ut.new_withkey (throwing_env 0) 9 [] 100%nat initial_state in
  fst single = Throw (ctor_exception 42)
  /\ trace (snd single) = [EvMalloc 104 4096; EvMemoryAlloc 9 104]
  /\ freed_blocks (trace (snd single)) = []
  /\ a_base <$> aligned_mem (snd single) !! 4160 = Some 4096
  /\ fst array = Throw (ctor_exception 42)
  /\ trace (snd array)
     = [EvMalloc 128 4096; EvMemoryAlloc 9 128; EvCtor 4160; EvCtor 4168]
  /\ dtor_calls (trace (snd array)) = []
  /\ freed_blocks (trace (snd array)) = []
  /\ a_base <$> aligned_mem (snd array) !! 4160 = Some 4096
  /\ fst unaligned = Throw (ctor_exception 42)
  /\ freed_blocks (trace (snd unaligned)) = [4096].
Proof. vm_compute. repeat split. Qed.

(** C9: two allocators of the same element type compare equal whatever
    their keys are. *)
Theorem C9_allocators_compare_equal (lhs rhs : ut_allocator) :
  allocator_eq lhs rhs = true /\ allocator_ne lhs rhs = false.
Proof. split; reflexivity. Qed.

(** ** The theorems at the sample environments *)

Lemma C5_witness_sample_allocation :
  env_ok sample_env
  /\ 0 <= 3
  /\ (Z.to_nat (alloc_max_retries sample_env) < 61)%nat
  /\ match
       fst (allocate sample_env sample_allocator 3 0 9 false 61%nat
              initial_state)
     with
     | Ret p => p <> 0
     | Throw e => e = bad_alloc \/ e = bad_array_new_length
     | Fault => False
     | Timeout => False
     end.
Proof.
  assert (env_ok sample_env) as Hok
    by (unfold env_ok, SIZE_MAX; simpl; lia).
  assert (0 <= 3) as Hn by lia.
  assert ((Z.to_nat (alloc_max_retries sample_env) < 61)%nat) as Hfuel
    by (simpl; lia).
  split; [exact Hok|]. split; [exact Hn|]. split; [exact Hfuel|].
  exact (proj1 (C5_allocate_returns_non_null_or_throws sample_env Hok
                  sample_allocator 3 0 9 false 61%nat initial_state
                  Hn Hfuel)).
Defined.

Lemma C8_witness_sample_allocation :
  exists pfx : ut_new_pfx_t,
    pfx_mem sample_block_state !! (4128 - sizeof_pfx sample_env) = Some pfx
    /\ m_size pfx = 3 * sizeof_T sample_env + sizeof_pfx sample_env
    /\ (m_key pfx, m_owner pfx)
       = psi_memory_alloc sample_env
           (traced_key sample_env sample_allocator 9)
           (3 * sizeof_T sample_env + sizeof_pfx sample_env)
    /\ n_elements_allocated sample_env 4128 61%nat sample_block_state
       = (Ret 3, sample_block_state).
Proof.
  apply (C8_header_round_trip sample_env) with (hint := 0) (zero := false)
    (s := initial_state).
  - unfold env_ok, SIZE_MAX; simpl; lia.
  - vm_compute; split; discriminate.
  - simpl; lia.
  - vm_compute. reflexivity.
Defined.

Lemma C6_witness_sample_resize :
  exists new_events : list event,
    trace (snd (reallocate sample_env sample_allocator 4128 10 11 61%nat
                  sample_block_state))
    = trace sample_block_state ++ new_events
    /\ List.filter is_memory_free new_events = [EvMemoryFree 5 56 7]
    /\ List.filter is_memory_alloc new_events = [EvMemoryAlloc 5 112].
Proof.
  assert (env_ok sample_env) as Hok
    by (unfold env_ok, SIZE_MAX; simpl; lia).
  destruct (C6_realloc_by_cases sample_env Hok sample_allocator 4128 10 11
              61%nat sample_block_state (mk_pfx 5 7 56))
    as (_ & _ & _ & _ & Hresize); [lia|simpl; lia|].
  destruct (Hresize ltac:(lia) ltac:(lia)
              ltac:(vm_compute; discriminate)
              ltac:(vm_compute; reflexivity)
              8224
              (snd (reallocate sample_env sample_allocator 4128 10 11
                      61%nat sample_block_state))
              ltac:(vm_compute; reflexivity) ltac:(lia))
    as (new_events & Htrace & Hfree & Halloc & _).
  exists new_events. split; [exact Htrace|]. split; [exact Hfree|].
  exact Halloc.
Defined.


Lemma C3_witness_third_constructor_throws :
  (exists (h : ut_new_pfx_t) (s' : state),
      pfx_mem sample_array_state !! (4128 - sizeof_pfx (throwing_env 2))
      = Some h
      /\ new_array (throwing_env 2) sample_allocator 4 9 100%nat
           initial_state
         = (Throw (ctor_exception 42), s')
      /\ trace s'
         = trace sample_array_state
             ++ rollback_events (throwing_env 2) 4128 2 h
      /\ pfx_mem s' !! (4128 - sizeof_pfx (throwing_env 2)) = None)
  /\ (exists (h : ut_new_pfx_t) (s' : state),
         pfx_mem sample_raw_array_state
           !! (4128 - sizeof_pfx (throwing_env 2)) = Some h
         /\ ut.new_arr_withkey (throwing_env 2) 9 [[1]; [2]; [3]; [4]]
              100%nat initial_state
            = (Throw (ctor_exception 42), s')
         /\ trace s'
            = trace sample_raw_array_state
                ++ rollback_events (throwing_env 2) 4128 2 h
         /\ pfx_mem s' !! (4128 - sizeof_pfx (throwing_env 2)) = None)
  /\ (exists (h : ut_new_pfx_t) (s' : state),
         pfx_mem sample_raw_array_state
           !! (4128 - sizeof_pfx (throwing_env 2)) = Some h
         /\ ut.new_arr_withkey_count (throwing_env 2) 9 4 100%nat
              initial_state
            = (Throw (ctor_exception 42), s')
         /\ trace s'
            = trace sample_raw_array_state
                ++ rollback_events (throwing_env 2) 4128 2 h
         /\ pfx_mem s' !! (4128 - sizeof_pfx (throwing_env 2)) = None)
  /\ dtor_calls
       (rollback_events (throwing_env 2) 4128 2 (mk_pfx 9 7 64))
     = [4136; 4128].
Proof.
  assert (env_ok (throwing_env 2)) as Hok
    by (unfold env_ok, SIZE_MAX; simpl; lia).
  assert (forall s1 (args : nat -> list Z),
             ctor_calls s1 = 0%nat ->
             ctor_throws_at (throwing_env 2) s1 2 (ctor_exception 42) args)
    as Hctor.
  { intros s1 args Hcalls. unfold ctor_throws_at. rewrite Hcalls. split.
    - intros i Hi. destruct i as [|[|i]]; [reflexivity|reflexivity|lia].
    - reflexivity. }
  destruct (C3_array_construction_rollback (throwing_env 2) Hok 2
              (ctor_exception 42) 100%nat ltac:(lia))
    as (Hnew_array & Hpack & Hcount & Hcalls).
  split; [|split; [|split]].
  - apply (Hnew_array sample_allocator 4 9 initial_state sample_array_state
             4128); [lia|vm_compute; reflexivity|apply Hctor; reflexivity].
  - apply (Hpack 9 [[1]; [2]; [3]; [4]] initial_state
             sample_raw_array_state 4128);
      [simpl; lia|vm_compute; discriminate|vm_compute; reflexivity|lia|
       apply Hctor; reflexivity].
  - apply (Hcount 9 4 initial_state sample_raw_array_state 4128);
      [lia|vm_compute; discriminate|vm_compute; reflexivity|lia|
       apply Hctor; reflexivity].
  - exact (proj1 (Hcalls 4128 (mk_pfx 9 7 64))).
Defined.

(** C6 as stated fails at a null pointer with a zero count: [reallocate]
    returns null and does nothing, while a fresh allocation of zero
    elements asks the OS for a block and returns a non-null pointer. *)
Lemma C6_counterexample_null_pointer_zero_count :
  reallocate sample_env sample_allocator 0 0 9 61%nat initial_state
  = (Ret 0, initial_state)
  /\ fst (allocate sample_env sample_allocator 0 0 9 false 61%nat
            initial_state) = Ret 4128
  /\ trace (snd (allocate sample_env sample_allocator 0 0 9 false 61%nat
                   initial_state))
     = [EvMalloc 32 4096; EvMemoryAlloc 5 32]
  /\ reallocate sample_env sample_allocator 0 0 9 61%nat initial_state
     <> allocate sample_env sample_allocator 0 0 9 false 61%nat
          initial_state.
Proof. vm_compute. repeat split; congruence. Qed.


(** * More properties *)

(** ** The key lookup *)

Section KeyLookupMore.
Import KeyRegistry.

Lemma append_cons (c : ascii) (s t : string) :
  (String c s ++ t)%string = String c (s ++ t)%string.
Proof. reflexivity. Qed.

Lemma c_char_app (pre s : string) (i : nat) :
  c_char (pre ++ s) (String.length pre + i) = c_char s i.
Proof. induction pre as [|c pre IH]; [reflexivity|exact IH]. Qed.

Lemma len_without_extension_bound (file : string) :
  (ut_len_without_extension file <= String.length file)%nat.
Proof.
  induction file as [|c rest IH]; cbn [ut_len_without_extension
    String.length]; [lia|].
  destruct (Ascii.eqb c zero || Ascii.eqb c ".")%bool; lia.
Qed.

Lemma len_of_name_with_extension (name ext : string) :
  no_stop name = true ->
  ut_len_without_extension (name ++ String "." ext) = String.length name
  /\ ut_len_without_extension name = String.length name.
Proof.
  induction name as [|c rest IH]; intros Hname.
  - split; reflexivity.
  - cbn [no_stop] in Hname. apply andb_true_iff in Hname as [Hc Hrest].
    apply negb_true_iff in Hc. destruct (IH Hrest) as [IH1 IH2].
    change (String c rest ++ String "." ext)%string
      with (String c (rest ++ String "." ext))%string.
    cbn [ut_len_without_extension String.length].
    rewrite Hc, IH1, IH2. split; reflexivity.
Qed.

Lemma substring_whole_prefix (name rest : string) :
  substring 0 (String.length name) (name ++ rest) = name.
Proof.
  induction name as [|c name IH]; simpl.
  - destruct rest; reflexivity.
  - rewrite IH. reflexivity.
Qed.

Lemma substring_whole (name : string) :
  substring 0 (String.length name) name = name.
Proof.
  induction name as [|c name IH]; simpl; [reflexivity|].
  rewrite IH. reflexivity.
Qed.

Lemma identifier_of_name_with_extension (name ext : string) :
  no_stop name = true ->
  identifier_of (name ++ String "." ext) = name
  /\ identifier_of name = name.
Proof.
  intros Hname.
  destruct (len_of_name_with_extension name ext Hname) as [Hlen Hlen'].
  unfold identifier_of. rewrite Hlen, Hlen'.
  split; [apply substring_whole_prefix|apply substring_whole].
Qed.

(** X1: the extension does not count.  A base name without a dot
    resolves to the same index whatever extension follows it, and
    without any extension too. *)
Theorem X1_extension_is_ignored (name ext : string) :
  no_stop name = true ->
  identifier_of (name ++ String "." ext) = name
  /\ ut_new_get_key_by_file (name ++ String "." ext)
     = ut_new_get_key_by_file name.
Proof.
  intros Hname.
  destruct (identifier_of_name_with_extension name ext Hname) as [Hid Hid'].
  split; [exact Hid|].
  rewrite !get_key_by_file_first_entry, Hid, Hid'. reflexivity.
Qed.

Lemma find_index_first {A : Type} (p : A -> bool) (d : A) :
  forall (l : list A) (i : nat),
    match find_index p l i with
    | Some j =>
        (i <= j < i + length l)%nat
        /\ p (nth (j - i) l d) = true
        /\ forall k, (k < j - i)%nat -> p (nth k l d) = false
    | None => forall k, (k < length l)%nat -> p (nth k l d) = false
    end.
Proof.
  induction l as [|x l IH]; intros i; cbn [find_index length].
  - intros k Hk. lia.
  - destruct (p x) eqn:Hx.
    + rewrite Nat.sub_diag. cbn [nth].
      split; [lia|]. split; [exact Hx|]. intros k Hk. lia.
    + specialize (IH (S i)). destruct (find_index p l (S i)) as [j|].
      * destruct IH as (Hrange & Hhit & Hmiss).
        replace (j - i)%nat with (S (j - S i)) by lia. cbn [nth].
        split; [lia|]. split; [exact Hhit|].
        intros [|k] Hk; [exact Hx|]. apply Hmiss. lia.
      * intros [|k] Hk; [exact Hx|]. apply IH. lia.
Qed.

Lemma checked_loop_tail (c d : ascii) (a b : string) :
  Ascii.eqb c zero = false -> Ascii.eqb d zero = false ->
  forall n i : nat,
    CheckedReads.begins_with_loop (String c a) (String d b) n (S i)
    = CheckedReads.begins_with_loop a b n i.
Proof.
  intros Hc Hd. induction n as [|n IH]; intros i; [reflexivity|].
  cbn [CheckedReads.begins_with_loop CheckedReads.c_read].
  rewrite Hc, Hd, IH. reflexivity.
Qed.

(** Within the contract the loop reads inside both strings: a string
    shorter than [b_len] differs from [b] at its terminator at the
    latest, and the loop returns there. *)
Lemma checked_begins_with :
  forall (n : nat) (a b : string),
    before_terminator b n = true ->
    CheckedReads.begins_with_loop a b n 0
    = Some (begins_with_loop a b n 0).
Proof.
  induction n as [|n IH]; intros a b Hb; [reflexivity|].
  destruct b as [|d b]; [discriminate|]. cbn [before_terminator] in Hb.
  apply andb_true_iff in Hb as [Hd Hb]. apply negb_true_iff in Hd.
  cbn [CheckedReads.begins_with_loop begins_with_loop].
  change (c_char (String d b) 0) with d.
  destruct a as [|c a]; cbn [CheckedReads.c_read].
  - change (c_char EmptyString 0) with zero.
    rewrite Ascii.eqb_sym, Hd. reflexivity.
  - change (c_char (String c a) 0) with c.
    destruct (Ascii.eqb_spec c d) as [->|Hne]; cbn [negb]; [|reflexivity].
    rewrite checked_loop_tail, begins_with_loop_tail by assumption.
    apply IH. exact Hb.
Qed.

Lemma checked_key_loop (file : string) (len : nat) :
  before_terminator file len = true ->
  forall n i : nat,
    CheckedReads.key_loop file len n i = Some (key_loop file len n i).
Proof.
  intros Hb. induction n as [|n IH]; intros i; [reflexivity|].
  cbn [CheckedReads.key_loop key_loop].
  unfold CheckedReads.ut_string_begins_with.
  rewrite checked_begins_with by exact Hb.
  fold (ut_string_begins_with (nth i auto_event_names EmptyString) file len).
  destruct (ut_string_begins_with _ file len); [reflexivity|apply IH].
Qed.


(** X2: for a length that stays in front of the terminator of [file],
    the lookup reads inside the strings, and what it returns is [-1] or
    an index into the table, so the read of [auto_event_keys] that
    follows stays in bounds; an index is that of the first entry the
    test accepts, and [-1] means the test rejects every entry. *)
Theorem X2_lookup_result_is_first_match_in_bounds (file : string)
    (len : nat) :
  before_terminator file len = true ->
  let r := ut_new_get_key_by_base_file file len in
  let accepts i :=
    ut_string_begins_with (nth i auto_event_names EmptyString) file len in
  CheckedReads.ut_new_get_key_by_base_file file len = Some r
  /\ ((r = -1 /\ forall i, (i < n_auto)%nat -> accepts i = false)
      \/ (0 <= r < Z.of_nat n_auto
          /\ accepts (Z.to_nat r) = true
          /\ forall i, (i < Z.to_nat r)%nat -> accepts i = false)).
Proof.
  intros Hb. cbv zeta. split.
  { unfold CheckedReads.ut_new_get_key_by_base_file.
    rewrite checked_key_loop by exact Hb. reflexivity. }
  unfold ut_new_get_key_by_base_file.
  change n_auto with (length auto_event_names).
  pose proof (key_loop_find file len [] auto_event_names eq_refl) as Hloop.
  change (length (@nil string)) with 0%nat in Hloop. rewrite Hloop.
  pose proof (find_index_first
                (fun name => ut_string_begins_with name file len)
                EmptyString auto_event_names 0) as Hfirst.
  cbn [length] in *.
  destruct (find_index _ auto_event_names 0%nat) as [j|];
    cbn [index_or_minus_one].
  - right. destruct Hfirst as (Hrange & Hhit & Hmiss).
    rewrite Nat.sub_0_r in *. rewrite Nat2Z.id.
    split; [lia|]. split; assumption.
  - left. split; [reflexivity|exact Hfirst].
Qed.

(** X3: no entry of the table is shadowed.  Each listed file name, with
    whatever extension, resolves to its own index, not to an earlier
    entry that begins with the same characters. *)
Theorem X3_every_listed_file_resolves_to_its_own_entry (i : nat)
    (ext : string) :
  (i < n_auto)%nat ->
  ut_new_get_key_by_file
    (nth i auto_event_names EmptyString ++ String "." ext)
  = Z.of_nat i.
Proof.
  intros Hi.
  assert (forallb
            (fun j =>
               no_stop (nth j auto_event_names EmptyString)
               && (ut_new_get_key_by_file
                     (nth j auto_event_names EmptyString)
                   =? Z.of_nat j))
            (seq 0 n_auto) = true) as Hall by (vm_compute; reflexivity).
  rewrite forallb_forall in Hall.
  specialize (Hall i ltac:(apply in_seq; lia)).
  apply andb_true_iff in Hall as [Hname Hself].
  apply Z.eqb_eq in Hself.
  destruct (identifier_of_name_with_extension _ ext Hname) as [Hid Hid'].
  rewrite get_key_by_file_first_entry, Hid, <- Hid' at 1.
  rewrite <- get_key_by_file_first_entry. exact Hself.
Qed.

Lemma gcc5_begins_with_loop (a b : string) :
  forall (n index fuel : nat),
    (n < fuel)%nat ->
    Gcc5.ut_string_begins_with a b (index + n) index fuel
    = Some (begins_with_loop a b n index).
Proof.
  induction n as [|n IH]; intros index fuel Hfuel;
    (destruct fuel as [|fuel]; [lia|]);
    cbn [Gcc5.ut_string_begins_with begins_with_loop].
  - rewrite Nat.add_0_r, Nat.eqb_refl. reflexivity.
  - assert (Nat.eqb index (index + S n) = false) as ->
      by (apply Nat.eqb_neq; lia).
    destruct (Ascii.eqb (c_char a index) (c_char b index)); cbn [negb].
    + replace (index + S n)%nat with (S index + n)%nat by lia.
      apply IH. lia.
    + reflexivity.
Qed.

Lemma c_char_app_first (pre s : string) :
  c_char (pre ++ s) (String.length pre) = c_char s 0.
Proof.
  rewrite <- (Nat.add_0_r (String.length pre)). apply c_char_app.
Qed.

Lemma append_snoc (pre : string) (c : ascii) (rest : string) :
  (pre ++ String c rest)%string
  = ((pre ++ String c EmptyString) ++ rest)%string
  /\ String.length (pre ++ String c EmptyString) = S (String.length pre).
Proof.
  induction pre as [|d pre [IH1 IH2]]; [split; reflexivity|].
  rewrite !append_cons. cbn [String.length].
  rewrite <- IH1, IH2. split; reflexivity.
Qed.

Lemma gcc5_len_loop :
  forall (rest pre : string) (fuel : nat),
    (String.length rest < fuel)%nat ->
    Gcc5.ut_len_without_extension (pre ++ rest) (String.length pre) fuel
    = Some (String.length pre + ut_len_without_extension rest)%nat.
Proof.
  induction rest as [|c rest IH]; intros pre fuel Hfuel;
    (destruct fuel as [|fuel]; [simpl in Hfuel; lia|]);
    cbn [Gcc5.ut_len_without_extension ut_len_without_extension];
    rewrite c_char_app_first.
  - simpl. rewrite Nat.add_0_r. reflexivity.
  - change (c_char (String c rest) 0) with c.
    destruct (Ascii.eqb c zero || Ascii.eqb c ".")%bool.
    + rewrite Nat.add_0_r. reflexivity.
    + destruct (append_snoc pre c rest) as [Hsnoc Hlen].
      rewrite Hsnoc, <- Hlen. rewrite IH by (simpl in Hfuel; lia).
      rewrite Hlen. f_equal. lia.
Qed.

Lemma gcc5_key_loop (ni : Z) (keys : nat -> Z) (file : string)
    (len : nat) :
  forall (n index fuel : nat),
    (index + n = n_auto)%nat -> (len + n < fuel)%nat ->
    Gcc5.ut_new_get_key_by_base_file ni keys file len index fuel
    = Some (let r := key_loop file len n index in
            if r =? -1 then ni else keys (Z.to_nat r)).
Proof.
  induction n as [|n IH]; intros index fuel Hsum Hfuel;
    (destruct fuel as [|fuel]; [lia|]);
    cbn [Gcc5.ut_new_get_key_by_base_file key_loop].
  - assert (Nat.eqb index n_auto = true) as -> by (apply Nat.eqb_eq; lia).
    reflexivity.
  - assert (Nat.eqb index n_auto = false) as ->
      by (apply Nat.eqb_neq; lia).
    rewrite (gcc5_begins_with_loop _ file len 0 fuel) by lia.
    fold (ut_string_begins_with (nth index auto_event_names EmptyString)
            file len).
    destruct (ut_string_begins_with _ file len).
    + cbv zeta.
      assert ((Z.of_nat index =? -1) = false) as ->
        by (apply Z.eqb_neq; lia).
      rewrite Nat2Z.id. reflexivity.
    + apply IH; lia.
Qed.

(** X4: the two variants of the lookup agree.  Given room for its
    recursion, the recursive variant for gcc 5 returns the key that
    [UT_NEW_THIS_FILE_PSI_KEY] selects from the index that the loop
    variant returns. *)
Theorem X4_recursive_and_loop_lookup_agree
    (not_instrumented : Z) (keys : nat -> Z) (file : string)
    (fuel : nat) :
  (String.length file + n_auto < fuel)%nat ->
  Gcc5.ut_new_get_key_by_file not_instrumented keys file fuel
  = Some (UT_NEW_THIS_FILE_PSI_KEY not_instrumented keys file).
Proof.
  intros Hfuel. unfold Gcc5.ut_new_get_key_by_file.
  pose proof (gcc5_len_loop file EmptyString fuel ltac:(lia)) as Hlenloop.
  change (EmptyString ++ file)%string with file in Hlenloop.
  cbn [String.length Nat.add] in Hlenloop. rewrite Hlenloop.
  pose proof (len_without_extension_bound file) as Hlen.
  rewrite (gcc5_key_loop _ _ _ _ n_auto 0 fuel) by lia.
  reflexivity.
Qed.

(** X18: an empty identifier matches the first entry.  A file name
    that is empty or begins with a dot has nothing before the dot, every
    entry begins with that, and the lookup returns entry 0 rather than
    the sentinel. *)
Theorem X18_empty_identifier_resolves_to_the_first_entry
    (not_instrumented : Z) (keys : nat -> Z) (file : string) :
  ut_len_without_extension file = 0%nat ->
  ut_new_get_key_by_file file = 0
  /\ UT_NEW_THIS_FILE_PSI_KEY not_instrumented keys file = keys 0%nat
  /\ forall a : string, ut_string_begins_with a file 0 = true.
Proof.
  intros Hlen.
  assert (ut_new_get_key_by_file file = 0) as Hzero.
  { unfold ut_new_get_key_by_file. rewrite Hlen. reflexivity. }
  split; [exact Hzero|]. split; [|reflexivity].
  unfold UT_NEW_THIS_FILE_PSI_KEY. rewrite Hzero. reflexivity.
Qed.



End KeyLookupMore.

Lemma X2_witness_three_characters :
  before_terminator "buf0buf.cc" 3 = true
  /\ CheckedReads.ut_new_get_key_by_base_file "buf0buf.cc" 3 = Some 8.
Proof.
  split; [reflexivity|].
  exact (proj1 (X2_lookup_result_is_first_match_in_bounds "buf0buf.cc" 3
                  eq_refl)).
Defined.

Lemma X1_witness_source_file :
  no_stop "buf0buf" = true
  /\ KeyRegistry.identifier_of "buf0buf.cc" = "buf0buf"%string
  /\ KeyRegistry.ut_new_get_key_by_file "buf0buf.cc"
     = KeyRegistry.ut_new_get_key_by_file "buf0buf".
Proof.
  split; [reflexivity|].
  exact (X1_extension_is_ignored "buf0buf" "cc" eq_refl).
Defined.

Lemma X3_witness_last_entry :
  (196 < KeyRegistry.n_auto)%nat
  /\ KeyRegistry.ut_new_get_key_by_file
       (nth 196 KeyRegistry.auto_event_names EmptyString ++ ".ic")
     = 196.
Proof.
  assert ((196 < KeyRegistry.n_auto)%nat) as Hi
    by (unfold KeyRegistry.n_auto; lia).
  split; [exact Hi|].
  exact (X3_every_listed_file_resolves_to_its_own_entry 196 "ic" Hi).
Defined.

Lemma X18_witness_hidden_file :
  KeyRegistry.ut_len_without_extension ".clang-format" = 0%nat
  /\ KeyRegistry.ut_new_get_key_by_file ".clang-format" = 0.
Proof.
  split; [reflexivity|].
  exact (proj1 (X18_empty_identifier_resolves_to_the_first_entry 0
                  Z.of_nat ".clang-format" eq_refl)).
Defined.

Lemma X4_witness_source_file :
  Gcc5.ut_new_get_key_by_file 0 Z.of_nat "row0sel.cc" 300%nat
  = Some (KeyRegistry.UT_NEW_THIS_FILE_PSI_KEY 0 Z.of_nat "row0sel.cc").
Proof.
  apply X4_recursive_and_loop_lookup_agree.
  unfold KeyRegistry.n_auto. simpl. lia.
Defined.

(** ** [ut_allocator]: attempts, round trips and accounting *)

Section AllocatorMore.
Variable E : env.
Hypothesis HE : env_ok E.

Lemma accounted_bytes_app (t u : list event) :
  accounted_bytes (t ++ u) = accounted_bytes t + accounted_bytes u.
Proof.
  induction t as [|ev t IH]; [reflexivity|].
  destruct ev; cbn [app accounted_bytes]; rewrite IH; lia.
Qed.

Lemma accounted_bytes_none (t : list event) :
  forallb (fun e => negb (is_memory_alloc e || is_memory_free e)) t = true ->
  accounted_bytes t = 0.
Proof.
  induction t as [|ev t IH]; [reflexivity|].
  cbn [forallb]. intros Hall. apply andb_true_iff in Hall as [Hev Ht].
  destruct ev; try discriminate; cbn [accounted_bytes]; apply IH; exact Ht.
Qed.

Lemma accounted_bytes_failed_attempts (ev : Z -> event) (k : nat) :
  is_memory_alloc (ev 0) || is_memory_free (ev 0) = false ->
  accounted_bytes (failed_attempts ev k) = 0.
Proof.
  intros Hev. apply accounted_bytes_none.
  induction k as [|k IH]; [reflexivity|].
  cbn [failed_attempts forallb]. rewrite Hev, IH. reflexivity.
Qed.

Lemma allocate_request_no_accounting (zero : bool) (bytes r : Z) :
  is_memory_alloc (allocate_request zero bytes r)
  || is_memory_free (allocate_request zero bytes r) = false.
Proof. destruct zero; reflexivity. Qed.

Lemma attempts_allowed_bound (k : nat) :
  Z.of_nat k <= Z.max 0 (alloc_max_retries E - 1) ->
  (k < attempts_allowed E)%nat
  /\ (Z.of_nat k = Z.max 0 (alloc_max_retries E - 1) ->
      S k = attempts_allowed E).
Proof. unfold attempts_allowed. lia. Qed.

(** A successful [allocate], spelled out: the state it leaves and the
    pointer it returns, in terms of the attempt that succeeded. *)
Lemma allocate_success (a : ut_allocator) (n hint key : Z) (zero : bool)
    (fuel : nat) (s s1 : state) (p : Z) :
  0 <= n ->
  (Z.to_nat (alloc_max_retries E) < fuel)%nat ->
  allocate E a n hint key zero fuel s = (Ret p, s1) ->
  exists k : nat,
    let block := p - sizeof_pfx E in
    let total := n * sizeof_T E + sizeof_pfx E in
    let ev := allocate_request zero total in
    (k < attempts_allowed E)%nat
    /\ block = os_result E (os_calls s + k) /\ 0 < block
    /\ (forall i, (i < k)%nat -> os_result E (os_calls s + i) = 0)
    /\ n <= max_size E
    /\ s1 = mk_state (os_calls s + k + 1) (ctor_calls s)
              (<[block := traced_prefix E (traced_key E a key) total]>
                 (pfx_mem s))
              (aligned_mem s)
              (trace s ++ failed_attempts ev k
                 ++ [ev block; EvMemoryAlloc (traced_key E a key) total]).
Proof.
  intros Hn Hfuel Halloc.
  destruct (allocate_prefix E a n hint key zero fuel s s1 p Halloc)
    as [Hmax _].
  destruct (allocate_run E HE a n hint key zero fuel s Hn Hmax Hfuel)
    as (k & Hfail & Hle & _ & Hrun).
  cbv zeta in Hrun. rewrite Halloc in Hrun.
  pose proof (os_result_nonneg E (os_calls s + k)) as Hnonneg.
  destruct (Z.eqb_spec (os_result E (os_calls s + k)) 0) as [|Hok];
    [discriminate|].
  injection Hrun as -> ->. exists k. cbv zeta.
  replace (os_result E (os_calls s + k) + sizeof_pfx E - sizeof_pfx E)
    with (os_result E (os_calls s + k)) by lia.
  apply Z.ltb_ge in Hmax.
  repeat split; try assumption; try lia.
  apply attempts_allowed_bound. exact Hle.
Qed.

(** X5: the first answers of the OS decide [allocate].  The first
    attempt that succeeds within the allowed number wins: its block is
    used, after one sleep per failed attempt before it.  If every
    allowed attempt fails, and one attempt is allowed even with a budget
    of zero, [std::bad_alloc] is thrown and nothing is written. *)
Theorem X5_allocate_is_decided_by_the_first_success
    (a : ut_allocator) (n hint key : Z) (zero : bool) (fuel : nat)
    (s : state) :
  0 <= n <= max_size E ->
  (Z.to_nat (alloc_max_retries E) < fuel)%nat ->
  let total := n * sizeof_T E + sizeof_pfx E in
  let ev := allocate_request zero total in
  (forall i : nat,
      (i < attempts_allowed E)%nat ->
      (forall j, (j < i)%nat -> os_result E (os_calls s + j) = 0) ->
      os_result E (os_calls s + i) <> 0 ->
      let block := os_result E (os_calls s + i) in
      allocate E a n hint key zero fuel s
      = (Ret (block + sizeof_pfx E),
         mk_state (os_calls s + i + 1) (ctor_calls s)
           (<[block := traced_prefix E (traced_key E a key) total]>
              (pfx_mem s))
           (aligned_mem s)
           (trace s ++ failed_attempts ev i
              ++ [ev block; EvMemoryAlloc (traced_key E a key) total])))
  /\ ((forall j, (j < attempts_allowed E)%nat ->
                 os_result E (os_calls s + j) = 0) ->
      allocate E a n hint key zero fuel s
      = (Throw bad_alloc,
         mk_state (os_calls s + attempts_allowed E) (ctor_calls s)
           (pfx_mem s) (aligned_mem s)
           (trace s ++ failed_attempts ev (attempts_allowed E - 1)
              ++ [ev 0]))).
Proof.
  intros [Hn Hfit] Hfuel total ev.
  assert ((max_size E <? n) = false) as Hmax by (apply Z.ltb_ge; lia).
  destruct (allocate_run E HE a n hint key zero fuel s Hn Hmax Hfuel)
    as (k & Hfail & Hle & Hlast & Hrun).
  cbv zeta in Hrun. fold total in Hrun. fold ev in Hrun.
  destruct (attempts_allowed_bound k Hle) as [Hk Hfull].
  split.
  - intros i Hi Hbefore Hok. cbv zeta.
    assert (k = i) as ->.
    { destruct (Nat.lt_trichotomy k i) as [Hlt|[Heq|Hgt]]; [|exact Heq|].
      - specialize (Hbefore k Hlt).
        destruct Hlast as [Hlast|Hlast]; [contradiction|].
        specialize (Hfull Hlast). lia.
      - specialize (Hfail i Hgt). contradiction. }
    rewrite Hrun.
    destruct (Z.eqb_spec (os_result E (os_calls s + i)) 0);
      [contradiction|reflexivity].
  - intros Hnone. rewrite Hrun, (Hnone k Hk). cbn [Z.eqb].
    destruct Hlast as [Hlast|Hlast];
      [specialize (Hnone k Hk); contradiction|].
    specialize (Hfull Hlast). rewrite <- Hfull.
    replace (S k - 1)%nat with k by lia.
    replace (os_calls s + S k)%nat with (os_calls s + k + 1)%nat by lia.
    reflexivity.
Qed.

(** X6: [deallocate] undoes [allocate].  It reports the free under the
    key and owner that [memory_alloc] gave and with the size it was
    told, hands back the very block the OS returned, and leaves no
    prefix behind, so the accounted bytes are what they were. *)
Theorem X6_deallocate_undoes_allocate
    (a : ut_allocator) (n hint key : Z) (zero : bool) (fuel : nat)
    (s s1 : state) (p : Z) :
  0 <= n ->
  (Z.to_nat (alloc_max_retries E) < fuel)%nat ->
  allocate E a n hint key zero fuel s = (Ret p, s1) ->
  let total := n * sizeof_T E + sizeof_pfx E in
  let given := psi_memory_alloc E (traced_key E a key) total in
  exists s2 : state,
    deallocate E p fuel s1 = (Ret tt, s2)
    /\ trace s2
       = trace s1 ++ [EvMemoryFree (fst given) total (snd given);
                      EvFree (p - sizeof_pfx E)]
    /\ pfx_mem s2 = delete (p - sizeof_pfx E) (pfx_mem s)
    /\ accounted_bytes (trace s2) = accounted_bytes (trace s)
    /\ os_calls s2 = os_calls s1.
Proof.
  intros Hn Hfuel Halloc total given.
  destruct (allocate_success a n hint key zero fuel s s1 p Hn Hfuel Halloc)
    as (k & _ & Hblock & Hpos & _ & _ & Hs1).
  cbv zeta in Hs1. fold total in Hs1.
  assert (p <> 0) as Hp by (destruct HE as (_ & (? & _) & _); lia).
  assert (pfx_mem s1 !! (p - sizeof_pfx E)
          = Some (traced_prefix E (traced_key E a key) total)) as Hh.
  { rewrite Hs1. cbn [pfx_mem]. apply lookup_insert_eq. }
  eexists. split; [apply (deallocate_live E p _ fuel s1 Hp Hh)|].
  cbn [trace pfx_mem os_calls]. unfold traced_prefix.
  cbn [m_key m_size m_owner]. fold given.
  split; [reflexivity|]. split; [|split; [|reflexivity]].
  - rewrite Hs1. cbn [pfx_mem]. apply delete_insert_eq.
  - rewrite Hs1. cbn [trace].
    rewrite !accounted_bytes_app, accounted_bytes_failed_attempts
      by apply allocate_request_no_accounting.
    pose proof (allocate_request_no_accounting zero total
                  (p - sizeof_pfx E)) as Hev.
    destruct zero; cbn [allocate_request accounted_bytes]; lia.
Qed.

End AllocatorMore.

(** ** [ut_allocator::reallocate]: failure and accounting *)

Section ReallocateMore.
Variable E : env.
Hypothesis HE : env_ok E.

(** X7: a [reallocate] that runs out of attempts changes nothing.  It
    returns null, the old prefix is still in place and nothing was
    reported to the performance schema, so the old pointer can be
    freed as before. *)
Theorem X7_failed_reallocate_leaves_the_block
    (a : ut_allocator) (ptr n key : Z) (fuel : nat) (s : state)
    (h : ut_new_pfx_t) :
  ptr <> 0 -> 0 < n <= max_size E ->
  (Z.to_nat (alloc_max_retries E) < fuel)%nat ->
  pfx_mem s !! (ptr - sizeof_pfx E) = Some h ->
  (forall j, (j < attempts_allowed E)%nat ->
             os_result E (os_calls s + j) = 0) ->
  exists s' : state,
    reallocate E a ptr n key fuel s = (Ret 0, s')
    /\ pfx_mem s' = pfx_mem s
    /\ accounted_bytes (trace s') = accounted_bytes (trace s)
    /\ os_calls s' = (os_calls s + attempts_allowed E)%nat
    /\ exists s'',
         deallocate E ptr fuel s' = (Ret tt, s'')
         /\ trace s''
            = trace s' ++ [EvMemoryFree (m_key h) (m_size h) (m_owner h);
                           EvFree (ptr - sizeof_pfx E)].
Proof.
  intros Hptr [Hn Hfit] Hfuel Hh Hnone.
  assert ((max_size E <? n) = false) as Hmax by (apply Z.ltb_ge; lia).
  destruct (reallocate_run E HE a ptr n key fuel s h Hptr Hn Hmax Hfuel Hh)
    as (k & _ & Hle & Hlast & Hrun).
  cbv zeta in Hrun.
  destruct (attempts_allowed_bound E k Hle) as [Hk Hfull].
  rewrite (Hnone k Hk) in Hrun. cbn [Z.eqb] in Hrun.
  destruct Hlast as [Hlast|Hlast];
    [specialize (Hnone k Hk); contradiction|].
  specialize (Hfull Hlast).
  eexists. split; [exact Hrun|].
  cbn [pfx_mem trace os_calls]. split; [reflexivity|]. split; [|split].
  - rewrite !accounted_bytes_app, accounted_bytes_failed_attempts
      by reflexivity.
    cbn [accounted_bytes]. lia.
  - lia.
  - eexists.
    split; [apply deallocate_live; [exact Hptr|exact Hh]|reflexivity].
Qed.

(** X8: after a successful [reallocate] to [n] elements the new pointer
    answers [n] to [n_elements_allocated], and the accounted bytes have
    moved from the old recorded size to the new one. *)
Theorem X8_reallocate_records_the_new_size
    (a : ut_allocator) (ptr n key : Z) (fuel : nat) (s s' : state)
    (h : ut_new_pfx_t) (p : Z) :
  ptr <> 0 -> 0 < n <= max_size E ->
  (Z.to_nat (alloc_max_retries E) < fuel)%nat ->
  pfx_mem s !! (ptr - sizeof_pfx E) = Some h ->
  reallocate E a ptr n key fuel s = (Ret p, s') -> p <> 0 ->
  n_elements_allocated E p fuel s' = (Ret n, s')
  /\ accounted_bytes (trace s')
     = accounted_bytes (trace s) - m_size h
       + (n * sizeof_T E + sizeof_pfx E)
  /\ ctor_calls s' = ctor_calls s.
Proof.
  intros Hptr [Hn Hfit] Hfuel Hh Hrun Hp.
  assert ((max_size E <? n) = false) as Hmax by (apply Z.ltb_ge; lia).
  destruct (total_bytes_fit E HE n ltac:(lia) Hmax) as [_ Hbound].
  destruct (reallocate_run E HE a ptr n key fuel s h Hptr Hn Hmax Hfuel Hh)
    as (k & _ & _ & _ & Heq).
  cbv zeta in Heq. rewrite Hrun in Heq.
  destruct (Z.eqb_spec (os_result E (os_calls s + k)) 0) as [|Hok].
  { injection Heq as -> _. contradiction. }
  injection Heq as -> ->.
  set (res := os_result E (os_calls s + k)) in *.
  set (total := n * sizeof_T E + sizeof_pfx E) in *.
  assert (0 < sizeof_T E) as HT by (destruct HE as ((? & _) & _); lia).
  assert (0 < sizeof_pfx E) as HP by (destruct HE as (_ & (? & _) & _); lia).
  split; [|split; [|reflexivity]].
  - unfold n_elements_allocated. cbn [pfx_mem].
    replace (res + sizeof_pfx E - sizeof_pfx E) with res by lia.
    rewrite lookup_insert_eq. cbn [traced_prefix m_size].
    replace (total - sizeof_pfx E) with (n * sizeof_T E)
      by (unfold total; lia).
    rewrite size_t_small by (unfold total in Hbound; nia).
    rewrite Z.mod_mul, Z.div_mul by lia.
    unfold ut_ad. cbn [Z.eqb negb]. rewrite andb_false_r. reflexivity.
  - cbn [trace].
    rewrite !accounted_bytes_app, accounted_bytes_failed_attempts
      by reflexivity.
    cbn [accounted_bytes]. lia.
Qed.

End ReallocateMore.

(** ** [ut_allocator::new_array] and [delete_array] together *)

Section ArrayMore.
Variable E : env.
Hypothesis HE : env_ok E.

Lemma ctors_succeed_next (s s1 : state) (k : nat) (args : nat -> list Z) :
  ctors_succeed E s (S k) args ->
  ctor_calls s1 = S (ctor_calls s) ->
  T_ctor E (ctor_calls s) (args 0%nat) = None
  /\ ctors_succeed E s1 k (fun i => args (S i)).
Proof.
  intros Hok Hcalls. split.
  - specialize (Hok 0%nat ltac:(lia)). rewrite Nat.add_0_r in Hok. exact Hok.
  - intros i Hi. rewrite Hcalls.
    replace (S (ctor_calls s) + i)%nat with (ctor_calls s + S i)%nat by lia.
    apply Hok. lia.
Qed.

Lemma after_no_ctor_calls (s : state) :
  after_ctor_calls s 0 [] = s.
Proof.
  unfold after_ctor_calls. rewrite app_nil_r, Nat.add_0_r.
  destruct s; reflexivity.
Qed.

Lemma new_array_construct_all (n : Z) :
  forall (k fuel : nat) (i p : Z) (s : state),
    (k < fuel)%nat -> 0 <= i -> i + Z.of_nat k = n -> n <= SIZE_MAX ->
    ctors_succeed E s k (fun _ => []) ->
    new_array_construct E n i p fuel s
    = (Ret tt, (n, p + Z.of_nat k * sizeof_T E),
       after_ctor_calls s k (ctor_run p (sizeof_T E) k)).
Proof.
  induction k as [|k IH]; intros fuel i p s Hfuel Hi Hsum Hn Hctor;
    (destruct fuel as [|fuel]; [lia|]); cbn [new_array_construct].
  - assert ((i <? n) = false) as -> by (apply Z.ltb_ge; lia).
    cbn [ctor_run]. rewrite after_no_ctor_calls.
    replace i with n by lia.
    replace (p + Z.of_nat 0 * sizeof_T E) with p by lia. reflexivity.
  - assert ((i <? n) = true) as -> by (apply Z.ltb_lt; lia).
    destruct (ctors_succeed_next s
                (mk_state (os_calls s) (S (ctor_calls s)) (pfx_mem s)
                   (aligned_mem s) (trace s ++ [EvCtor p]))
                k _ Hctor eq_refl) as [Hnow Hnext].
    unfold construct_at. rewrite Hnow. cbn [run_then].
    rewrite (size_t_small (i + 1)) by lia.
    rewrite (IH fuel (i + 1) (p + sizeof_T E) _) by (assumption || lia).
    rewrite (after_ctor_calls_step E). cbn [ctor_run].
    replace (p + sizeof_T E + Z.of_nat k * sizeof_T E)
      with (p + Z.of_nat (S k) * sizeof_T E) by lia.
    reflexivity.
Qed.

Lemma allocate_prefix_size (a : ut_allocator) (n hint key : Z)
    (zero : bool) (fuel : nat) (s s1 : state) (p : Z) :
  0 <= n ->
  allocate E a n hint key zero fuel s = (Ret p, s1) ->
  n <= max_size E
  /\ n * sizeof_T E + sizeof_pfx E <= SIZE_MAX
  /\ exists h,
       pfx_mem s1 !! (p - sizeof_pfx E) = Some h
       /\ m_size h = n * sizeof_T E + sizeof_pfx E.
Proof.
  intros Hn. unfold allocate.
  destruct (max_size E <? n) eqn:Hmax; [discriminate|].
  destruct (total_bytes_fit E HE n Hn Hmax) as [Htot Hbound].
  cbv zeta. rewrite Htot. unfold bind at 1.
  destruct (retry_loop _ _ _ _ _) as [[ptr| | |] s0]; try discriminate.
  destruct (ptr =? 0); [discriminate|].
  unfold bind, allocate_trace, write_prefix, ret.
  destruct (psi_memory_alloc _ _ _) as [k owner].
  intros [= <- <-]. apply Z.ltb_ge in Hmax.
  split; [exact Hmax|]. split; [lia|].
  eexists. cbn [log set_pfx_mem pfx_mem].
  replace (ptr + sizeof_pfx E - sizeof_pfx E) with ptr by lia.
  split; [apply lookup_insert_eq|reflexivity].
Qed.

Lemma ctor_addrs_app (t u : list event) :
  ctor_addrs (t ++ u) = ctor_addrs t ++ ctor_addrs u.
Proof.
  induction t as [|ev t IH]; [reflexivity|].
  destruct ev; cbn [app ctor_addrs]; rewrite IH; reflexivity.
Qed.

Lemma ctor_addrs_ctors (f : nat -> Z) (l : list nat) :
  ctor_addrs (map (fun i => EvCtor (f i)) l) = map f l.
Proof.
  induction l as [|i l IH]; [reflexivity|].
  cbn [map ctor_addrs]. rewrite IH. reflexivity.
Qed.

Lemma ctor_addrs_dtors (f : nat -> Z) (l : list nat) :
  ctor_addrs (map (fun i => EvDtor (f i)) l) = [].
Proof. induction l as [|i l IH]; [reflexivity|exact IH]. Qed.

Lemma new_array_success
    (a : ut_allocator) (n : nat) (key : Z) (fuel : nat) (s s1 : state)
    (p : Z) :
  (n < fuel)%nat ->
  allocate E a (Z.of_nat n) 0 key false fuel s = (Ret p, s1) ->
  ctors_succeed E s1 n (fun _ => []) ->
  new_array E a (Z.of_nat n) key fuel s
  = (Ret p,
     after_ctor_calls s1 n
       (map (fun i => EvCtor (element E p i)) (seq 0 n))).
Proof.
  intros Hfuel Halloc Hctor.
  destruct (allocate_prefix_size a (Z.of_nat n) 0 key false fuel s s1 p
              ltac:(lia) Halloc) as (Hfit & Hbound & _).
  pose proof (sz_pos E HE) as Hsz.
  assert (0 < sizeof_pfx E) as HP by (destruct HE as (_ & (? & _) & _); lia).
  assert (Z.of_nat n <= SIZE_MAX) as Hn by nia.
  unfold new_array, bind at 1. rewrite Halloc.
  rewrite (new_array_construct_all (Z.of_nat n) n) by (assumption || lia).
  rewrite <- (ctor_run_elements E p n 0).
  replace (element E p 0) with p by (unfold element; lia).
  reflexivity.
Qed.

(** X9: when no constructor throws, [new_array(n)] builds the [n]
    elements in ascending order, each [sizeof(T)] after the one before,
    and returns the pointer [allocate] gave, which is not null and
    answers [n] to [n_elements_allocated]. *)
Theorem X9_new_array_builds_every_element
    (a : ut_allocator) (n : nat) (key : Z) (fuel : nat) (s s1 : state)
    (p : Z) :
  (n < fuel)%nat ->
  allocate E a (Z.of_nat n) 0 key false fuel s = (Ret p, s1) ->
  ctors_succeed E s1 n (fun _ => []) ->
  let s2 :=
    after_ctor_calls s1 n (map (fun i => EvCtor (element E p i)) (seq 0 n))
  in
  new_array E a (Z.of_nat n) key fuel s = (Ret p, s2)
  /\ p <> 0
  /\ n_elements_allocated E p fuel s2 = (Ret (Z.of_nat n), s2).
Proof.
  intros Hfuel Halloc Hctor s2.
  destruct (allocate_prefix_size a (Z.of_nat n) 0 key false fuel s s1 p
              ltac:(lia) Halloc) as (Hfit & Hbound & h & Hh & Hsize).
  pose proof (allocate_non_null E HE a _ 0 key false fuel s s1 p Halloc)
    as Hp.
  split; [|split; [exact Hp|]].
  - apply new_array_success; assumption.
  - apply (delete_array_descending E HE p n h fuel s2 Hp); try assumption.
    lia.
Qed.

(** X10: [delete_array] undoes [new_array].  Every element that was
    built is destroyed exactly once, the last built first, then the
    block that [allocate] obtained is released and its accounting entry
    retired, so the accounted bytes are what they were before
    [new_array]. *)
Theorem X10_delete_array_undoes_new_array
    (a : ut_allocator) (n : nat) (key : Z) (fuel : nat) (s s1 s2 : state)
    (p : Z) :
  (n < fuel)%nat ->
  (Z.to_nat (alloc_max_retries E) < fuel)%nat ->
  allocate E a (Z.of_nat n) 0 key false fuel s = (Ret p, s1) ->
  ctors_succeed E s1 n (fun _ => []) ->
  new_array E a (Z.of_nat n) key fuel s = (Ret p, s2) ->
  exists (s3 : state) (built : list event) (undone : list event),
    delete_array E p fuel s2 = (Ret tt, s3)
    /\ trace s2 = trace s1 ++ built
    /\ trace s3 = trace s2 ++ undone
    /\ ctor_addrs built = map (element E p) (seq 0 n)
    /\ dtor_calls undone = rev (ctor_addrs built)
    /\ freed_blocks undone = [p - sizeof_pfx E]
    /\ pfx_mem s3 !! (p - sizeof_pfx E) = None
    /\ accounted_bytes (trace s3) = accounted_bytes (trace s).
Proof.
  intros Hfuel Hbudget Halloc Hctor Hnew.
  pose proof (new_array_success a n key fuel s s1 p Hfuel Halloc Hctor)
    as Hnew'.
  pose proof (allocate_non_null E HE a _ 0 key false fuel s s1 p Halloc)
    as Hp.
  rewrite Hnew in Hnew'. injection Hnew' as ->.
  destruct (allocate_prefix_size a (Z.of_nat n) 0 key false fuel s s1 p
              ltac:(lia) Halloc) as (Hfit & Hbound & h & Hh & Hsize).
  destruct (allocate_success E HE a (Z.of_nat n) 0 key false fuel s s1 p
              ltac:(lia) Hbudget Halloc)
    as (k & _ & _ & _ & _ & _ & Hs1).
  cbv zeta in Hs1.
  destruct (delete_array_descending E HE p n h fuel
              (after_ctor_calls s1 n
                 (map (fun i => EvCtor (element E p i)) (seq 0 n)))
              Hp Hh Hsize ltac:(lia) Hfuel) as [_ Hdelete].
  eexists. exists (map (fun i => EvCtor (element E p i)) (seq 0 n)).
  eexists. split; [exact Hdelete|].
  cbn [trace after_ctor_calls pfx_mem].
  split; [reflexivity|]. split; [reflexivity|].
  rewrite ctor_addrs_ctors.
  split; [reflexivity|]. split; [|split; [|split]].
  - rewrite dtor_calls_app, dtor_calls_dtors. cbn [dtor_calls].
    rewrite app_nil_r, map_rev. reflexivity.
  - rewrite freed_blocks_app, (freed_blocks_no_free (map _ _)).
    + reflexivity.
    + intros ev Hin. apply List.in_map_iff in Hin as (i & <- & _). exact I.
  - apply lookup_delete_eq.
  - assert (m_size h = Z.of_nat n * sizeof_T E + sizeof_pfx E) as Hm
      by exact Hsize.
    rewrite Hs1. cbn [trace].
    rewrite !accounted_bytes_app.
    rewrite accounted_bytes_failed_attempts by reflexivity.
    rewrite (accounted_bytes_none (map _ (seq 0 n))),
      (accounted_bytes_none (map _ (rev (seq 0 n)))).
    + cbn [accounted_bytes allocate_request]. lia.
    + apply forallb_forall. intros ev Hin.
      apply List.in_map_iff in Hin as (i & <- & _). reflexivity.
    + apply forallb_forall. intros ev Hin.
      apply List.in_map_iff in Hin as (i & <- & _). reflexivity.
Qed.

Lemma retry_loop_keeps_ctor_calls (ev : Z -> event)
    (move : Z -> gmap Z ut_new_pfx_t -> gmap Z ut_new_pfx_t) :
  forall (fuel : nat) (retries : Z) (s : state),
    ctor_calls (snd (retry_loop E (os_request E ev move) retries fuel s))
    = ctor_calls s.
Proof.
  induction fuel as [|fuel IH]; intros retries s; [reflexivity|].
  cbn [retry_loop]. unfold bind at 1. unfold os_request at 1. cbv zeta.
  destruct (negb (os_result E (os_calls s) =? 0)
            || (alloc_max_retries E <=? retries))%bool.
  - reflexivity.
  - unfold bind, sleep_for_seconds, emit. rewrite IH. reflexivity.
Qed.

Lemma allocate_keeps_ctor_calls (a : ut_allocator) (n hint key : Z)
    (zero : bool) (fuel : nat) (s : state) :
  ctor_calls (snd (allocate E a n hint key zero fuel s)) = ctor_calls s.
Proof.
  unfold allocate. destruct (max_size E <? n); [reflexivity|].
  cbv zeta. unfold bind at 1.
  match goal with
  | |- context [retry_loop E ?att ?r ?f ?st] =>
      assert (ctor_calls (snd (retry_loop E att r f st)) = ctor_calls st)
        as Hkeep by (destruct zero; apply retry_loop_keeps_ctor_calls);
      destruct (retry_loop E att r f st) as [[ptr| | |] s0]
  end; cbn [snd] in *; try exact Hkeep.
  destruct (ptr =? 0); [exact Hkeep|].
  unfold bind, allocate_trace, write_prefix, ret.
  destruct (psi_memory_alloc _ _ _) as [k owner]. exact Hkeep.
Qed.

(** X11: [new_array] never returns null, whatever its comment says.
    When [allocate] throws, [new_array] throws the same exception from
    the state [allocate] left, and no constructor has run. *)
Theorem X11_new_array_throws_instead_of_returning_null
    (a : ut_allocator) (n key : Z) (fuel : nat) (s : state) :
  (forall p s', new_array E a n key fuel s = (Ret p, s') -> p <> 0)
  /\ (forall e s1,
         allocate E a n 0 key false fuel s = (Throw e, s1) ->
         new_array E a n key fuel s = (Throw e, s1)
         /\ ctor_calls s1 = ctor_calls s).
Proof.
  split.
  - intros p s'. unfold new_array, bind at 1.
    destruct (allocate E a n 0 key false fuel s) as [[q| | |] s1] eqn:Halloc;
      try discriminate.
    pose proof (allocate_non_null E HE a n 0 key false fuel s s1 q Halloc)
      as Hq.
    destruct (new_array_construct E n 0 q fuel s1)
      as [[[[]|e| |] [i q']] s2]; try discriminate.
    + intros [= <- _]. exact Hq.
    + unfold bind.
      destruct (new_array_rollback E i 0 q' fuel s2) as [[[]|e'| |] s3];
        try discriminate.
      destruct (deallocate E q fuel s3) as [[[]|e'| |] s4];
        discriminate.
  - intros e s1 Halloc. split.
    + unfold new_array, bind at 1. rewrite Halloc. reflexivity.
    + pose proof (allocate_keeps_ctor_calls a n 0 key false fuel s) as Hkeep.
      rewrite Halloc in Hkeep. exact Hkeep.
Qed.

End ArrayMore.

(** ** Large allocations *)

Section Large.
Variable E : env.
Variable L : large_env.
Hypothesis HE : env_ok E.

(** X12: [allocate_large] gives up quietly.  It always returns, null
    for a count of zero or above [max_size()] without asking the OS, and
    null after a single failed request, without a retry, a sleep or an
    accounting call. *)
Theorem X12_allocate_large_gives_up_quietly
    (a : ut_allocator) (n : Z) (ls : large_state) :
  (exists p ls', allocate_large E L a n ls = (Ret p, ls'))
  /\ (n = 0 \/ max_size E < n -> allocate_large E L a n ls = (Ret 0, ls))
  /\ (n <> 0 -> n <= max_size E ->
      os_result E (os_calls (core ls)) = 0 ->
      exists ls',
        allocate_large E L a n ls = (Ret 0, ls')
        /\ trace (core ls') = trace (core ls)
        /\ pfx_mem (core ls') = pfx_mem (core ls)
        /\ os_calls (core ls') = S (os_calls (core ls))
        /\ length (large_calls ls') = S (length (large_calls ls))).
Proof.
  unfold allocate_large.
  destruct (Z.eqb_spec n 0) as [Hzero|Hnz]; cbn [orb].
  { split; [eauto|]. split; [reflexivity|]. intros; contradiction. }
  destruct (Z.ltb_spec (max_size E) n) as [Hbig|Hfit].
  { split; [eauto|]. split; [reflexivity|]. intros; lia. }
  unfold lbind, os_mem_alloc_large. cbv beta iota zeta.
  destruct (Z.eqb_spec (os_result E (os_calls (core ls))) 0) as [Hnull|Hok].
  - split; [eauto|]. split; [intros [?|?]; lia|].
    intros _ _ _. eexists. split; [reflexivity|].
    cbn [core trace pfx_mem os_calls large_calls].
    rewrite length_app. cbn [length]. repeat split. lia.
  - split; [|split; [intros [?|?]; lia|intros _ _ ?; contradiction]].
    unfold on_core, allocate_trace, write_prefix, lret.
    cbn [core large_calls].
    destruct (psi_memory_alloc E _ _) as [k owner]. eauto.
Qed.

(** X13: a large allocation round trip.  On success the prefix sits in
    the page below the returned pointer, [large_page_size] reports what
    the OS reserved less that page, and [deallocate_large] returns the
    region with the reserved size and retires the accounting entry, so
    the accounted bytes are what they were.  The page is added to the
    byte count without a check: when the sum fits [size_t] and the OS
    reserves at least what it is asked, there is room for the [n]
    elements; when the sum wraps, which [max_size()] does not rule out,
    less than a page is requested and the room reported is less than
    the [n] elements need, whatever the OS reserves. *)
Theorem X13_large_allocation_round_trip
    (a : ut_allocator) (n : Z) (ls : large_state) :
  0 < n <= max_size E ->
  0 <= CPU_PAGE_SIZE L <= SIZE_MAX ->
  let requested := size_t (n * sizeof_T E + CPU_PAGE_SIZE L) in
  let granted := os_mem_granted L requested in
  let base := os_result E (os_calls (core ls)) in
  0 <= granted <= SIZE_MAX ->
  base <> 0 ->
  exists ls1 ls2 : large_state,
    allocate_large E L a n ls = (Ret (base + CPU_PAGE_SIZE L), ls1)
    /\ base + CPU_PAGE_SIZE L <> 0
    /\ large_page_size L (base + CPU_PAGE_SIZE L) ls1
       = (Ret (size_t (granted - CPU_PAGE_SIZE L)), ls1)
    /\ (n * sizeof_T E + CPU_PAGE_SIZE L <= SIZE_MAX ->
        requested = n * sizeof_T E + CPU_PAGE_SIZE L
        /\ (requested <= granted ->
            n * sizeof_T E <= size_t (granted - CPU_PAGE_SIZE L)))
    /\ (SIZE_MAX < n * sizeof_T E + CPU_PAGE_SIZE L ->
        requested < CPU_PAGE_SIZE L
        /\ (CPU_PAGE_SIZE L <= granted ->
            size_t (granted - CPU_PAGE_SIZE L) < n * sizeof_T E))
    /\ deallocate_large L (base + CPU_PAGE_SIZE L) ls1 = (Ret tt, ls2)
    /\ large_calls ls2
       = large_calls ls ++ [OsMemAllocLarge requested granted base;
                            OsMemFreeLarge base granted]
    /\ trace (core ls2)
       = trace (core ls)
           ++ [EvMemoryAlloc (traced_key E a (PSI_NOT_INSTRUMENTED E))
                 granted;
               EvMemoryFree
                 (fst (psi_memory_alloc E
                         (traced_key E a (PSI_NOT_INSTRUMENTED E)) granted))
                 granted
                 (snd (psi_memory_alloc E
                         (traced_key E a (PSI_NOT_INSTRUMENTED E)) granted))]
    /\ accounted_bytes (trace (core ls2)) = accounted_bytes (trace (core ls))
    /\ pfx_mem (core ls2) !! base = None.
Proof.
  intros [Hn Hfit] [Hpage Hpagemax] requested granted base [Hlo Hhi] Hbase.
  pose proof (sz_pos E HE) as Hsz.
  pose proof (os_result_nonneg E (os_calls (core ls))) as Hnonneg.
  fold base in Hnonneg.
  assert ((n =? 0) = false) as Hnz by (apply Z.eqb_neq; lia).
  assert ((max_size E <? n) = false) as Hmax by (apply Z.ltb_ge; lia).
  destruct (total_bytes_fit E HE n ltac:(lia) Hmax) as [_ Hbound].
  assert (0 < sizeof_pfx E) as HP by (destruct HE as (_ & (? & _) & _); lia).
  assert (0 <= n * sizeof_T E <= SIZE_MAX) as Helems by nia.
  assert (size_t (size_t (n * sizeof_T E) + CPU_PAGE_SIZE L) = requested)
    as Hbytes by (rewrite (size_t_small (n * sizeof_T E)) by lia;
                  reflexivity).
  set (key := traced_key E a (PSI_NOT_INSTRUMENTED E)).
  assert (base + CPU_PAGE_SIZE L - CPU_PAGE_SIZE L = base) as Hback by lia.
  assert (base + CPU_PAGE_SIZE L <> 0) as Hp by lia.
  assert (allocate_large E L a n ls
          = (Ret (base + CPU_PAGE_SIZE L),
             mk_large
               (mk_state (S (os_calls (core ls))) (ctor_calls (core ls))
                  (<[base := traced_prefix E key granted]>
                     (pfx_mem (core ls)))
                  (aligned_mem (core ls))
                  (trace (core ls) ++ [EvMemoryAlloc key granted]))
               (large_calls ls
                  ++ [OsMemAllocLarge requested granted base]))) as Halloc.
  { unfold allocate_large. rewrite Hnz, Hmax, Hbytes. cbn [orb].
    unfold lbind at 1. unfold os_mem_alloc_large. cbv beta iota zeta.
    fold base.
    assert ((base =? 0) = false) as -> by (apply Z.eqb_neq; lia).
    fold granted.
    unfold lbind, on_core, allocate_trace, write_prefix, lret,
      traced_prefix, key, traced_key.
    cbn [core large_calls].
    destruct (psi_memory_alloc E _ granted) as [k owner]. reflexivity. }
  eexists. eexists. split; [exact Halloc|]. split; [exact Hp|].
  split; [|split; [|split; [|split]]].
  - unfold large_page_size. cbn [core pfx_mem].
    rewrite Hback, lookup_insert_eq. reflexivity.
  - intros Hsum.
    assert (requested = n * sizeof_T E + CPU_PAGE_SIZE L) as Hreq
      by (apply size_t_small; lia).
    split; [exact Hreq|]. intros Hgranted.
    rewrite size_t_small by lia. lia.
  - intros Hwrap.
    assert (requested = n * sizeof_T E + CPU_PAGE_SIZE L - 2 ^ 64) as Hreq.
    { unfold requested, size_t. symmetry.
      apply (Z.mod_unique _ _ 1); unfold SIZE_MAX in *; lia. }
    split; [unfold SIZE_MAX in *; lia|]. intros Hgranted.
    rewrite size_t_small by lia. lia.
  - unfold deallocate_large.
    assert ((base + CPU_PAGE_SIZE L =? 0) = false) as ->
      by (apply Z.eqb_neq; lia).
    cbn [core pfx_mem]. rewrite Hback, lookup_insert_eq.
    unfold lbind, on_core, deallocate_trace. cbn [core pfx_mem].
    rewrite lookup_insert_eq. unfold emit, os_mem_free_large.
    cbn [core large_calls]. reflexivity.
  - cbn [core large_calls trace pfx_mem set_pfx_mem log].
    unfold traced_prefix. cbn [m_key m_size m_owner].
    rewrite <- !app_assoc. split; [reflexivity|]. split; [reflexivity|].
    split; [|apply lookup_delete_eq].
    rewrite !accounted_bytes_app. cbn [accounted_bytes]. lia.
Qed.

End Large.

(** ** Building and destroying with the [ut::] functions *)

Section UtMore.
Variable E : env.
Hypothesis HE : env_ok E.

Lemma construct_upwards_all (mem bound : Z) :
  forall (k fuel : nat) (offset : Z) (s : state),
    (k < fuel)%nat -> 0 <= offset ->
    offset + Z.of_nat k * sizeof_T E = bound -> bound <= SIZE_MAX ->
    ctors_succeed E s k (fun _ => []) ->
    ut.construct_upwards E mem bound offset fuel s
    = (Ret tt, bound,
       after_ctor_calls s k (ctor_run (mem + offset) (sizeof_T E) k)).
Proof.
  pose proof (sz_pos E HE) as Hsz.
  induction k as [|k IH]; intros fuel offset s Hfuel Hoff Hsum Hmax Hctor;
    (destruct fuel as [|fuel]; [lia|]); cbn [ut.construct_upwards].
  - assert ((offset <? bound) = false) as -> by (apply Z.ltb_ge; lia).
    cbn [ctor_run]. rewrite (after_no_ctor_calls s).
    replace offset with bound by lia. reflexivity.
  - assert ((offset <? bound) = true) as -> by (apply Z.ltb_lt; nia).
    destruct (ctors_succeed_next E s
                (mk_state (os_calls s) (S (ctor_calls s)) (pfx_mem s)
                   (aligned_mem s) (trace s ++ [EvCtor (mem + offset)]))
                k _ Hctor eq_refl) as [Hnow Hnext].
    unfold construct_at. rewrite Hnow. cbn [run_then].
    rewrite (size_t_small (offset + sizeof_T E)) by nia.
    rewrite (IH fuel (offset + sizeof_T E) _) by (assumption || nia).
    rewrite (after_ctor_calls_step E). cbn [ctor_run].
    replace (mem + (offset + sizeof_T E)) with (mem + offset + sizeof_T E)
      by lia.
    reflexivity.
Qed.

Lemma construct_pack_all (mem : Z) (fuel : nat) :
  forall (args : list (list Z)) (idx : Z) (s : state),
    0 <= idx ->
    (idx + Z.of_nat (length args)) * sizeof_T E <= SIZE_MAX ->
    ctors_succeed E s (length args) (fun i => nth i args []) ->
    ut.construct_pack E mem idx args fuel s
    = (Ret tt, idx + Z.of_nat (length args),
       after_ctor_calls s (length args)
         (ctor_run (mem + idx * sizeof_T E) (sizeof_T E) (length args))).
Proof.
  pose proof (sz_pos E HE) as Hsz.
  induction args as [|arg rest IH]; intros idx s Hidx Hfit Hctor;
    cbn [length] in *.
  - cbn [ut.construct_pack ctor_run]. rewrite (after_no_ctor_calls s).
    replace (idx + Z.of_nat 0) with idx by lia. reflexivity.
  - cbn [ut.construct_pack]. cbv zeta. unfold ut.construct.
    rewrite (size_t_small (sizeof_T E * idx)) by nia.
    rewrite (size_t_small (idx + 1)) by nia.
    destruct (ctors_succeed_next E s
                (mk_state (os_calls s) (S (ctor_calls s)) (pfx_mem s)
                   (aligned_mem s)
                   (trace s ++ [EvCtor (mem + sizeof_T E * idx)]))
                (length rest) _ Hctor eq_refl) as [Hnow Hnext].
    unfold construct_at. cbn [nth] in Hnow. rewrite Hnow. cbn [run_then].
    rewrite (IH (idx + 1) _) by (assumption || lia || nia).
    rewrite (after_ctor_calls_step E). cbn [ctor_run].
    replace (mem + sizeof_T E * idx) with (mem + idx * sizeof_T E) by lia.
    replace (mem + (idx + 1) * sizeof_T E)
      with (mem + idx * sizeof_T E + sizeof_T E) by lia.
    replace (idx + 1 + Z.of_nat (length rest))
      with (idx + Z.of_nat (S (length rest))) by lia.
    reflexivity.
Qed.

(** X14: [ut::delete_] undoes [ut::new_withkey].  The one object is
    built at the returned pointer and destroyed there, then the block is
    released and its accounting entry retired. *)
Theorem X14_delete_undoes_new_withkey
    (key : Z) (args : list Z) (fuel : nat) (s s1 : state) (mem : Z) :
  ut.malloc_withkey E key (sizeof_T E) fuel s = (Ret mem, s1) ->
  mem <> 0 ->
  T_ctor E (ctor_calls s1) args = None ->
  exists (h : ut_new_pfx_t) (s2 s3 : state),
    pfx_mem s1 !! (mem - sizeof_pfx E) = Some h
    /\ ut.new_withkey E key args fuel s = (Ret mem, s2)
    /\ ut.delete_ E mem fuel s2 = (Ret tt, s3)
    /\ trace s3
       = trace s1 ++ [EvCtor mem; EvDtor mem;
                      EvMemoryFree (m_key h) (m_size h) (m_owner h);
                      EvFree (mem - sizeof_pfx E)]
    /\ pfx_mem s3 !! (mem - sizeof_pfx E) = None
    /\ accounted_bytes (trace s3) = accounted_bytes (trace s1) - m_size h.
Proof.
  intros Halloc Hmem Hctor.
  pose proof (Alloc_alloc_prefix E false _ key fuel s s1 mem Halloc Hmem)
    as Hh.
  match type of Hh with
  | _ = Some ?pfx => set (h := pfx) in Hh
  end.
  exists h. eexists. eexists. split; [exact Hh|]. split.
  { unfold ut.new_withkey, bind at 1. rewrite Halloc.
    non_null mem.
    unfold bind, try_catch_rethrow, construct_at. rewrite Hctor.
    reflexivity. }
  split.
  { unfold ut.delete_. non_null mem.
    unfold bind at 1. unfold destroy_at, emit, ut.free.
    apply (Alloc_free_live E mem h fuel _ Hmem). exact Hh. }
  cbn [trace pfx_mem log]. rewrite <- !app_assoc. cbn [app].
  split; [reflexivity|]. split; [apply lookup_delete_eq|].
  rewrite accounted_bytes_app. cbn [accounted_bytes]. lia.
Qed.

(** What [sizeof(T) * count] leaves of a count: the product is taken
    in [size_t] without a check, and when it wraps to a whole number of
    elements that number is below the count. *)
Lemma wrapped_count (count : Z) (n : nat) :
  0 <= count ->
  size_t (sizeof_T E * count) = Z.of_nat n * sizeof_T E ->
  (sizeof_T E * count <= SIZE_MAX -> Z.of_nat n = count)
  /\ (SIZE_MAX < sizeof_T E * count -> Z.of_nat n < count).
Proof.
  intros Hcount Hwrap. pose proof (sz_pos E HE) as Hsz.
  split.
  - intros Hfit. rewrite size_t_small in Hwrap by nia. nia.
  - intros Hover.
    pose proof (Z.mod_pos_bound (sizeof_T E * count) (2 ^ 64)
                  ltac:(lia)) as Hbound.
    fold (size_t (sizeof_T E * count)) in Hbound. rewrite Hwrap in Hbound.
    unfold SIZE_MAX in Hover. nia.
Qed.

(** X15: [ut::delete_arr] undoes both [ut::new_arr_withkey] overloads.
    When no constructor throws, they build the elements in ascending
    order and return the block; [delete_arr] then destroys exactly the
    elements that were built and releases the block.  The overload with
    argument tuples builds one element per tuple.  The overload with a
    count multiplies it by [sizeof(T)] without a check: it builds the
    [n] elements that the product, taken in [size_t], holds, which are
    the [count] asked for when the product fits and fewer when it
    wraps. *)
Theorem X15_delete_arr_undoes_new_arr_withkey (n : nat) (fuel : nat) :
  (n < fuel)%nat ->
  Z.of_nat n * sizeof_T E + sizeof_pfx E <= SIZE_MAX ->
  (forall (key : Z) (args : list (list Z)) (s s1 : state) (mem : Z),
      length args = n ->
      ut.Alloc_alloc E false (size_t (sizeof_T E * Z.of_nat n)) key fuel s
      = (Ret mem, s1) ->
      mem <> 0 ->
      ctors_succeed E s1 n (fun i => nth i args []) ->
      exists (s2 s3 : state) (undone : list event),
        ut.new_arr_withkey E key args fuel s = (Ret mem, s2)
        /\ trace s2
           = trace s1 ++ map (fun i => EvCtor (element E mem i)) (seq 0 n)
        /\ ut.delete_arr E mem fuel s2 = (Ret tt, s3)
        /\ trace s3 = trace s2 ++ undone
        /\ dtor_calls undone = map (element E mem) (seq 0 n)
        /\ freed_blocks undone = [mem - sizeof_pfx E])
  /\ (forall (key count : Z) (s s1 : state) (mem : Z),
         0 <= count <= SIZE_MAX ->
         size_t (sizeof_T E * count) = Z.of_nat n * sizeof_T E ->
         ut.Alloc_alloc E false (size_t (sizeof_T E * count)) key fuel s
         = (Ret mem, s1) ->
         mem <> 0 ->
         ctors_succeed E s1 n (fun _ => []) ->
         (sizeof_T E * count <= SIZE_MAX -> Z.of_nat n = count)
         /\ (SIZE_MAX < sizeof_T E * count -> Z.of_nat n < count)
         /\ exists (s2 s3 : state) (undone : list event),
              ut.new_arr_withkey_count E key count fuel s = (Ret mem, s2)
              /\ trace s2
                 = trace s1
                     ++ map (fun i => EvCtor (element E mem i)) (seq 0 n)
              /\ ut.delete_arr E mem fuel s2 = (Ret tt, s3)
              /\ trace s3 = trace s2 ++ undone
              /\ dtor_calls undone = map (element E mem) (seq 0 n)
              /\ freed_blocks undone = [mem - sizeof_pfx E]).
Proof.
  intros Hfuel Hfit.
  pose proof (sz_pos E HE) as Hsz.
  assert (0 < sizeof_pfx E) as HP by (destruct HE as (_ & (? & _) & _); lia).
  assert (forall (s1 : state) (mem : Z) (h : ut_new_pfx_t),
             mem <> 0 ->
             pfx_mem s1 !! (mem - sizeof_pfx E) = Some h ->
             m_size h = Z.of_nat n * sizeof_T E + sizeof_pfx E ->
             let s2 :=
               after_ctor_calls s1 n
                 (ctor_run (mem + 0 * sizeof_T E) (sizeof_T E) n) in
             exists (s3 : state) (undone : list event),
               trace s2
               = trace s1
                   ++ map (fun i => EvCtor (element E mem i)) (seq 0 n)
               /\ ut.delete_arr E mem fuel s2 = (Ret tt, s3)
               /\ trace s3 = trace s2 ++ undone
               /\ dtor_calls undone = map (element E mem) (seq 0 n)
               /\ freed_blocks undone = [mem - sizeof_pfx E]) as Hundo.
  { intros s1 mem h Hmem Hh Hsize s2.
    pose proof (delete_arr_ascending E HE mem n h fuel s2 Hmem Hh Hsize
                  ltac:(lia) Hfuel) as Hdelete.
    eexists. eexists. split; [|split; [exact Hdelete|]].
    - subst s2. cbn [trace after_ctor_calls].
      rewrite <- (ctor_run_elements E mem n 0).
      replace (element E mem 0) with (mem + 0 * sizeof_T E)
        by (unfold element; lia).
      reflexivity.
    - cbn [trace]. split; [reflexivity|]. split.
      + rewrite dtor_calls_app, dtor_calls_dtors. cbn [dtor_calls].
        apply app_nil_r.
      + rewrite freed_blocks_app, (freed_blocks_no_free (map _ _)).
        * reflexivity.
        * intros ev Hin. apply List.in_map_iff in Hin as (i & <- & _).
          exact I. }
  assert (size_t (sizeof_T E * Z.of_nat n) = sizeof_T E * Z.of_nat n)
    as Hbytes by (apply size_t_small; nia).
  assert (forall key,
             m_size (traced_prefix E key
                       (size_t (sizeof_T E * Z.of_nat n + sizeof_pfx E)))
             = Z.of_nat n * sizeof_T E + sizeof_pfx E) as Hsize.
  { intros key. cbn [traced_prefix m_size].
    rewrite size_t_small by nia. lia. }
  split.
  - intros key args s s1 mem Hlen Halloc Hmem Hctor.
    rewrite Hbytes in Halloc.
    pose proof (Alloc_alloc_prefix E false _ key fuel s s1 mem Halloc Hmem)
      as Hh.
    destruct (Hundo s1 mem _ Hmem Hh (Hsize key))
      as (s3 & undone & Hbuilt & Hdelete & Htrace & Hdtors & Hfreed).
    eexists. exists s3, undone.
    split; [|split; [exact Hbuilt|split; [exact Hdelete|]]].
    + unfold ut.new_arr_withkey. rewrite Hlen, Hbytes.
      unfold bind at 1. rewrite Halloc.
      non_null mem. subst n.
      rewrite (construct_pack_all mem fuel args 0 s1)
        by (assumption || lia || nia).
      reflexivity.
    + split; [exact Htrace|]. split; assumption.
  - intros key count s s1 mem [Hcount _] Hwrap Halloc Hmem Hctor.
    destruct (wrapped_count count n Hcount Hwrap) as [Hsame Hfewer].
    split; [exact Hsame|]. split; [exact Hfewer|].
    replace (Z.of_nat n * sizeof_T E) with (sizeof_T E * Z.of_nat n)
      in Hwrap by lia.
    rewrite Hwrap in Halloc.
    pose proof (Alloc_alloc_prefix E false _ key fuel s s1 mem Halloc Hmem)
      as Hh.
    destruct (Hundo s1 mem _ Hmem Hh (Hsize key))
      as (s3 & undone & Hbuilt & Hdelete & Htrace & Hdtors & Hfreed).
    eexists. exists s3, undone.
    split; [|split; [exact Hbuilt|split; [exact Hdelete|]]].
    + unfold ut.new_arr_withkey_count. rewrite Hwrap.
      unfold bind at 1. rewrite Halloc.
      non_null mem.
      rewrite (construct_upwards_all mem (sizeof_T E * Z.of_nat n) n fuel 0
                 s1) by (assumption || lia).
      replace (mem + 0 * sizeof_T E) with (mem + 0) by lia.
      reflexivity.
    + split; [exact Htrace|]. split; assumption.
Qed.

Lemma Aligned_alloc_block (zero : bool) (size alignment key : Z)
    (fuel : nat) (s s1 : state) (mem : Z) :
  ut.Aligned_alloc E zero size alignment key fuel s = (Ret mem, s1) ->
  mem <> 0 ->
  exists b : aligned_meta,
    aligned_mem s1 !! mem = Some b /\ a_size b = size.
Proof.
  unfold ut.Aligned_alloc. cbv zeta. unfold bind at 1.
  destruct (retry_loop _ _ _ _ _) as [[base| | |] s0]; try discriminate.
  destruct (base =? 0).
  - unfold ret. intros [= <- _] Hmem. contradiction.
  - destruct (psi_memory_alloc _ _ _) as [k owner].
    intros [= <- <-] _. eexists.
    cbn [log set_aligned_mem aligned_mem].
    split; [apply lookup_insert_eq|reflexivity].
Qed.

Lemma Aligned_free_live (ptr : Z) (b : aligned_meta) (fuel : nat)
    (s : state) :
  ptr <> 0 -> aligned_mem s !! ptr = Some b ->
  ut.Aligned_free ptr fuel s
  = (Ret tt,
     mk_state (os_calls s) (ctor_calls s) (pfx_mem s)
       (delete ptr (aligned_mem s))
       (trace s ++ [EvMemoryFree (a_key b) (a_total b) (a_owner b);
                    EvFree (a_base b)])).
Proof.
  intros Hptr Hb. unfold ut.Aligned_free. non_null ptr. rewrite Hb.
  unfold bind, emit, log, set_aligned_mem.
  cbn [os_calls ctor_calls pfx_mem aligned_mem trace].
  rewrite <- app_assoc. reflexivity.
Qed.

(** X16: the life of an [aligned_pointer].  [alloc] on an empty wrapper
    builds the object, and the destructor destroys it once and releases
    its block; the destructor of an empty wrapper does nothing; and
    [alloc] on a wrapper that already holds an object stops at the
    assertion in a debug build. *)
Theorem X16_aligned_pointer_releases_what_it_holds
    (alignment : Z) (args : list Z) (fuel : nat) (s s1 : state) (mem : Z) :
  ut.aligned_alloc_withkey E (PSI_NOT_INSTRUMENTED E) (sizeof_T E) alignment
    fuel s = (Ret mem, s1) ->
  mem <> 0 ->
  T_ctor E (ctor_calls s1) args = None ->
  exists (b : aligned_meta) (s2 s3 : state),
    aligned_mem s1 !! mem = Some b
    /\ aligned_pointer.alloc E alignment 0 args fuel s = (Ret mem, s2)
    /\ aligned_pointer.destructor E mem fuel s2 = (Ret 0, s3)
    /\ trace s3
       = trace s1 ++ [EvCtor mem; EvDtor mem;
                      EvMemoryFree (a_key b) (a_total b) (a_owner b);
                      EvFree (a_base b)]
    /\ aligned_mem s3 !! mem = None
    /\ aligned_pointer.destructor E 0 fuel s = (Ret 0, s)
    /\ (UNIV_DEBUG E = true ->
        aligned_pointer.alloc E alignment mem args fuel s2 = (Fault, s2)).
Proof.
  intros Halloc Hmem Hctor.
  destruct (Aligned_alloc_block false _ alignment _ fuel s s1 mem Halloc Hmem)
    as (b & Hb & _).
  exists b. eexists. eexists. split; [exact Hb|]. split.
  { unfold aligned_pointer.alloc, ut_ad. cbn [Z.eqb negb].
    rewrite andb_false_r.
    unfold bind at 1. unfold ret at 1.
    unfold ut_default.aligned_new, ut.aligned_new_withkey, bind at 1.
    rewrite Halloc. non_null mem.
    unfold bind, construct_at. rewrite Hctor. reflexivity. }
  split.
  { unfold aligned_pointer.destructor, aligned_pointer.dealloc.
    non_null mem. cbn [negb]. unfold ut_ad. rewrite andb_false_r.
    unfold bind at 1. unfold ret at 1.
    unfold bind at 1. unfold ut.aligned_delete, bind at 1.
    unfold destroy_at, emit, ut.aligned_free.
    rewrite (Aligned_free_live mem b fuel _ Hmem) by exact Hb.
    reflexivity. }
  cbn [trace aligned_mem log]. rewrite <- !app_assoc. cbn [app].
  split; [reflexivity|]. split; [apply lookup_delete_eq|].
  split; [reflexivity|].
  intros Hdebug. unfold aligned_pointer.alloc, ut_ad. non_null mem.
  rewrite Hdebug. reflexivity.
Qed.

(** X17: the life of an [aligned_array_pointer].  [alloc(count)] on an
    empty wrapper builds the elements in ascending order, and the
    destructor destroys each of them once and releases the block; the
    destructor of an empty wrapper does nothing.  The count is
    multiplied by [sizeof(T)] without a check: the [n] elements built
    are those the product, taken in [size_t], holds, which are the
    [count] asked for when the product fits and fewer when it wraps. *)
Theorem X17_aligned_array_pointer_releases_what_it_holds
    (alignment count : Z) (n : nat) (fuel : nat) (s s1 : state) (mem : Z) :
  (n < fuel)%nat ->
  0 <= count <= SIZE_MAX ->
  size_t (sizeof_T E * count) = Z.of_nat n * sizeof_T E ->
  ut.aligned_alloc_withkey E (PSI_NOT_INSTRUMENTED E)
    (size_t (sizeof_T E * count)) alignment fuel s = (Ret mem, s1) ->
  mem <> 0 ->
  ctors_succeed E s1 n (fun _ => []) ->
  (sizeof_T E * count <= SIZE_MAX -> Z.of_nat n = count)
  /\ (SIZE_MAX < sizeof_T E * count -> Z.of_nat n < count)
  /\ exists (b : aligned_meta) (s2 s3 : state),
       aligned_mem s1 !! mem = Some b
       /\ aligned_array_pointer.alloc E alignment 0 count fuel s
          = (Ret mem, s2)
       /\ aligned_array_pointer.destructor E mem fuel s2 = (Ret 0, s3)
       /\ trace s3
          = trace s1
              ++ map (fun i => EvCtor (element E mem i)) (seq 0 n)
              ++ map (fun i => EvDtor (element E mem i)) (seq 0 n)
              ++ [EvMemoryFree (a_key b) (a_total b) (a_owner b);
                  EvFree (a_base b)]
       /\ aligned_mem s3 !! mem = None
       /\ aligned_array_pointer.destructor E 0 fuel s = (Ret 0, s).
Proof.
  intros Hfuel [Hcount _] Hwrap Halloc Hmem Hctor.
  pose proof (sz_pos E HE) as Hsz.
  destruct (wrapped_count count n Hcount Hwrap) as [Hsame Hfewer].
  split; [exact Hsame|]. split; [exact Hfewer|].
  assert (Z.of_nat n * sizeof_T E <= SIZE_MAX) as Hfit.
  { pose proof (Z.mod_pos_bound (sizeof_T E * count) (2 ^ 64)
                  ltac:(lia)) as Hbound.
    fold (size_t (sizeof_T E * count)) in Hbound. rewrite Hwrap in Hbound.
    unfold SIZE_MAX. lia. }
  replace (Z.of_nat n * sizeof_T E) with (sizeof_T E * Z.of_nat n)
    in Hwrap by lia.
  rewrite Hwrap in Halloc.
  destruct (Aligned_alloc_block false _ alignment _ fuel s s1 mem Halloc Hmem)
    as (b & Hb & Hsize).
  exists b. eexists. eexists. split; [exact Hb|]. split.
  { unfold aligned_array_pointer.alloc, ut_ad. cbn [Z.eqb negb].
    rewrite andb_false_r.
    unfold bind at 1. unfold ret at 1.
    unfold ut_default.aligned_new_arr, ut.aligned_new_arr_withkey.
    rewrite Hwrap. unfold bind at 1.
    rewrite Halloc. non_null mem.
    rewrite (construct_upwards_all mem (sizeof_T E * Z.of_nat n) n fuel 0
               s1) by (assumption || lia).
    reflexivity. }
  split.
  { unfold aligned_array_pointer.destructor, aligned_array_pointer.dealloc.
    non_null mem. cbn [negb].
    unfold bind at 1. unfold ut.aligned_delete_arr, bind at 1.
    unfold ut.Aligned_datalen. cbn [aligned_mem after_ctor_calls].
    rewrite Hb, Hsize.
    unfold bind at 1.
    rewrite (destroy_upwards_run E HE mem (sizeof_T E * Z.of_nat n) n)
      by lia.
    unfold ut.aligned_free.
    rewrite (Aligned_free_live mem b fuel _ Hmem) by exact Hb.
    reflexivity. }
  cbn [trace aligned_mem after_ctor_calls]. rewrite <- !app_assoc.
  split; [|split; [apply lookup_delete_eq|reflexivity]].
  rewrite <- (ctor_run_elements E mem n 0),
    <- (dtor_run_ascending E mem n 0).
  replace (element E mem 0) with (mem + 0) by (unfold element; lia).
  reflexivity.
Qed.

End UtMore.

(** ** The further theorems at the sample environments *)

Lemma sample_ctors_succeed (s : state) (n : nat) (args : nat -> list Z) :
  ctors_succeed sample_env s n args.
Proof. intros i Hi. reflexivity. Defined.

Lemma X5_witness_first_and_no_success :
  fst (allocate sample_env sample_allocator 3 0 9 false 61%nat
         initial_state) = Ret 4128
  /\ fst (allocate exhausted_env sample_allocator 3 0 9 false 4%nat
            initial_state) = Throw bad_alloc.
Proof.
  split.
  - destruct (X5_allocate_is_decided_by_the_first_success sample_env
                ltac:(unfold env_ok, SIZE_MAX; simpl; lia)
                sample_allocator 3 0 9 false 61%nat initial_state
                ltac:(vm_compute; split; discriminate)
                ltac:(simpl; lia)) as [Hfirst _].
    rewrite (Hfirst 0%nat ltac:(vm_compute; lia)
               ltac:(intros j Hj; lia) ltac:(vm_compute; discriminate)).
    reflexivity.
  - destruct (X5_allocate_is_decided_by_the_first_success exhausted_env
                ltac:(unfold env_ok, SIZE_MAX; simpl; lia)
                sample_allocator 3 0 9 false 4%nat initial_state
                ltac:(vm_compute; split; discriminate)
                ltac:(simpl; lia)) as [_ Hnone].
    rewrite (Hnone ltac:(intros j Hj; reflexivity)). reflexivity.
Defined.

Lemma X6_witness_sample_block :
  exists s2 : state,
    deallocate sample_env 4128 61%nat sample_block_state = (Ret tt, s2)
    /\ accounted_bytes (trace s2) = accounted_bytes (trace initial_state).
Proof.
  destruct (X6_deallocate_undoes_allocate sample_env
              ltac:(unfold env_ok, SIZE_MAX; simpl; lia)
              sample_allocator 3 0 9 false 61%nat initial_state
              sample_block_state 4128
              ltac:(lia) ltac:(simpl; lia) ltac:(vm_compute; reflexivity))
    as (s2 & Hfree & _ & _ & Hbalance & _).
  exists s2. split; [exact Hfree|exact Hbalance].
Defined.

Lemma X7_witness_flaky_allocator :
  exists s' : state,
    reallocate flaky_env sample_allocator 4128 10 11 4%nat
      flaky_block_state = (Ret 0, s')
    /\ pfx_mem s' = pfx_mem flaky_block_state.
Proof.
  destruct (X7_failed_reallocate_leaves_the_block flaky_env
              ltac:(unfold env_ok, SIZE_MAX; simpl; lia)
              sample_allocator 4128 10 11 4%nat flaky_block_state
              (mk_pfx 5 7 56)
              ltac:(lia) ltac:(vm_compute; split; [reflexivity|discriminate])
              ltac:(simpl; lia) ltac:(vm_compute; reflexivity)
              ltac:(intros j Hj; reflexivity))
    as (s' & Hrun & Hkept & _).
  exists s'. split; [exact Hrun|exact Hkept].
Defined.

Lemma X8_witness_sample_resize :
  n_elements_allocated sample_env 8224 61%nat
    (snd (reallocate sample_env sample_allocator 4128 10 11 61%nat
            sample_block_state))
  = (Ret 10,
     snd (reallocate sample_env sample_allocator 4128 10 11 61%nat
            sample_block_state)).
Proof.
  exact (proj1 (X8_reallocate_records_the_new_size sample_env
                  ltac:(unfold env_ok, SIZE_MAX; simpl; lia)
                  sample_allocator 4128 10 11 61%nat sample_block_state
                  _ (mk_pfx 5 7 56) 8224
                  ltac:(lia)
                  ltac:(vm_compute; split; [reflexivity|discriminate])
                  ltac:(simpl; lia) ltac:(vm_compute; reflexivity)
                  ltac:(vm_compute; reflexivity) ltac:(lia))).
Defined.

Lemma X9_witness_three_elements :
  fst (new_array sample_env sample_allocator 3 9 61%nat initial_state)
  = Ret 4128.
Proof.
  destruct (X9_new_array_builds_every_element sample_env
              ltac:(unfold env_ok, SIZE_MAX; simpl; lia)
              sample_allocator 3 9 61%nat initial_state sample_block_state
              4128 ltac:(lia) ltac:(vm_compute; reflexivity)
              (sample_ctors_succeed _ _ _)) as (Hnew & _).
  cbv zeta in Hnew. change (Z.of_nat 3) with 3 in Hnew.
  rewrite Hnew. reflexivity.
Defined.

Lemma X10_witness_three_elements :
  exists (s3 : state) (built undone : list event),
    delete_array sample_env 4128 61%nat
      (snd (new_array sample_env sample_allocator 3 9 61%nat
              initial_state)) = (Ret tt, s3)
    /\ ctor_addrs built = [4128; 4136; 4144]
    /\ dtor_calls undone = rev (ctor_addrs built)
    /\ accounted_bytes (trace s3) = accounted_bytes (trace initial_state).
Proof.
  destruct (X10_delete_array_undoes_new_array sample_env
              ltac:(unfold env_ok, SIZE_MAX; simpl; lia)
              sample_allocator 3 9 61%nat initial_state sample_block_state
              (snd (new_array sample_env sample_allocator 3 9 61%nat
                      initial_state))
              4128 ltac:(lia) ltac:(simpl; lia)
              ltac:(vm_compute; reflexivity) (sample_ctors_succeed _ _ _)
              ltac:(vm_compute; reflexivity))
    as (s3 & built & undone & Hdelete & _ & _ & Hbuilt & Hundone & _ & _
        & Hbalance).
  exists s3, built, undone.
  split; [exact Hdelete|]. split; [exact Hbuilt|].
  split; [exact Hundone|exact Hbalance].
Defined.

Lemma X11_witness_exhausted_allocator :
  fst (new_array exhausted_env sample_allocator 3 9 4%nat initial_state)
  = Throw bad_alloc.
Proof.
  destruct (X11_new_array_throws_instead_of_returning_null exhausted_env
              ltac:(unfold env_ok, SIZE_MAX; simpl; lia)
              sample_allocator 3 9 4%nat initial_state) as [_ Hthrow].
  destruct (Hthrow bad_alloc
              (snd (allocate exhausted_env sample_allocator 3 0 9 false
                      4%nat initial_state))
              ltac:(vm_compute; reflexivity)) as [Hnew _].
  rewrite Hnew. reflexivity.
Defined.

Lemma X13_witness_fitting_and_wrapping_request :
  (exists ls1 ls2 : large_state,
      allocate_large sample_env sample_large_env sample_allocator 3
        (mk_large initial_state []) = (Ret 8192, ls1)
      /\ large_page_size sample_large_env 8192 ls1 = (Ret 4096, ls1)
      /\ deallocate_large sample_large_env 8192 ls1 = (Ret tt, ls2)
      /\ large_calls ls2
         = [OsMemAllocLarge 4120 8192 4096; OsMemFreeLarge 4096 8192])
  /\ (exists ls1 ls2 : large_state,
         allocate_large sample_env sample_large_env sample_allocator
           2305843009213693947 (mk_large initial_state [])
         = (Ret 8192, ls1)
         /\ large_page_size sample_large_env 8192 ls1 = (Ret 0, ls1)
         /\ deallocate_large sample_large_env 8192 ls1 = (Ret tt, ls2)
         /\ large_calls ls2
            = [OsMemAllocLarge 4056 4096 4096; OsMemFreeLarge 4096 4096]).
Proof.
  assert (env_ok sample_env) as Hok
    by (unfold env_ok, SIZE_MAX; simpl; lia).
  split.
  - pose proof (X13_large_allocation_round_trip sample_env sample_large_env
                  Hok sample_allocator 3 (mk_large initial_state [])
                  ltac:(vm_compute; split; [reflexivity|discriminate])
                  ltac:(vm_compute; split; discriminate))
      as Hround.
    cbv zeta in Hround.
    destruct (Hround ltac:(vm_compute; split; discriminate)
                ltac:(vm_compute; discriminate))
      as (ls1 & ls2 & Halloc & _ & Hsize & _ & _ & Hfree & Hcalls & _).
    exists ls1, ls2.
    split; [exact Halloc|]. split; [exact Hsize|].
    split; [exact Hfree|exact Hcalls].
  - pose proof (X13_large_allocation_round_trip sample_env sample_large_env
                  Hok sample_allocator 2305843009213693947
                  (mk_large initial_state [])
                  ltac:(vm_compute; split; [reflexivity|discriminate])
                  ltac:(vm_compute; split; discriminate))
      as Hround.
    cbv zeta in Hround.
    destruct (Hround ltac:(vm_compute; split; discriminate)
                ltac:(vm_compute; discriminate))
      as (ls1 & ls2 & Halloc & _ & Hsize & _ & _ & Hfree & Hcalls & _).
    exists ls1, ls2.
    split; [exact Halloc|]. split; [exact Hsize|].
    split; [exact Hfree|exact Hcalls].
Defined.

Lemma X14_witness_one_object :
  exists (h : ut_new_pfx_t) (s2 s3 : state),
    ut.new_withkey sample_env 9 [1; 2] 61%nat initial_state = (Ret 4128, s2)
    /\ ut.delete_ sample_env 4128 61%nat s2 = (Ret tt, s3)
    /\ pfx_mem s3 !! (4128 - sizeof_pfx sample_env) = None.
Proof.
  destruct (X14_delete_undoes_new_withkey sample_env 9 [1; 2] 61%nat
              initial_state
              (snd (ut.malloc_withkey sample_env 9 8 61%nat initial_state))
              4128 ltac:(vm_compute; reflexivity) ltac:(lia)
              ltac:(reflexivity))
    as (h & s2 & s3 & _ & Hnew & Hdelete & _ & Hgone & _).
  exists h, s2, s3.
  split; [exact Hnew|]. split; [exact Hdelete|exact Hgone].
Defined.

Lemma X15_witness_three_elements :
  (exists (s2 s3 : state) (undone : list event),
      ut.new_arr_withkey_count sample_env 9 3 100%nat initial_state
      = (Ret 4128, s2)
      /\ ut.delete_arr sample_env 4128 100%nat s2 = (Ret tt, s3)
      /\ dtor_calls undone = [4128; 4136; 4144]
      /\ freed_blocks undone = [4096])
  /\ (exists (s2 s3 : state) (undone : list event),
         3 < 2305843009213693955
         /\ ut.new_arr_withkey_count sample_env 9 2305843009213693955
              100%nat initial_state
            = (Ret 4128, s2)
         /\ ut.delete_arr sample_env 4128 100%nat s2 = (Ret tt, s3)
         /\ dtor_calls undone = [4128; 4136; 4144]).
Proof.
  destruct (X15_delete_arr_undoes_new_arr_withkey sample_env
              ltac:(unfold env_ok, SIZE_MAX; simpl; lia) 3 100%nat
              ltac:(lia) ltac:(vm_compute; discriminate)) as [_ Hcount].
  split.
  - destruct (Hcount 9 3 initial_state
                (snd (ut.Alloc_alloc sample_env false 24 9 100%nat
                        initial_state))
                4128 ltac:(vm_compute; split; discriminate)
                ltac:(vm_compute; reflexivity)
                ltac:(vm_compute; reflexivity) ltac:(lia)
                (sample_ctors_succeed _ _ _))
      as (_ & _ & s2 & s3 & undone & Hnew & _ & Hdelete & _ & Hdtors
          & Hfreed).
    exists s2, s3, undone.
    split; [exact Hnew|]. split; [exact Hdelete|].
    split; [exact Hdtors|exact Hfreed].
  - destruct (Hcount 9 2305843009213693955 initial_state
                (snd (ut.Alloc_alloc sample_env false 24 9 100%nat
                        initial_state))
                4128 ltac:(vm_compute; split; discriminate)
                ltac:(vm_compute; reflexivity)
                ltac:(vm_compute; reflexivity) ltac:(lia)
                (sample_ctors_succeed _ _ _))
      as (_ & Hfewer & s2 & s3 & undone & Hnew & _ & Hdelete & _ & Hdtors
          & _).
    exists s2, s3, undone.
    split; [exact (Hfewer ltac:(vm_compute; reflexivity))|].
    split; [exact Hnew|]. split; [exact Hdelete|exact Hdtors].
Defined.

Lemma X16_witness_one_object :
  exists (s2 s3 : state),
    aligned_pointer.alloc sample_env 64 0 [1; 2] 61%nat initial_state
    = (Ret 4160, s2)
    /\ aligned_pointer.destructor sample_env 4160 61%nat s2 = (Ret 0, s3)
    /\ aligned_mem s3 !! 4160 = None.
Proof.
  destruct (X16_aligned_pointer_releases_what_it_holds sample_env 64 [1; 2]
              61%nat initial_state
              (snd (ut.aligned_alloc_withkey sample_env 0 8 64 61%nat
                      initial_state))
              4160 ltac:(vm_compute; reflexivity) ltac:(lia)
              ltac:(reflexivity))
    as (b & s2 & s3 & _ & Halloc & Hdestroy & _ & Hgone & _).
  exists s2, s3.
  split; [exact Halloc|]. split; [exact Hdestroy|exact Hgone].
Defined.

Lemma X17_witness_three_elements :
  (exists (s2 s3 : state),
      aligned_array_pointer.alloc sample_env 64 0 3 61%nat initial_state
      = (Ret 4160, s2)
      /\ aligned_array_pointer.destructor sample_env 4160 61%nat s2
         = (Ret 0, s3)
      /\ aligned_mem s3 !! 4160 = None)
  /\ (exists (s2 s3 : state),
         3 < 2305843009213693955
         /\ aligned_array_pointer.alloc sample_env 64 0 2305843009213693955
              61%nat initial_state
            = (Ret 4160, s2)
         /\ aligned_array_pointer.destructor sample_env 4160 61%nat s2
            = (Ret 0, s3)
         /\ aligned_mem s3 !! 4160 = None).
Proof.
  split.
  - destruct (X17_aligned_array_pointer_releases_what_it_holds sample_env
                ltac:(unfold env_ok, SIZE_MAX; simpl; lia) 64 3 3 61%nat
                initial_state
                (snd (ut.aligned_alloc_withkey sample_env 0 24 64 61%nat
                        initial_state))
                4160 ltac:(lia) ltac:(vm_compute; split; discriminate)
                ltac:(vm_compute; reflexivity)
                ltac:(vm_compute; reflexivity) ltac:(lia)
                (sample_ctors_succeed _ _ _))
      as (_ & _ & b & s2 & s3 & _ & Halloc & Hdestroy & _ & Hgone & _).
    exists s2, s3.
    split; [exact Halloc|]. split; [exact Hdestroy|exact Hgone].
  - destruct (X17_aligned_array_pointer_releases_what_it_holds sample_env
                ltac:(unfold env_ok, SIZE_MAX; simpl; lia) 64
                2305843009213693955 3 61%nat
                initial_state
                (snd (ut.aligned_alloc_withkey sample_env 0 24 64 61%nat
                        initial_state))
                4160 ltac:(lia) ltac:(vm_compute; split; discriminate)
                ltac:(vm_compute; reflexivity)
                ltac:(vm_compute; reflexivity) ltac:(lia)
                (sample_ctors_succeed _ _ _))
      as (_ & Hfewer & b & s2 & s3 & _ & Halloc & Hdestroy & _ & Hgone & _).
    exists s2, s3.
    split; [exact (Hfewer ltac:(vm_compute; reflexivity))|].
    split; [exact Halloc|]. split; [exact Hdestroy|exact Hgone].
Defined.
